(** * Epidemiological CSV services: data and chart endpoints

    A shallow embedding of the six Flask services under [server/]:
    the JSON data services [hiv.py], [malaria.py], [measles.py] and the
    chart services [charts_api.py], [malaria_charts.py],
    [measles_charts.py].

    Conventions of the embedding.
    - Text is [string] over ASCII; [str.lower], [str.strip] and the
      regular expression class [\d] are the ASCII ones.
    - A table cell is a missing value, a number or a text.  Numbers are
      kept abstract behind the class [Numeric] (pandas holds int64 and
      float64 columns); the integer instance, with the wrap-around of
      int64 sums, is used for running the code on concrete tables, and
      the instance [pynum], which tells an int64 from a float64, where
      the text of a number depends on its dtype.
    - A [DataFrame] is a header with rows.  The content of a CSV file on
      disk is represented by the frame [pd.read_csv] parses it to; a
      column name denotes the first column of that name.
    - Views run in the monad [M]: state passing over a [world] that
      holds the files, the pyplot registry of open figures and a trace
      of the effects performed, console output included; a raised
      exception leaves the effects done so far in place.  Requests are
      served one after the other.
    - The renderer of figures and the compiler of regular expressions
      are parameters ([Libs]); a figure is the sequence of the calls
      made on it. *)

From Stdlib Require Import ZArith List String Ascii Bool Lia.
From Stdlib Require Import Permutation Sorted DecimalString DecimalPos.
Import ListNotations.
Open Scope string_scope.
Open Scope list_scope.
Open Scope Z_scope.

Set Implicit Arguments.

(* ===================================================================== *)
(** * Python text operations *)
(* ===================================================================== *)

Module PyStr.

Definition is_digit (a : ascii) : bool :=
  let n := N_of_ascii a in (48 <=? n)%N && (n <=? 57)%N.

(** Python's [str.isspace] on ASCII: space, \t, \n, \v, \f, \r and the
    separators 28..31. *)
Definition is_space (a : ascii) : bool :=
  let n := N_of_ascii a in
  (n =? 32)%N || ((9 <=? n)%N && (n <=? 13)%N)
  || ((28 <=? n)%N && (n <=? 31)%N).

Definition is_upper (a : ascii) : bool :=
  let n := N_of_ascii a in (65 <=? n)%N && (n <=? 90)%N.

Definition lower_ascii (a : ascii) : ascii :=
  if is_upper a then ascii_of_N (N_of_ascii a + 32) else a.

(** [s.lower()] *)
Fixpoint lower (s : string) : string :=
  match s with
  | EmptyString => EmptyString
  | String a r => String (lower_ascii a) (lower r)
  end.

Fixpoint lstrip (s : string) : string :=
  match s with
  | EmptyString => EmptyString
  | String a r => if is_space a then lstrip r else s
  end.

Fixpoint rstrip (s : string) : string :=
  match s with
  | EmptyString => EmptyString
  | String a r =>
      match rstrip r with
      | EmptyString => if is_space a then EmptyString else String a EmptyString
      | r' => String a r'
      end
  end.

(** [s.strip()] *)
Definition strip (s : string) : string := rstrip (lstrip s).

(** [s.startswith(p)] *)
Definition startswith (p s : string) : bool := String.prefix p s.

(** [s.replace(',', '')] *)
Fixpoint remove_commas (s : string) : string :=
  match s with
  | EmptyString => EmptyString
  | String a r =>
      if Ascii.eqb a "," then remove_commas r else String a (remove_commas r)
  end.

(** The longest prefix of digits. *)
Fixpoint take_digits (s : string) : string :=
  match s with
  | EmptyString => EmptyString
  | String a r => if is_digit a then String a (take_digits r) else EmptyString
  end.

(** [re.search(r'\d+', s)]: the leftmost, longest run of digits;
    [None] when [s] holds no digit. *)
Fixpoint search_digits (s : string) : option string :=
  match s with
  | EmptyString => None
  | String a r => if is_digit a then Some (take_digits s) else search_digits r
  end.

Definition digit_val (a : ascii) : Z := Z.of_N (N_of_ascii a) - 48.

Fixpoint int_of_digits_acc (acc : Z) (s : string) : Z :=
  match s with
  | EmptyString => acc
  | String a r => int_of_digits_acc (10 * acc + digit_val a) r
  end.

(** [int(m)] for a text [m] of decimal digits. *)
Definition int_of_digits (s : string) : Z := int_of_digits_acc 0 s.

Fixpoint all_digits (s : string) : bool :=
  match s with
  | EmptyString => true
  | String a r => is_digit a && all_digits r
  end.

(** [int(s)] on the texts the services meet: surrounding white space,
    an optional sign, then decimal digits; anything else is a
    [ValueError] ([None]). *)
Definition py_int (s : string) : option Z :=
  match strip s with
  | EmptyString => None
  | String a r =>
      if Ascii.eqb a "-" then
        match r with
        | EmptyString => None
        | _ => if all_digits r then Some (- int_of_digits r) else None
        end
      else if Ascii.eqb a "+" then
        match r with
        | EmptyString => None
        | _ => if all_digits r then Some (int_of_digits r) else None
        end
      else if all_digits (String a r) then Some (int_of_digits (String a r))
      else None
  end.

(** [str(n)] for a Python int. *)
Definition str_of_int (n : Z) : string := NilZero.string_of_int (Z.to_int n).

(** [needle in s] *)
Fixpoint contains (needle s : string) : bool :=
  String.prefix needle s
  || match s with
     | EmptyString => false
     | String _ r => contains needle r
     end.

Fixpoint split_acc (sep : ascii) (cur : string) (s : string) : list string :=
  match s with
  | EmptyString => [cur]
  | String a r =>
      if Ascii.eqb a sep then cur :: split_acc sep EmptyString r
      else split_acc sep (cur ++ String a EmptyString)%string r
  end.

(** [s.split(',')] *)
Definition split_commas (s : string) : list string := split_acc "," EmptyString s.

(** [", ".join(l)] *)
Definition join (l : list string) : string := String.concat ", " l.

(** The text made of one double quote. *)
Definition dquote : string := String "034"%char EmptyString.

Definition is_empty (s : string) : bool :=
  match s with EmptyString => true | _ => false end.

(** Lexicographic order on code points, the order of [list.sort()] on
    column names. *)
Definition leb (a b : string) : bool := String.leb a b.

End PyStr.

(* ===================================================================== *)
(** * Values, exceptions and the numeric interface *)
(* ===================================================================== *)

(** The numbers a frame holds.  pandas stores them as int64 or float64;
    the services only add them, average them, compare them, print them
    and parse them, and [melt] stacks columns of both kinds into one
    float64 column, so these operations form the interface. *)
Class Numeric (num : Type) : Type := {
  num_of_Z : Z -> num;                 (* a Python int stored in a frame *)
  num_add : num -> num -> num;         (* column and row sums *)
  num_mean : num -> nat -> num;        (* a sum divided by a count *)
  num_leb : num -> num -> bool;        (* <= on numbers that are not NaN *)
  num_str : num -> string;             (* str(x) *)
  num_parse : string -> option num;    (* pd.to_numeric on one text *)
  num_is_float : num -> bool;          (* the number is a float64, not an int64 *)
  num_to_float : num -> num            (* x.astype('float64') *)
}.

(** The order laws [nlargest] and [max] rely on; they hold for int64 and
    for float64 values other than NaN. *)
Class NumericOrder (num : Type) `{Numeric num} : Prop := {
  num_leb_total : forall a b : num, num_leb a b = true \/ num_leb b a = true;
  num_leb_trans : forall a b c : num,
      num_leb a b = true -> num_leb b c = true -> num_leb a c = true
}.

Arguments NumericOrder num {_}.

Definition num_eqb {num} `{Numeric num} (a b : num) : bool :=
  num_leb a b && num_leb b a.

(** A table cell: missing ([NaN]), a number or a text. *)
Inductive cell (num : Type) : Type :=
| NaN
| Num (x : num)
| Str (s : string).
Arguments NaN {num}.
Arguments Num {num} x.
Arguments Str {num} s.

Inductive exn_class : Type :=
| FileNotFoundError | ParserError | KeyError | ValueError | TypeError
| AttributeError | OverflowError | ReError.

(** An exception: its class and [str(e)]. *)
Record exn : Type := Exn { exn_cls : exn_class; exn_msg : string }.

Inductive outcome (A : Type) : Type :=
| Ok (a : A)
| Raise (e : exn).
Arguments Ok {A} a.
Arguments Raise {A} e.

Definition obind {A B} (m : outcome A) (k : A -> outcome B) : outcome B :=
  match m with
  | Ok a => k a
  | Raise e => Raise e
  end.

Declare Scope outcome_scope.
Delimit Scope outcome_scope with outcome.
Notation "'let?' x ':=' m 'in' k" := (obind m (fun x => k))
  (at level 10, x name, m at level 100, k at level 200) : outcome_scope.

Fixpoint omap {A B} (f : A -> outcome B) (l : list A) : outcome (list B) :=
  match l with
  | [] => Ok []
  | x :: r =>
      match f x with
      | Ok y => match omap f r with
                | Ok ys => Ok (y :: ys)
                | Raise e => Raise e
                end
      | Raise e => Raise e
      end
  end.

(** JSON values as [jsonify] receives them. *)
#[warnings="-register-all"]
Inductive json (num : Type) : Type :=
| JNaN
| JNum (x : num)
| JStr (s : string)
| JArr (l : list (json num))
| JObj (fields : list (string * json num)).
Arguments JNaN {num}.
Arguments JNum {num} x.
Arguments JStr {num} s.
Arguments JArr {num} l.
Arguments JObj {num} fields.

Definition json_of_cell {num} (c : cell num) : json num :=
  match c with
  | NaN => JNaN
  | Num x => JNum x
  | Str s => JStr s
  end.

(* ===================================================================== *)
(** * Sorting *)
(* ===================================================================== *)

Section Sorting.
Variable A : Type.
Variable le : A -> A -> bool.

(** Stable insertion: [x] goes before the first element it is [le]. *)
Fixpoint insert_sorted (x : A) (l : list A) : list A :=
  match l with
  | [] => [x]
  | y :: r => if le x y then x :: y :: r else y :: insert_sorted x r
  end.

Definition stable_sort (l : list A) : list A :=
  fold_right insert_sorted [] l.

(** Keep the first occurrence of each element. *)
Fixpoint dedup (eqb : A -> A -> bool) (l : list A) : list A :=
  match l with
  | [] => []
  | x :: r => x :: filter (fun y => negb (eqb x y)) (dedup eqb r)
  end.
End Sorting.

(* ===================================================================== *)
(** * The dataframe library *)
(* ===================================================================== *)

(** A frame: the header and the rows, each row a list of cells in header
    order.  A row shorter than the header is missing its last cells. *)
Record DataFrame (num : Type) : Type :=
  Frame { columns : list string; rows : list (list (cell num)) }.
Arguments Frame {num} columns rows.

(** The dtype of a column. *)
Inductive dtype : Type := Int64 | Float64 | Object.

Definition is_object (d : dtype) : bool :=
  match d with Object => true | _ => false end.

Definition is_float64 (d : dtype) : bool :=
  match d with Float64 => true | _ => false end.

(** The dtype NumPy finds for columns stacked into one: object when one
    of them is, float64 when int64 meets float64. *)
Definition common_dtype (ds : list dtype) : dtype :=
  if existsb is_object ds then Object
  else if existsb is_float64 ds then Float64
  else Int64.

Section Pandas.
Context {num : Type} `{Numeric num}.

Local Abbreviation frame := (DataFrame num).
Local Abbreviation row := (list (cell num)).

Definition key_error (name : string) : exn :=
  Exn KeyError ("'" ++ name ++ "'")%string.

Fixpoint index_of (name : string) (cols : list string) : option nat :=
  match cols with
  | [] => None
  | c :: r =>
      if String.eqb c name then Some O
      else match index_of name r with
           | Some i => Some (S i)
           | None => None
           end
  end.

Definition row_get (i : nat) (r : row) : cell num := nth i r NaN.

(** [row[name]] for a row of a frame with header [cols]; missing when
    there is no such column. *)
Definition cell_of (cols : list string) (name : string) (r : row) : cell num :=
  match index_of name cols with
  | Some i => row_get i r
  | None => NaN
  end.

(** A row cut or filled with missing cells to [n] cells. *)
Definition pad (n : nat) (r : row) : row := firstn n (r ++ repeat NaN n).

Fixpoint replace_nth (i : nat) (v : cell num) (r : row) : row :=
  match i, r with
  | O, _ :: t => v :: t
  | O, [] => [v]
  | S j, c :: t => c :: replace_nth j v t
  | S j, [] => NaN :: replace_nth j v []
  end.

(** [pd.DataFrame()] *)
Definition empty_frame : frame := Frame [] [].

(** [df.empty]: some axis has length 0. *)
Definition df_empty (df : frame) : bool :=
  match columns df, rows df with
  | [], _ => true
  | _, [] => true
  | _, _ => false
  end.

(** [df['name']] *)
Definition get_column (df : frame) (name : string) : outcome (list (cell num)) :=
  match index_of name (columns df) with
  | Some i => Ok (map (row_get i) (rows df))
  | None => Raise (key_error name)
  end.

(** [df[names]] *)
Definition select_columns (df : frame) (names : list string) : outcome frame :=
  match omap (fun n => match index_of n (columns df) with
                       | Some i => Ok i
                       | None => Raise (key_error n)
                       end) names with
  | Ok idx => Ok (Frame names (map (fun r => map (fun i => row_get i r) idx) (rows df)))
  | Raise e => Raise e
  end.

(** [df['name'] = vals], [vals] holding one cell per row. *)
Definition set_column (df : frame) (name : string) (vals : list (cell num)) : frame :=
  match index_of name (columns df) with
  | Some i =>
      Frame (columns df)
            (map (fun rv => replace_nth i (snd rv) (fst rv)) (combine (rows df) vals))
  | None =>
      Frame (columns df ++ [name])
            (map (fun rv => pad (List.length (columns df)) (fst rv) ++ [snd rv])
                 (combine (rows df) vals))
  end.

(** [df.columns = df.columns.str.strip()] *)
Definition strip_columns (df : frame) : frame :=
  Frame (map PyStr.strip (columns df)) (rows df).

Fixpoint assoc (k : string) (m : list (string * string)) : option string :=
  match m with
  | [] => None
  | (a, b) :: r => if String.eqb a k then Some b else assoc k r
  end.

(** [df.rename(columns=m, inplace=True)] *)
Definition rename (m : list (string * string)) (df : frame) : frame :=
  Frame (map (fun c => match assoc c m with Some c' => c' | None => c end) (columns df))
        (rows df).

(** [df[mask]] for a boolean mask with one entry per row. *)
Definition mask_rows (df : frame) (mask : list bool) : frame :=
  Frame (columns df)
        (map fst (filter (fun rb => snd rb) (combine (rows df) mask))).

Definition is_nan (c : cell num) : bool :=
  match c with NaN => true | _ => false end.

Definition is_str (c : cell num) : bool :=
  match c with Str _ => true | _ => false end.

(** [a == b] on cells; a missing value equals nothing. *)
Definition cell_eqb (a b : cell num) : bool :=
  match a, b with
  | Num x, Num y => num_eqb x y
  | Str s, Str t => String.eqb s t
  | _, _ => false
  end.

(** Order of group keys: numbers before texts. *)
Definition cell_leb (a b : cell num) : bool :=
  match a, b with
  | Num x, Num y => num_leb x y
  | Str s, Str t => PyStr.leb s t
  | Num _, Str _ => true
  | Str _, Num _ => false
  | NaN, _ => true
  | _, NaN => false
  end.

(** [str(val)] *)
Definition py_str (c : cell num) : string :=
  match c with
  | NaN => "nan"
  | Num x => num_str x
  | Str s => s
  end.

(** [pd.to_numeric(col, errors='coerce')] *)
Definition to_numeric_cell (c : cell num) : cell num :=
  match c with
  | Str s => match num_parse s with Some x => Num x | None => NaN end
  | _ => c
  end.

Definition fillna_cell (c : cell num) : cell num :=
  match c with NaN => Num (num_of_Z 0) | _ => c end.

(** [df.fillna(0, inplace=True)]; a short row is first filled with the
    cells it misses. *)
Definition fillna0 (df : frame) : frame :=
  Frame (columns df)
        (map (fun r => map fillna_cell (pad (List.length (columns df)) r)) (rows df)).

(** [df.dropna(subset=[name], inplace=True)] *)
Definition dropna (name : string) (df : frame) : outcome frame :=
  match index_of name (columns df) with
  | Some i => Ok (Frame (columns df)
                        (filter (fun r => negb (is_nan (row_get i r))) (rows df)))
  | None => Raise (key_error name)
  end.

(** A cell that makes its column float64: a missing value or a
    float. *)
Definition is_float_cell (c : cell num) : bool :=
  match c with
  | NaN => true
  | Num x => num_is_float x
  | Str _ => false
  end.

(** The dtype [pd.read_csv] gives a column: object when it holds a
    text or no cell at all, float64 when it holds numbers of which
    one is a float or is missing, int64 when it holds integers
    only. *)
Definition column_dtype (c : list (cell num)) : dtype :=
  match c with
  | [] => Object
  | _ => if existsb is_str c then Object
         else if existsb is_float_cell c then Float64
         else Int64
  end.

(** A cell moved into a column of dtype [d]: an int64 stored in a
    float64 column becomes the float of its value; in an object
    column a cell stays the Python object it is. *)
Definition astype_cell (d : dtype) (c : cell num) : cell num :=
  match d, c with
  | Float64, Num x => Num (num_to_float x)
  | _, _ => c
  end.

(** The columns [melt] stacks: those other than [id], with their
    positions. *)
Definition value_vars (id : string) (df : frame) : list (nat * string) :=
  filter (fun jc => negb (String.eqb (snd jc) id))
         (combine (seq 0 (List.length (columns df))) (columns df)).

(** The dtype of the column they are stacked into. *)
Definition value_dtype (id : string) (df : frame) : dtype :=
  common_dtype (map (fun jc => column_dtype (map (row_get (fst jc)) (rows df)))
                    (value_vars id df)).

(** A cell of a value column as the stacked column holds it. *)
Definition stacked (id : string) (df : frame) (c : cell num) : cell num :=
  astype_cell (value_dtype id df) c.

(** [df.melt(id_vars=id, var_name=var, value_name=value)]: for each
    other column in header order, one row per row of [df]; the cells
    of these columns are stacked into one column of their common
    dtype. *)
Definition melt (id var value : string) (df : frame) : outcome frame :=
  match index_of id (columns df) with
  | None => Raise (key_error id)
  | Some i =>
      Ok (Frame [id; var; value]
            (flat_map (fun jc =>
               map (fun r => [row_get i r; Str (snd jc);
                              stacked id df (row_get (fst jc) r)])
                   (rows df)) (value_vars id df)))
  end.

(** [df.groupby(name)]: the groups in key order, missing keys left
    out, each group keeping its rows in frame order. *)
Definition groupby (name : string) (df : frame) : outcome (list (cell num * frame)) :=
  match index_of name (columns df) with
  | None => Raise (key_error name)
  | Some i =>
      let keys :=
        stable_sort cell_leb
          (dedup cell_eqb
             (filter (fun c => negb (is_nan c)) (map (row_get i) (rows df)))) in
      Ok (map (fun k =>
                 (k, Frame (columns df)
                           (filter (fun r => cell_eqb k (row_get i r)) (rows df))))
              keys)
  end.

(** [df.to_dict(orient='records')] *)
Definition to_records (df : frame) : list (list (string * cell num)) :=
  map (fun r => combine (columns df) (pad (List.length (columns df)) r)) (rows df).

Definition json_of_records (rs : list (list (string * cell num))) : json num :=
  JArr (map (fun r => JObj (map (fun kv => (fst kv, json_of_cell (snd kv))) r)) rs).

End Pandas.

(* ===================================================================== *)
(** * Aggregation and selection *)
(* ===================================================================== *)

Section Aggregation.
Context {num : Type} `{Numeric num}.

Local Abbreviation frame := (DataFrame num).
Local Abbreviation row := (list (cell num)).

Definition type_error (msg : string) : exn := Exn TypeError msg.

(** A sum skips missing cells; a text cannot be added to a number. *)
Fixpoint sum_cells_from (acc : num) (l : list (cell num)) : outcome num :=
  match l with
  | [] => Ok acc
  | NaN :: r => sum_cells_from acc r
  | Num x :: r => sum_cells_from (num_add acc x) r
  | Str _ :: _ => Raise (type_error "unsupported operand type(s) for +: 'int' and 'str'")
  end.

(** [col.sum()] *)
Definition sum_cells (l : list (cell num)) : outcome num :=
  sum_cells_from (num_of_Z 0) l.

Definition count_present (l : list (cell num)) : nat :=
  List.length (filter (fun c => negb (is_nan c)) l).

(** [col.mean()]: missing when no cell is present. *)
Definition mean_cells (l : list (cell num)) : outcome (cell num) :=
  match sum_cells l with
  | Ok s => match count_present l with
            | O => Ok NaN
            | n => Ok (Num (num_mean s n))
            end
  | Raise e => Raise e
  end.

(** [df.groupby(key)[name].agg()] as the pairs (index, value). *)
Definition groupby_agg (agg : list (cell num) -> outcome (cell num))
           (key name : string) (df : frame) : outcome (list (cell num * cell num)) :=
  match groupby key df with
  | Raise e => Raise e
  | Ok groups =>
      match get_column df name with
      | Raise e => Raise e
      | Ok _ =>
          omap (fun kg =>
                  match get_column (snd kg) name with
                  | Raise e => Raise e
                  | Ok c => match agg c with
                            | Ok v => Ok (fst kg, v)
                            | Raise e => Raise e
                            end
                  end) groups
      end
  end.

Definition sum_agg (l : list (cell num)) : outcome (cell num) :=
  match sum_cells l with Ok s => Ok (Num s) | Raise e => Raise e end.

Definition groupby_sum := groupby_agg sum_agg.
Definition groupby_mean := groupby_agg mean_cells.

(** The larger of two present cells; Python refuses to compare a text
    with a number. *)
Definition cell_max (a b : cell num) : outcome (cell num) :=
  match a, b with
  | NaN, _ => Ok b
  | _, NaN => Ok a
  | Num x, Num y => Ok (if num_leb x y then b else a)
  | Str s, Str t => Ok (if PyStr.leb s t then b else a)
  | _, _ => Raise (type_error "'>=' not supported between instances of 'str' and 'int'")
  end.

(** [col.max()] *)
Fixpoint col_max_from (acc : cell num) (l : list (cell num)) : outcome (cell num) :=
  match l with
  | [] => Ok acc
  | c :: r => match cell_max acc c with
              | Ok m => col_max_from m r
              | Raise e => Raise e
              end
  end.

Definition col_max (l : list (cell num)) : outcome (cell num) := col_max_from NaN l.

(** [a] is placed no later than [b] in descending order, missing
    cells last. *)
Definition desc_first (a b : cell num) : bool :=
  match a, b with
  | Num x, Num y => num_leb y x
  | NaN, NaN => true
  | NaN, _ => false
  | _, _ => true
  end.

(** [a] is placed no later than [b] in ascending order, missing cells
    last. *)
Definition asc_first (a b : cell num) : bool :=
  match a, b with
  | Num x, Num y => num_leb x y
  | NaN, NaN => true
  | NaN, _ => false
  | _, _ => true
  end.

(** [df.nlargest(n, name)]: the first [n] rows in descending order of
    the column, ties in frame order; a column of texts is refused. *)
Definition nlargest (n : nat) (name : string) (df : frame) : outcome frame :=
  match index_of name (columns df) with
  | None => Raise (key_error name)
  | Some i =>
      if existsb is_str (map (row_get i) (rows df)) then
        Raise (type_error "Column has dtype object, cannot use method 'nlargest' with this dtype")
      else
        Ok (Frame (columns df)
              (firstn n (stable_sort
                           (fun a b => desc_first (row_get i a) (row_get i b))
                           (rows df))))
  end.

(** [df.sort_values(name, ascending=True)]; rows with equal keys are
    kept in frame order. *)
Definition sort_values (name : string) (df : frame) : outcome frame :=
  match index_of name (columns df) with
  | None => Raise (key_error name)
  | Some i =>
      Ok (Frame (columns df)
            (stable_sort (fun a b => asc_first (row_get i a) (row_get i b)) (rows df)))
  end.

(** [df[names].sum()]: one sum per named column. *)
Definition sum_axis0 (names : list string) (df : frame) : outcome (list (cell num)) :=
  match select_columns df names with
  | Raise e => Raise e
  | Ok sub =>
      omap (fun i => sum_agg (map (row_get i) (rows sub)))
           (seq 0 (List.length names))
  end.

(** [df[names].sum(axis=1)]: one sum per row. *)
Definition sum_axis1 (names : list string) (df : frame) : outcome (list (cell num)) :=
  match select_columns df names with
  | Raise e => Raise e
  | Ok sub => omap sum_agg (rows sub)
  end.

(** [row[names].values] for one row of a frame with header [cols]. *)
Definition row_values (cols names : list string) (r : row) : outcome (list (cell num)) :=
  match select_columns (Frame cols [r]) names with
  | Ok sub => Ok (List.concat (rows sub))
  | Raise e => Raise e
  end.

(** [col.str]: the accessor exists on columns of dtype object, that is
    on an empty column and on a column holding a text. *)
Definition str_accessor (col : list (cell num)) : outcome (list (cell num)) :=
  match col with
  | [] => Ok col
  | _ => if existsb is_str col then Ok col
         else Raise (Exn AttributeError "Can only use .str accessor with string values!")
  end.

(** [col.str.lower()]: cells that are not texts become missing. *)
Definition str_lower (c : cell num) : cell num :=
  match c with
  | Str s => Str (PyStr.lower s)
  | _ => NaN
  end.

(** [for col in cols: df = step df col], stopping at the first
    exception. *)
Fixpoint for_each_column (step : frame -> string -> outcome frame)
         (cols : list string) (df : frame) : outcome frame :=
  match cols with
  | [] => Ok df
  | c :: r => match step df c with
              | Ok df' => for_each_column step r df'
              | Raise e => Raise e
              end
  end.

(** [df[col] = pd.to_numeric(df[col], errors='coerce')] *)
Definition to_numeric_column (df : frame) (col : string) : outcome frame :=
  match get_column df col with
  | Ok c => Ok (set_column df col (map to_numeric_cell c))
  | Raise e => Raise e
  end.

End Aggregation.

(* ===================================================================== *)
(** * Integers as frame numbers *)
(* ===================================================================== *)

Definition int64_min : Z := - 2 ^ 63.
Definition int64_max : Z := 2 ^ 63 - 1.

Definition in_int64 (z : Z) : bool := (int64_min <=? z) && (z <=? int64_max).

(** Addition of int64 values wraps around. *)
Definition wrap64 (z : Z) : Z := (z + 2 ^ 63) mod 2 ^ 64 - 2 ^ 63.

(** Numbers by their value: a number is written as a Python int whatever
    its dtype, so that storing it in a float64 column changes nothing.
    The first run of digits of the text is that of pandas for every
    number below 10^16 in absolute value, where [str] of a float writes
    the digits of the integer and '.0'. *)
#[export] Instance Int_numeric : Numeric Z := {
  num_of_Z := fun z => z;
  num_add := fun a b => wrap64 (a + b);
  num_mean := fun s n => s / Z.of_nat n;
  num_leb := Z.leb;
  num_str := PyStr.str_of_int;
  num_parse := PyStr.py_int;
  num_is_float := fun _ => false;
  num_to_float := fun z => z
}.

(* ===================================================================== *)
(** * Numbers with their dtype *)
(* ===================================================================== *)

(** float64 values that are integers, given by their value. *)
Module PyFloat.

(** [float(z)]: the float64 nearest to the integer [z], a tie going
    to the even mantissa of 53 bits (for |z| < 2^1024). *)
Definition of_int (z : Z) : Z :=
  let a := Z.abs z in
  let bits := Z.log2 a + 1 in
  if bits <=? 53 then z
  else
    let sh := bits - 53 in
    let q := Z.shiftr a sh in
    let rem := a - Z.shiftl q sh in
    let half := Z.shiftl 1 (sh - 1) in
    let q' := if (half <? rem) || ((rem =? half) && Z.odd q) then q + 1 else q in
    Z.sgn z * Z.shiftl q' sh.

Definition digits_of (a : Z) : Z := Z.of_nat (String.length (PyStr.str_of_int a)).

(** The integers that [float()] rounds to the float [a], for
    [a >= 2^53]: [a] is m * 2^e with a mantissa m of 53 bits, and the
    interval reaches half a step on each side (a quarter below a power
    of two), its ends included when m is even. *)
Definition rounds_to (a c : Z) : bool :=
  let e := Z.log2 a + 1 - 53 in
  let m := Z.shiftr a e in
  let up := Z.shiftl 1 (e - 1) in
  let down := if m =? 2 ^ 52 then Z.shiftl 1 (e - 2) else Z.shiftl 1 (e - 1) in
  if Z.even m then (a - down <=? c) && (c <=? a + up)
  else (a - down <? c) && (c <? a + up).

(** The number of [k] significant digits nearest to [a] that rounds
    to [a], when there is one. *)
Definition with_digits (a : Z) (k : Z) : option Z :=
  let p := 10 ^ (digits_of a - k) in
  let lo := (a / p) * p in
  let hi := lo + p in
  match rounds_to a lo, rounds_to a hi with
  | true, true =>
      if a - lo <? hi - a then Some lo
      else if hi - a <? a - lo then Some hi
      else if Z.even (lo / p) then Some lo else Some hi
  | true, false => Some lo
  | false, true => Some hi
  | false, false => None
  end.

(** The shortest decimal number that rounds to [a]: the digits
    [repr] writes. *)
Fixpoint shortest_among (a : Z) (ks : list Z) : Z :=
  match ks with
  | [] => a
  | k :: r => match with_digits a k with
              | Some c => c
              | None => shortest_among a r
              end
  end.

Definition shortest (a : Z) : Z :=
  shortest_among a (map Z.of_nat (seq 1 17)).

Fixpoint strip_zeros (s : string) : string :=
  match s with
  | EmptyString => EmptyString
  | String c r =>
      match strip_zeros r with
      | EmptyString => if Ascii.eqb c "0" then EmptyString else String c EmptyString
      | r' => String c r'
      end
  end.

(** [str(x)] for the float of value [v]: the digits and '.0' below
    10^16, from there on the shortest digits with an exponent, as in
    '1e+16' and '1.2345678901234567e+19'. *)
Definition repr (v : Z) : string :=
  let a := Z.abs v in
  let sign := if v <? 0 then "-" else EmptyString in
  if a <? 10 ^ 16 then (sign ++ PyStr.str_of_int a ++ ".0")%string
  else
    let s := PyStr.str_of_int (shortest a) in
    let x := Z.of_nat (String.length s) - 1 in
    match strip_zeros s with
    | EmptyString => EmptyString
    | String d EmptyString =>
        (sign ++ String d EmptyString ++ "e+" ++ PyStr.str_of_int x)%string
    | String d r =>
        (sign ++ String d EmptyString ++ "." ++ r ++ "e+" ++ PyStr.str_of_int x)%string
    end.

End PyFloat.

(** A number with its dtype: an int64, or a float64 whose value is an
    integer, as the figures of the malaria and measles files are. *)
Inductive pynum : Type :=
| PInt (z : Z)
| PFloat (z : Z).

Definition pyval (x : pynum) : Z :=
  match x with
  | PInt z => z
  | PFloat z => z
  end.

(** The operations of [Int_numeric] on the values, with the dtype that
    pandas gives the result and the text Python gives each dtype. *)
#[export] Instance Py_numeric : Numeric pynum := {
  num_of_Z := PInt;
  num_add := fun a b =>
               match a, b with
               | PInt x, PInt y => PInt (wrap64 (x + y))
               | _, _ => PFloat (PyFloat.of_int (pyval a + pyval b))
               end;
  num_mean := fun s n => PFloat (PyFloat.of_int (pyval s / Z.of_nat n));
  num_leb := fun a b => pyval a <=? pyval b;
  num_str := fun a =>
               match a with
               | PInt z => PyStr.str_of_int z
               | PFloat z => PyFloat.repr z
               end;
  num_parse := fun s => option_map PInt (PyStr.py_int s);
  num_is_float := fun a => match a with PFloat _ => true | PInt _ => false end;
  num_to_float := fun a => PFloat (PyFloat.of_int (pyval a))
}.

(* ===================================================================== *)
(** * The world of a request: files, pyplot, console *)
(* ===================================================================== *)

(** One call made on a figure or on one of its axes.  Colours, sizes and
    fonts are constants of the source and are left out; every argument
    computed from the data is kept. *)
Inductive draw (num : Type) : Type :=
| Plot (ax : nat) (xs ys : list (cell num)) (label : string)
| Barh (ys ws : list (cell num))
| SetTitle (s : string)
| Suptitle (s : string)
| SetXLabel (s : string)
| SetYLabel (s : string)
| Grid
| TickPlain (ax : nat)
| TickPercent
| TickParams (ax : nat)
| Twinx
| SpineOutward
| Legend
| AutofmtXDate
| InvertYAxis
| TightLayout.
Arguments Plot {num} ax xs ys label.
Arguments Barh {num} ys ws.
Arguments SetTitle {num} s.
Arguments Suptitle {num} s.
Arguments SetXLabel {num} s.
Arguments SetYLabel {num} s.
Arguments Grid {num}.
Arguments TickPlain {num} ax.
Arguments TickPercent {num}.
Arguments TickParams {num} ax.
Arguments Twinx {num}.
Arguments SpineOutward {num}.
Arguments Legend {num}.
Arguments AutofmtXDate {num}.
Arguments InvertYAxis {num}.
Arguments TightLayout {num}.

(** A figure is the sequence of calls made on it. *)
Definition figure (num : Type) : Type := list (draw num).

(** The libraries the services delegate to and that stay abstract: the
    Agg renderer and the regular expression compiler. *)
Class Libs (num : Type) : Type := {
  (* fig.savefig(buffer, format='png', bbox_inches='tight', dpi=100) *)
  render_png : figure num -> list Byte.byte;
  (* re.compile(pat, re.IGNORECASE) for a pattern holding a
     metacharacter: [None] when it does not compile, else the test
     [search(text) is not None] *)
  re_compile_ci : string -> option (string -> bool)
}.

Inductive file_content (num : Type) : Type :=
| CsvFile (parsed : DataFrame num)   (* what pd.read_csv returns for it *)
| BadFile (msg : string)             (* pd.read_csv raises ParserError *)
| PngFile (bytes : list Byte.byte).
Arguments CsvFile {num} parsed.
Arguments BadFile {num} msg.
Arguments PngFile {num} bytes.

Inductive event : Type :=
| EvReadCsv (path : string)
| EvWriteFile (path : string)
| EvPrint (msg : string)
| EvNewFigure
| EvSavefigBuffer
| EvCloseFigure.

(** [figures] is pyplot's registry of open figures, newest first: its
    head is the current figure. *)
Record world (num : Type) : Type := World {
  files : string -> option (file_content num);
  figures : list (figure num);
  trace : list event
}.
Arguments World {num} files figures trace.

Definition M (num A : Type) : Type := world num -> outcome A * world num.

Section Monad.
Context {num : Type}.

Definition ret {A} (a : A) : M num A := fun w => (Ok a, w).

Definition bind {A B} (m : M num A) (k : A -> M num B) : M num B :=
  fun w => match m w with
           | (Ok a, w') => k a w'
           | (Raise e, w') => (Raise e, w')
           end.

Definition raise {A} (e : exn) : M num A := fun w => (Raise e, w).

(** A pure step that may raise. *)
Definition lift {A} (o : outcome A) : M num A := fun w => (o, w).

(** [try: m  except Exception as e: h e] *)
Definition try_except {A} (m : M num A) (h : exn -> M num A) : M num A :=
  fun w => match m w with
           | (Ok a, w') => (Ok a, w')
           | (Raise e, w') => h e w'
           end.

Definition emit (ev : event) : M num unit :=
  fun w => (Ok tt, World (files w) (figures w) (trace w ++ [ev])).

(** [print(msg)] *)
Definition print (msg : string) : M num unit := emit (EvPrint msg).
End Monad.

Declare Scope monad_scope.
Delimit Scope monad_scope with monad.
Notation "x <- m ;; k" := (bind m (fun x => k))
  (at level 61, m at next level, right associativity) : monad_scope.
Notation "m ;;; k" := (bind m (fun _ => k))
  (at level 61, right associativity) : monad_scope.
Open Scope monad_scope.

(** Where [savefig] writes. *)
Inductive sink : Type :=
| ToBuffer                 (* an io.BytesIO() *)
| ToPath (path : string).

(** HTTP responses and requests. *)
Inductive body (num : Type) : Type :=
| BJson (j : json num)
| BText (s : string)
| BBytes (b : list Byte.byte).
Arguments BJson {num} j.
Arguments BText {num} s.
Arguments BBytes {num} b.

Record response (num : Type) : Type :=
  Response { status : Z; payload : body num; mimetype : string }.
Arguments Response {num} status payload mimetype.
Arguments status {num} r.
Arguments payload {num} r.
Arguments mimetype {num} r.

(** The query string of a request. *)
Record request : Type := Request { args : list (string * string) }.

Section Runtime.
Context {num : Type} `{Numeric num} `{Libs num}.

(** What [pd.read_csv(path)] makes of the content found at [path];
    the rows are filled to the width of the header. *)
Definition parse_file (content : option (file_content num)) (path : string)
  : outcome (DataFrame num) :=
  match content with
  | Some (CsvFile df) =>
      Ok (Frame (columns df) (map (pad (List.length (columns df))) (rows df)))
  | Some (BadFile msg) => Raise (Exn ParserError msg)
  | Some (PngFile _) => Raise (Exn ParserError "Error tokenizing data")
  | None =>
      Raise (Exn FileNotFoundError
                 ("[Errno 2] No such file or directory: '" ++ path ++ "'")%string)
  end.

(** [pd.read_csv(path)] *)
Definition read_csv (path : string) : M num (DataFrame num) :=
  emit (EvReadCsv path) ;;;
  fun w => (parse_file (files w path) path, w).

(** ** pyplot

    Within a handler the figure made by [plt.subplots] is pyplot's
    current figure: the local names [fig] and [ax] and the global
    [plt.gca()] denote the same object, the head of the registry. *)

(** [fig, ax = plt.subplots(figsize=...)] *)
Definition plt_subplots : M num unit :=
  emit EvNewFigure ;;;
  fun w => (Ok tt, World (files w) ([] :: figures w) (trace w)).

Definition on_current (d : draw num) : M num unit :=
  fun w => match figures w with
           | f :: r => (Ok tt, World (files w) ((f ++ [d]) :: r) (trace w))
           | [] => (Ok tt, World (files w) [[d]] (trace w))
           end.

(** A call through the local names [fig], [ax]. *)
Definition fig_call (d : draw num) : M num unit := on_current d.

(** A call through [plt.gca()] or [plt.tight_layout()]. *)
Definition plt_call (d : draw num) : M num unit := on_current d.

(** [ax.plot(xs, ys, label=...)]: both sequences must have the same
    length. *)
Definition ax_plot (ax : nat) (xs ys : list (cell num)) (label : string) : M num unit :=
  if Nat.eqb (List.length xs) (List.length ys) then fig_call (Plot ax xs ys label)
  else raise (Exn ValueError "x and y must have same first dimension").

(** [ax.barh(ys, ws)] *)
Definition ax_barh (ys ws : list (cell num)) : M num unit :=
  if Nat.eqb (List.length ys) (List.length ws) then fig_call (Barh ys ws)
  else raise (Exn ValueError "shape mismatch: objects cannot be broadcast to a single shape").

(** [fig.savefig(target, format='png', ...)]: the image goes to the
    buffer, returned here, or to a file. *)
Definition fig_savefig (target : sink) : M num (list Byte.byte) :=
  fun w =>
    let png := render_png (hd [] (figures w)) in
    match target with
    | ToBuffer => (Ok png, World (files w) (figures w) (trace w ++ [EvSavefigBuffer]))
    | ToPath p =>
        (Ok png,
         World (fun q => if String.eqb q p then Some (PngFile png) else files w q)
               (figures w) (trace w ++ [EvWriteFile p]))
    end.

(** [plt.close(fig)] *)
Definition plt_close : M num unit :=
  emit EvCloseFigure ;;;
  fun w => (Ok tt, World (files w) (tl (figures w)) (trace w)).

(** ** Flask *)

(** [jsonify(j)] *)
Definition jsonify (j : json num) : response num := Response 200 (BJson j) "application/json".

(** [return r, code] *)
Definition with_status (r : response num) (code : Z) : response num :=
  Response code (payload r) (mimetype r).

(** [return text, code] *)
Definition text_response (s : string) (code : Z) : response num :=
  Response code (BText s) "text/html; charset=utf-8".

(** [send_file(img, mimetype=mt)] *)
Definition send_file (img : list Byte.byte) (mt : string) : response num :=
  Response 200 (BBytes img) mt.

Definition error_json (msg : string) : json num := JObj [("error", JStr msg)].

(** [request.args.get(name)] *)
Definition args_get (req : request) (name : string) : option string :=
  assoc name (args req).

(** What the client receives: a view's response, or Flask's 500 page
    when the view raised. *)
Definition dispatch (view : M num (response num)) (w : world num) : response num * world num :=
  match view w with
  | (Ok r, w') => (r, w')
  | (Raise _, w') => (text_response "Internal Server Error" 500, w')
  end.

(** [col.str.contains(pat, case=False, na=False)]: [pat] is a regular
    expression.  A pattern without metacharacters is searched as a
    text, both sides in lower case; otherwise it is compiled. *)
Definition is_meta (a : ascii) : bool :=
  existsb (Ascii.eqb a) (list_ascii_of_string ".^$*+?{}[]\|()").

Definition is_literal (pat : string) : bool :=
  negb (existsb is_meta (list_ascii_of_string pat)).

Definition re_search_ci (pat : string) : outcome (string -> bool) :=
  if is_literal pat then Ok (fun s => PyStr.contains (PyStr.lower pat) (PyStr.lower s))
  else match re_compile_ci pat with
       | Some f => Ok f
       | None => Raise (Exn ReError "bad pattern")
       end.

Definition str_contains (pat : string) (col : list (cell num)) : outcome (list bool) :=
  match str_accessor col with
  | Raise e => Raise e
  | Ok _ =>
      match re_search_ci pat with
      | Raise e => Raise e
      | Ok f => Ok (map (fun c => match c with Str s => f s | _ => false end) col)
      end
  end.

End Runtime.

(* ===================================================================== *)
(** * The JSON data services *)
(* ===================================================================== *)

(** The Python value [result] of the data endpoints: one entry per
    group, the group key and the records of the group. *)
Definition country_records (num : Type) : Type :=
  list (cell num * list (list (string * cell num))).

Definition json_of_result {num} (result : country_records num) : json num :=
  JArr (map (fun cr => JObj [("country", json_of_cell (fst cr));
                             ("data", json_of_records (snd cr))]) result).

(** [except Exception as e: return jsonify({"error": str(e)}), 500] *)
Definition error_500 {num} (e : exn) : response num :=
  with_status (jsonify (error_json (exn_msg e))) 500.

(** ** hiv.py *)
Module Hiv.
Section Service.
Context {num : Type} `{Numeric num} `{Libs num}.

Definition data_columns : list (string * string) :=
  [("Data.AIDS-Related Deaths.All Ages", "aids_related_deaths_all_ages");
   ("Data.New HIV Infections.All Ages", "new_hiv_infections_all_ages");
   ("Data.People Living with HIV.Total", "people_living_with_hiv_total")].

Definition required_columns : list string :=
  ["country"; "year"] ++ map fst data_columns.

(** [df_filtered]: the required columns under their friendly names. *)
Definition filtered (df : DataFrame num) : outcome (DataFrame num) :=
  let df := strip_columns df in
  let df := rename [("Country", "country"); ("Year", "year")] df in
  match select_columns df required_columns with
  | Raise e => Raise e
  | Ok df_filtered => Ok (rename data_columns df_filtered)
  end.

(** The body of [get_aids_data] from the frame read to [result]. *)
Definition reshape (df : DataFrame num) : outcome (country_records num) :=
  match filtered df with
  | Raise e => Raise e
  | Ok df_filtered =>
      match groupby "country" df_filtered with
      | Raise e => Raise e
      | Ok groups => Ok (map (fun cg => (fst cg, to_records (snd cg))) groups)
      end
  end.

(** The statements under [try:]. *)
Definition try_body : M num (response num) :=
  df <- read_csv "aids.csv" ;;
  result <- lift (reshape df) ;;
  ret (jsonify (json_of_result result)).

Definition get_aids_data : M num (response num) :=
  try_except try_body
    (fun e =>
       print ("Error: " ++ exn_msg e)%string ;;;
       ret (error_500 e)).
End Service.
End Hiv.

(** ** malaria.py *)
Module Malaria.
Section Service.
Context {num : Type} `{Numeric num} `{Libs num}.

Definition extract_number (val : cell num) : Z :=
  if is_nan val then 0
  else match PyStr.search_digits (PyStr.remove_commas (py_str val)) with
       | Some m => PyStr.int_of_digits m
       | None => 0
       end.

Definition group_records (g : DataFrame num) : outcome (list (list (string * cell num))) :=
  match select_columns g ["year"; "cases"] with
  | Ok sub => Ok (to_records sub)
  | Raise e => Raise e
  end.

(** [melted_df] with its 'cases' column cleaned. *)
Definition melted (df : DataFrame num) : outcome (DataFrame num) :=
  let df := rename [("Countries, territories and areas", "country")] df in
  match melt "country" "year" "cases" df with
  | Raise e => Raise e
  | Ok melted_df =>
      match get_column melted_df "cases" with
      | Raise e => Raise e
      | Ok cases =>
          Ok (set_column melted_df "cases"
                         (map (fun v => Num (num_of_Z (extract_number v))) cases))
      end
  end.

Definition reshape (df : DataFrame num) : outcome (country_records num) :=
  match melted df with
  | Raise e => Raise e
  | Ok melted_df =>
      match groupby "country" melted_df with
      | Raise e => Raise e
      | Ok groups =>
          omap (fun cg => match group_records (snd cg) with
                          | Ok rs => Ok (fst cg, rs)
                          | Raise e => Raise e
                          end) groups
      end
  end.

(** The statements under [try:]. *)
Definition try_body : M num (response num) :=
  df <- read_csv "malaria_data.csv" ;;
  result <- lift (reshape df) ;;
  ret (jsonify (json_of_result result)).

Definition get_malaria_data : M num (response num) :=
  try_except try_body (fun e => ret (error_500 e)).
End Service.
End Malaria.

(** ** measles.py *)
Module Measles.
Section Service.
Context {num : Type} `{Numeric num} `{Libs num}.

(** [melted_df] without the rows whose 'cases' cell is missing. *)
Definition melted (df : DataFrame num) : outcome (DataFrame num) :=
  let df := rename [("Countries, territories and areas", "country")] df in
  match melt "country" "year" "cases" df with
  | Raise e => Raise e
  | Ok melted_df => dropna "cases" melted_df
  end.

Definition reshape (df : DataFrame num) : outcome (country_records num) :=
  match melted df with
  | Raise e => Raise e
  | Ok melted_df =>
      match groupby "country" melted_df with
      | Raise e => Raise e
      | Ok groups =>
          omap (fun cg => match Malaria.group_records (snd cg) with
                          | Ok rs => Ok (fst cg, rs)
                          | Raise e => Raise e
                          end) groups
      end
  end.

(** The statements under [try:]. *)
Definition try_body : M num (response num) :=
  df <- read_csv "data.csv" ;;
  result <- lift (reshape df) ;;
  ret (jsonify (json_of_result result)).

Definition get_death_data : M num (response num) :=
  try_except try_body (fun e => ret (error_500 e)).
End Service.
End Measles.

(* ===================================================================== *)
(** * charts_api.py: the HIV/AIDS chart service *)
(* ===================================================================== *)

Module ChartsApi.
Section Service.
Context {num : Type} `{Numeric num} `{Libs num}.

Local Abbreviation frame := (DataFrame num).

(** The cleaning steps of [load_data] on the frame read. *)
Definition clean_frame (df : frame) : outcome frame :=
  let df := strip_columns df in
  let numeric_cols := filter (PyStr.startswith "Data.") (columns df) in
  match for_each_column to_numeric_column numeric_cols df with
  | Ok df => Ok (fillna0 df)
  | Raise e => Raise e
  end.

Definition load_data : M num (option frame) :=
  try_except
    (df <- read_csv "aids.csv" ;;
     df <- lift (clean_frame df) ;;
     ret (Some df))
    (fun e =>
       print ("Error loading or processing data: " ++ exn_msg e)%string ;;;
       ret None).

Definition save_plot_to_bytesio : M num (list Byte.byte) :=
  img <- fig_savefig ToBuffer ;;
  plt_close ;;;
  ret img.

Definition not_found : response num := text_response "Data not found" 404.

Fixpoint fig_calls (ds : list (draw num)) : M num unit :=
  match ds with
  | [] => ret tt
  | d :: r => fig_call d ;;; fig_calls r
  end.

Definition send_png : M num (response num) :=
  img <- save_plot_to_bytesio ;;
  ret (send_file img "image/png").

(** The endpoints plotting one yearly aggregate. *)
Definition series_chart
           (agg : string -> string -> frame -> outcome (list (cell num * cell num)))
           (col title ylabel : string) (fmt : list (draw num)) : M num (response num) :=
  df <- load_data ;;
  match df with
  | None => ret not_found
  | Some df =>
      plt_subplots ;;;
      s <- lift (agg "Year" col df) ;;
      ax_plot 0 (map fst s) (map snd s) EmptyString ;;;
      fig_calls ([SetTitle title; SetXLabel "Year"; SetYLabel ylabel; Grid]
                   ++ fmt ++ [AutofmtXDate]) ;;;
      send_png
  end.

(** The endpoints plotting two yearly aggregates. *)
Definition two_series_chart
           (agg : string -> string -> frame -> outcome (list (cell num * cell num)))
           (col1 label1 col2 label2 title ylabel : string) (fmt : list (draw num))
  : M num (response num) :=
  df <- load_data ;;
  match df with
  | None => ret not_found
  | Some df =>
      plt_subplots ;;;
      s1 <- lift (agg "Year" col1 df) ;;
      s2 <- lift (agg "Year" col2 df) ;;
      ax_plot 0 (map fst s1) (map snd s1) label1 ;;;
      ax_plot 0 (map fst s2) (map snd s2) label2 ;;;
      fig_calls ([SetTitle title; SetXLabel "Year"; SetYLabel ylabel; Legend; Grid]
                   ++ fmt ++ [AutofmtXDate]) ;;;
      send_png
  end.

Definition deaths_global :=
  series_chart groupby_sum "Data.AIDS-Related Deaths.All Ages"
    "Global AIDS-Related Deaths (All Ages): 1990-2021" "Number of Deaths" [TickPlain 0].

Definition deaths_by_group :=
  two_series_chart groupby_sum
    "Data.AIDS-Related Deaths.Adults" "Adults (15+)"
    "Data.AIDS-Related Deaths.Children" "Children (0-14)"
    "AIDS-Related Deaths by Age Group: Adults vs Children (Global)"
    "Number of Deaths" [TickPlain 0].

Definition prevalence_global :=
  series_chart groupby_mean "Data.HIV Prevalence.Adults"
    "Global Average HIV Prevalence Rate Among Adults (15-49 years)"
    "Prevalence Rate (%)" [TickPercent].

Definition prevalence_young :=
  two_series_chart groupby_mean
    "Data.HIV Prevalence.Young Men" "Young Men (15-24)"
    "Data.HIV Prevalence.Young Women" "Young Women (15-24)"
    "HIV Prevalence Among Young People (15-24 years) (Global Average)"
    "Prevalence Rate (%)" [TickPercent].

Definition infections_global :=
  series_chart groupby_sum "Data.New HIV Infections.All Ages"
    "Global New HIV Infections: Annual Incidence (All Ages)"
    "Number of New Infections" [TickPlain 0].

Definition infections_by_group :=
  two_series_chart groupby_sum
    "Data.New HIV Infections.Adults" "Adults (15+)"
    "Data.New HIV Infections.Children" "Children (0-14)"
    "New HIV Infections by Age Group: Adults vs Children (Global)"
    "Number of New Infections" [TickPlain 0].

Definition plhiv_global :=
  series_chart groupby_sum "Data.People Living with HIV.Total"
    "Global People Living with HIV (PLHIV): Total Population"
    "Number of People" [TickPlain 0].

Definition plhiv_by_group :=
  two_series_chart groupby_sum
    "Data.People Living with HIV.Adults" "Adults (15+)"
    "Data.People Living with HIV.Children" "Children (0-14)"
    "People Living with HIV by Age Group: Adults vs Children (Global)"
    "Number of People" [TickPlain 0].

Definition aids_orphans :=
  series_chart groupby_sum "Data.AIDS-Related Deaths.AIDS Orphans"
    "Global AIDS-Related Orphans Over Time" "Number of Orphans" [TickPlain 0].

Definition deaths_by_gender :=
  two_series_chart groupby_sum
    "Data.AIDS-Related Deaths.Female Adults" "Female Adults"
    "Data.AIDS-Related Deaths.Male Adults" "Male Adults"
    "AIDS-Related Deaths by Gender (Adults, Global)" "Number of Deaths" [TickPlain 0].

Definition incidence_rate :=
  series_chart groupby_mean "Data.New HIV Infections.Incidence Rate Among Adults"
    "Global Average HIV Incidence Rate Among Adults"
    "Incidence Rate (per 100 people)" [].

(** [df[df['Year'] == df['Year'].max()]] with the maximum. *)
Definition latest_rows (df : frame) : outcome (cell num * frame) :=
  match get_column df "Year" with
  | Raise e => Raise e
  | Ok years =>
      match col_max years with
      | Raise e => Raise e
      | Ok latest_year =>
          Ok (latest_year, mask_rows df (map (fun y => cell_eqb y latest_year) years))
      end
  end.

(** [df_latest.nlargest(10, col).sort_values(col, ascending=True)] *)
Definition top_10_of (col : string) (df_latest : frame) : outcome frame :=
  match nlargest 10 col df_latest with
  | Raise e => Raise e
  | Ok t => sort_values col t
  end.

(** The four top-countries endpoints. *)
Definition top_chart (col xlabel title : string) (fmt : draw num) : M num (response num) :=
  df <- load_data ;;
  match df with
  | None => ret not_found
  | Some df =>
      latest <- lift (latest_rows df) ;;
      top_10 <- lift (top_10_of col (snd latest)) ;;
      plt_subplots ;;;
      countries <- lift (get_column top_10 "Country") ;;
      values <- lift (get_column top_10 col) ;;
      ax_barh countries values ;;;
      fig_calls [SetXLabel xlabel;
                 SetTitle (title ++ " (" ++ py_str (fst latest) ++ ")")%string;
                 fmt; TightLayout] ;;;
      send_png
  end.

Definition top_deaths :=
  top_chart "Data.AIDS-Related Deaths.All Ages" "Number of AIDS-Related Deaths"
    "Top 10 Countries with Highest AIDS-Related Deaths" (TickPlain 0).

Definition top_infections :=
  top_chart "Data.New HIV Infections.All Ages" "Number of New HIV Infections"
    "Top 10 Countries with Highest New HIV Infections" (TickPlain 0).

Definition top_plhiv :=
  top_chart "Data.People Living with HIV.Total" "Number of People Living with HIV"
    "Top 10 Countries with Highest HIV Population" (TickPlain 0).

Definition top_prevalence :=
  top_chart "Data.HIV Prevalence.Adults" "HIV Prevalence Rate (%)"
    "Top 10 Countries with Highest Adult HIV Prevalence" TickPercent.

(** [df[df['Country'].str.lower() == country_name.lower()]] *)
Definition lookup_country (country_name : string) (df : frame) : outcome frame :=
  match get_column df "Country" with
  | Raise e => Raise e
  | Ok c =>
      match str_accessor c with
      | Raise e => Raise e
      | Ok c =>
          Ok (mask_rows df
                (map (fun x => cell_eqb (str_lower x) (Str (PyStr.lower country_name))) c))
      end
  end.

Definition country_profile (country_name : string) : M num (response num) :=
  df <- load_data ;;
  match df with
  | None => ret not_found
  | Some df =>
      country_data <- lift (lookup_country country_name df) ;;
      if df_empty country_data then
        ret (with_status
               (jsonify (error_json
                  ("Data for country '" ++ country_name ++ "' not found.")%string)) 404)
      else
        plt_subplots ;;;
        years <- lift (get_column country_data "Year") ;;
        deaths <- lift (get_column country_data "Data.AIDS-Related Deaths.All Ages") ;;
        ax_plot 0 years deaths "AIDS-Related Deaths" ;;;
        fig_calls [SetXLabel "Year"; SetYLabel "Number of Deaths / New Infections";
                   TickParams 0; TickPlain 0; Twinx] ;;;
        years <- lift (get_column country_data "Year") ;;
        infections <- lift (get_column country_data "Data.New HIV Infections.All Ages") ;;
        ax_plot 1 years infections "New HIV Infections" ;;;
        fig_calls [TickParams 1; TickPlain 1; Twinx; SpineOutward] ;;;
        years <- lift (get_column country_data "Year") ;;
        plhiv <- lift (get_column country_data "Data.People Living with HIV.Total") ;;
        ax_plot 2 years plhiv "People Living with HIV" ;;;
        fig_calls [TickParams 2; TickPlain 2;
                   Suptitle ("Key AIDS Indicators for " ++ country_name ++ " Over Time")%string;
                   Grid; AutofmtXDate; Legend; TightLayout] ;;;
        send_png
  end.

End Service.
End ChartsApi.

(* ===================================================================== *)
(** * malaria_charts.py *)
(* ===================================================================== *)

Module MalariaCharts.
Section Service.
Context {num : Type} `{Numeric num} `{Libs num}.

Local Abbreviation frame := (DataFrame num).

(** [.astype(int)] on one cell of an object column: [int(x)] stored as
    int64. *)
Definition astype_int (c : cell Z) : outcome Z :=
  match c with
  | Str s =>
      match PyStr.py_int s with
      | Some z => if in_int64 z then Ok z
                  else Raise (Exn OverflowError "Python int too large to convert to C long")
      | None => Raise (Exn ValueError "invalid literal for int() with base 10")
      end
  | Num z => if in_int64 z then Ok z
             else Raise (Exn OverflowError "Python int too large to convert to C long")
  | NaN => Raise (Exn ValueError "cannot convert float NaN to integer")
  end.

(** [.str.extract(r'(\d+)')]: the first run of digits, missing when
    there is none. *)
Definition str_extract_digits (s : string) : cell Z :=
  match PyStr.search_digits s with
  | Some m => Str m
  | None => NaN
  end.

(** One cell through
    [.astype(str).str.replace(',', '').str.extract(r'(\d+)').fillna(0).astype(int)]. *)
Definition clean_cell (val : cell num) : outcome Z :=
  astype_int (fillna_cell (str_extract_digits (PyStr.remove_commas (py_str val)))).

Definition clean_column (df : frame) (col : string) : outcome frame :=
  match get_column df col with
  | Raise e => Raise e
  | Ok c =>
      match omap clean_cell c with
      | Raise e => Raise e
      | Ok zs => Ok (set_column df col (map (fun z => Num (num_of_Z z)) zs))
      end
  end.

(** The cleaning steps of [load_malaria_data] on the frame read. *)
Definition clean_frame (df : frame) : outcome frame :=
  let df := rename [("Countries, territories and areas", "country")] df in
  let year_columns := filter (fun c => negb (String.eqb c "country")) (columns df) in
  for_each_column clean_column year_columns df.

Definition load_malaria_data : M num frame :=
  try_except
    (df <- read_csv "malaria_data.csv" ;;
     df <- lift (clean_frame df) ;;
     ret df)
    (fun e =>
       match exn_cls e with
       | FileNotFoundError =>
           print "Error: malaria_data.csv not found. Please ensure the file is in the correct directory." ;;;
           ret empty_frame
       | _ =>
           print ("An unexpected error occurred during data loading or cleaning: "
                    ++ exn_msg e)%string ;;;
           ret empty_frame
       end).

Definition save_plot_to_bytesio : M num (list Byte.byte) :=
  img <- fig_savefig ToBuffer ;;
  plt_close ;;;
  ret img.

Definition send_png : M num (response num) :=
  img <- save_plot_to_bytesio ;;
  ret (send_file img "image/png").

Definition load_failed : response num :=
  with_status (jsonify (error_json "Data could not be loaded or is empty")) 500.

(** [sorted(years, key=lambda y: int(y.strip()))] over the columns
    other than 'country' and 'total_deaths'. *)
Definition _get_sorted_year_columns (df : frame) : outcome (list string) :=
  let years :=
    filter (fun c => negb (String.eqb c "country" || String.eqb c "total_deaths"))
           (columns df) in
  match omap (fun y => match PyStr.py_int (PyStr.strip y) with
                       | Some k => Ok (k, y)
                       | None => Raise (Exn ValueError "invalid literal for int() with base 10")
                       end) years with
  | Raise e => Raise e
  | Ok keyed => Ok (map snd (stable_sort (fun a b => Z.leb (fst a) (fst b)) keyed))
  end.

Definition global_deaths : M num (response num) :=
  df <- load_malaria_data ;;
  if df_empty df then ret load_failed
  else
    years_sorted <- lift (_get_sorted_year_columns df) ;;
    totals <- lift (sum_axis0 years_sorted df) ;;
    plt_subplots ;;;
    ax_plot 0 (map Str years_sorted) totals EmptyString ;;;
    fig_call (SetTitle "Global Malaria Deaths Over Time") ;;;
    fig_call (SetXLabel "Year") ;;;
    fig_call (SetYLabel "Number of Deaths") ;;;
    fig_call Grid ;;;
    fig_call AutofmtXDate ;;;
    send_png.

(** [df['total_deaths'] = df[years].sum(axis=1)] then
    [df.nlargest(10, 'total_deaths')]. *)
Definition top_rows (df : frame) : outcome frame :=
  match _get_sorted_year_columns df with
  | Raise e => Raise e
  | Ok years =>
      match sum_axis1 years df with
      | Raise e => Raise e
      | Ok totals => nlargest 10 "total_deaths" (set_column df "total_deaths" totals)
      end
  end.

Definition top_countries : M num (response num) :=
  df <- load_malaria_data ;;
  if df_empty df then ret load_failed
  else
    top <- lift (top_rows df) ;;
    plt_subplots ;;;
    countries <- lift (get_column top "country") ;;
    totals <- lift (get_column top "total_deaths") ;;
    ax_barh countries totals ;;;
    fig_call (SetTitle "Top 10 Countries by Total Malaria Deaths (All Years)") ;;;
    fig_call (SetXLabel "Total Deaths") ;;;
    fig_call (SetYLabel "Country") ;;;
    plt_call InvertYAxis ;;;
    plt_call TightLayout ;;;
    send_png.

(** [df[df['country'].str.lower() == name.lower()]] *)
Definition exact_rows (name : string) (df : frame) : outcome frame :=
  match get_column df "country" with
  | Raise e => Raise e
  | Ok c =>
      match str_accessor c with
      | Raise e => Raise e
      | Ok c =>
          Ok (mask_rows df
                (map (fun x => cell_eqb (str_lower x) (Str (PyStr.lower name))) c))
      end
  end.

(** [df[df['country'].str.contains(name, case=False, na=False)]] *)
Definition contains_rows (name : string) (df : frame) : outcome frame :=
  match get_column df "country" with
  | Raise e => Raise e
  | Ok c =>
      match str_contains name c with
      | Raise e => Raise e
      | Ok mask => Ok (mask_rows df mask)
      end
  end.

(** The rows [country_profile] searches: the exact matches, else the
    rows matching the pattern. *)
Definition find_rows (name : string) (df : frame) : outcome frame :=
  match exact_rows name df with
  | Raise e => Raise e
  | Ok row => if df_empty row then contains_rows name df else Ok row
  end.

Definition country_profile (req : request) : M num (response num) :=
  match args_get req "country" with
  | None => ret (with_status (jsonify (error_json "Country parameter is required")) 400)
  | Some country_name_param =>
      if PyStr.is_empty country_name_param then
        ret (with_status (jsonify (error_json "Country parameter is required")) 400)
      else
        df <- load_malaria_data ;;
        if df_empty df then ret load_failed
        else
          row <- lift (find_rows country_name_param df) ;;
          if df_empty row then
            ret (with_status
                   (jsonify (error_json
                      ("Country " ++ PyStr.dquote ++ country_name_param ++ PyStr.dquote
                         ++ " not found")%string)) 404)
          else
            let selected_country_row := hd [] (rows row) in
            years_sorted <- lift (_get_sorted_year_columns df) ;;
            deaths <- lift (row_values (columns row) years_sorted selected_country_row) ;;
            plt_subplots ;;;
            ax_plot 0 (map Str years_sorted) deaths EmptyString ;;;
            country <- lift (row_values (columns row) ["country"] selected_country_row) ;;
            fig_call (SetTitle ("Malaria Deaths in " ++ py_str (hd NaN country)
                                  ++ " Over Time")%string) ;;;
            fig_call (SetXLabel "Year") ;;;
            fig_call (SetYLabel "Number of Deaths") ;;;
            fig_call Grid ;;;
            fig_call AutofmtXDate ;;;
            send_png
  end.

(** [[c.strip().lower() for c in param.split(',') if c.strip()]] *)
Definition country_names_of (param : string) : list string :=
  map (fun c => PyStr.lower (PyStr.strip c))
      (filter (fun c => negb (PyStr.is_empty (PyStr.strip c))) (PyStr.split_commas param)).

(** [df[df['country'].str.lower().isin(names)]] *)
Definition isin_rows (names : list string) (df : frame) : outcome frame :=
  match get_column df "country" with
  | Raise e => Raise e
  | Ok c =>
      match str_accessor c with
      | Raise e => Raise e
      | Ok c =>
          Ok (mask_rows df
                (map (fun x => match str_lower x with
                               | Str s => existsb (String.eqb s) names
                               | _ => false
                               end) c))
      end
  end.

(** [for index, row in selected_df.iterrows(): ax.plot(...)] *)
Fixpoint plot_rows (cols years : list string) (rs : list (list (cell num))) : M num unit :=
  match rs with
  | [] => ret tt
  | r :: rest =>
      country <- lift (row_values cols ["country"] r) ;;
      deaths <- lift (row_values cols years r) ;;
      ax_plot 0 (map Str years) deaths (py_str (hd NaN country)) ;;;
      plot_rows cols years rest
  end.

Definition compare_countries (req : request) : M num (response num) :=
  let missing :=
    with_status (jsonify (error_json
      ("At least one country name is required in the " ++ PyStr.dquote ++ "countries"
         ++ PyStr.dquote ++ " parameter (comma-separated).")%string)) 400 in
  match args_get req "countries" with
  | None => ret missing
  | Some countries_param =>
      if PyStr.is_empty countries_param then ret missing
      else
        let country_names := country_names_of countries_param in
        match country_names with
        | [] => ret (with_status (jsonify (error_json "No valid country names provided.")) 400)
        | _ =>
            df <- load_malaria_data ;;
            if df_empty df then ret load_failed
            else
              selected_df <- lift (isin_rows country_names df) ;;
              if df_empty selected_df then
                ret (with_status
                       (jsonify (error_json
                          ("None of the specified countries (" ++ PyStr.join country_names
                             ++ ") were found or have data.")%string)) 404)
              else
                years_sorted <- lift (_get_sorted_year_columns df) ;;
                plt_subplots ;;;
                plot_rows (columns selected_df) years_sorted (rows selected_df) ;;;
                fig_call (SetTitle "Malaria Deaths Over Time for Selected Countries") ;;;
                fig_call (SetXLabel "Year") ;;;
                fig_call (SetYLabel "Number of Deaths") ;;;
                fig_call Grid ;;;
                fig_call Legend ;;;
                fig_call AutofmtXDate ;;;
                plt_call TightLayout ;;;
                send_png
        end
  end.

End Service.
End MalariaCharts.

(* ===================================================================== *)
(** * measles_charts.py *)
(* ===================================================================== *)

Module MeaslesCharts.
Section Service.
Context {num : Type} `{Numeric num} `{Libs num}.

Local Abbreviation frame := (DataFrame num).

(** The cleaning steps of [load_measles_data] on the frame read. *)
Definition clean_frame (df : frame) : outcome frame :=
  let df := rename [("Countries, territories and areas", "country")] df in
  let year_columns := filter (fun c => negb (String.eqb c "country")) (columns df) in
  match for_each_column to_numeric_column year_columns df with
  | Ok df => Ok (fillna0 df)
  | Raise e => Raise e
  end.

Definition load_measles_data : M num frame :=
  try_except
    (df <- read_csv "data.csv" ;;
     df <- lift (clean_frame df) ;;
     ret df)
    (fun e =>
       match exn_cls e with
       | FileNotFoundError =>
           print "Error: data.csv not found. Please ensure the file is in the correct directory." ;;;
           ret empty_frame
       | _ =>
           print ("An error occurred while loading or cleaning data: " ++ exn_msg e)%string ;;;
           ret empty_frame
       end).

Definition save_plot_to_bytesio : M num (list Byte.byte) :=
  img <- fig_savefig ToBuffer ;;
  plt_close ;;;
  ret img.

Definition send_png : M num (response num) :=
  img <- save_plot_to_bytesio ;;
  ret (send_file img "image/png").

Definition load_failed : response num :=
  with_status (jsonify (error_json "Data could not be loaded or is empty")) 500.

(** [years = [col for col in df.columns if col not in skip]; years.sort()] *)
Definition sorted_years (skip : list string) (df : frame) : list string :=
  stable_sort PyStr.leb
    (filter (fun c => negb (existsb (String.eqb c) skip)) (columns df)).

Definition global_cases : M num (response num) :=
  df <- load_measles_data ;;
  if df_empty df then ret load_failed
  else
    let years := sorted_years ["country"] df in
    totals <- lift (sum_axis0 years df) ;;
    plt_subplots ;;;
    ax_plot 0 (map Str years) totals EmptyString ;;;
    fig_call (SetTitle "Global Measles Cases Over Time") ;;;
    fig_call (SetXLabel "Year") ;;;
    fig_call (SetYLabel "Number of Cases") ;;;
    fig_call Grid ;;;
    fig_call AutofmtXDate ;;;
    send_png.

(** [df['total_cases'] = df[years].sum(axis=1)] then
    [df.nlargest(10, 'total_cases')]. *)
Definition top_rows (df : frame) : outcome frame :=
  let years := filter (fun c => negb (String.eqb c "country")) (columns df) in
  match sum_axis1 years df with
  | Raise e => Raise e
  | Ok totals => nlargest 10 "total_cases" (set_column df "total_cases" totals)
  end.

Definition top_countries : M num (response num) :=
  df <- load_measles_data ;;
  if df_empty df then ret load_failed
  else
    top <- lift (top_rows df) ;;
    plt_subplots ;;;
    countries <- lift (get_column top "country") ;;
    totals <- lift (get_column top "total_cases") ;;
    ax_barh countries totals ;;;
    fig_call (SetTitle "Top 10 Countries by Total Measles Cases (All Years)") ;;;
    fig_call (SetXLabel "Total Cases") ;;;
    fig_call (SetYLabel "Country") ;;;
    plt_call InvertYAxis ;;;
    plt_call TightLayout ;;;
    send_png.

(** [df[df['country'].str.contains(country, case=False, na=False)]] *)
Definition contains_rows (country : string) (df : frame) : outcome frame :=
  match get_column df "country" with
  | Raise e => Raise e
  | Ok c =>
      match str_contains country c with
      | Raise e => Raise e
      | Ok mask => Ok (mask_rows df mask)
      end
  end.

(** [df[df['country'] == country]] *)
Definition exact_rows (country : string) (df : frame) : outcome frame :=
  match get_column df "country" with
  | Raise e => Raise e
  | Ok c => Ok (mask_rows df (map (fun x => cell_eqb x (Str country)) c))
  end.

Definition country_profile (req : request) : M num (response num) :=
  match args_get req "country" with
  | None => ret (with_status (jsonify (error_json "Country parameter is required")) 400)
  | Some country =>
      if PyStr.is_empty country then
        ret (with_status (jsonify (error_json "Country parameter is required")) 400)
      else
        df <- load_measles_data ;;
        if df_empty df then ret load_failed
        else
          row <- lift (contains_rows country df) ;;
          if df_empty row then
            ret (with_status
                   (jsonify (error_json
                      ("Country " ++ PyStr.dquote ++ country ++ PyStr.dquote
                         ++ " not found")%string)) 404)
          else
            exact_match_row <- lift (exact_rows country df) ;;
            let row := if negb (df_empty exact_match_row) then exact_match_row else row in
            let years := sorted_years ["country"; "total_cases"] df in
            sub <- lift (select_columns row years) ;;
            let cases := List.concat (rows sub) in
            plt_subplots ;;;
            ax_plot 0 (map Str years) cases EmptyString ;;;
            names <- lift (get_column row "country") ;;
            fig_call (SetTitle ("Measles Cases in " ++ py_str (hd NaN names)
                                  ++ " Over Time")%string) ;;;
            fig_call (SetXLabel "Year") ;;;
            fig_call (SetYLabel "Number of Cases") ;;;
            fig_call Grid ;;;
            fig_call AutofmtXDate ;;;
            send_png
  end.

(** [[c.strip() for c in param.split(',') if c.strip()]] *)
Definition country_names_of (param : string) : list string :=
  map PyStr.strip
      (filter (fun c => negb (PyStr.is_empty (PyStr.strip c))) (PyStr.split_commas param)).

(** [df[df['country'].isin(names)]] *)
Definition isin_rows (names : list string) (df : frame) : outcome frame :=
  match get_column df "country" with
  | Raise e => Raise e
  | Ok c =>
      Ok (mask_rows df
            (map (fun x => match x with
                           | Str s => existsb (String.eqb s) names
                           | _ => false
                           end) c))
  end.

Fixpoint plot_rows (cols years : list string) (rs : list (list (cell num))) : M num unit :=
  match rs with
  | [] => ret tt
  | r :: rest =>
      country_name <- lift (row_values cols ["country"] r) ;;
      cases <- lift (row_values cols years r) ;;
      ax_plot 0 (map Str years) cases (py_str (hd NaN country_name)) ;;;
      plot_rows cols years rest
  end.

Definition compare_countries (req : request) : M num (response num) :=
  let missing :=
    with_status (jsonify (error_json
      ("At least one country name is required in the " ++ PyStr.dquote ++ "countries"
         ++ PyStr.dquote ++ " parameter (comma-separated).")%string)) 400 in
  match args_get req "countries" with
  | None => ret missing
  | Some countries_param =>
      if PyStr.is_empty countries_param then ret missing
      else
        let country_names := country_names_of countries_param in
        match country_names with
        | [] => ret (with_status (jsonify (error_json "No valid country names provided.")) 400)
        | _ =>
            df <- load_measles_data ;;
            if df_empty df then ret load_failed
            else
              selected_df <- lift (isin_rows country_names df) ;;
              if df_empty selected_df then
                ret (with_status
                       (jsonify (error_json
                          ("None of the specified countries (" ++ PyStr.join country_names
                             ++ ") were found.")%string)) 404)
              else
                let years := sorted_years ["country"; "total_cases"] df in
                plt_subplots ;;;
                plot_rows (columns selected_df) years (rows selected_df) ;;;
                fig_call (SetTitle "Measles Cases Over Time for Selected Countries") ;;;
                fig_call (SetXLabel "Year") ;;;
                fig_call (SetYLabel "Number of Cases") ;;;
                fig_call Grid ;;;
                fig_call Legend ;;;
                fig_call AutofmtXDate ;;;
                plt_call TightLayout ;;;
                send_png
        end
  end.

End Service.
End MeaslesCharts.

(* ===================================================================== *)
(** * The routes *)
(* ===================================================================== *)

Inductive endpoint : Type :=
| AidsData | MalariaData | MeaslesData
| DeathsGlobal | DeathsByGroup | PrevalenceGlobal | PrevalenceYoung
| InfectionsGlobal | InfectionsByGroup | PlhivGlobal | PlhivByGroup
| TopDeaths | TopInfections | TopPlhiv | AidsOrphans | DeathsByGender
| IncidenceRate | CountryProfile (country_name : string) | TopPrevalence
| MalariaGlobalDeaths | MalariaTopCountries | MalariaCountryProfile
| MalariaCompareCountries
| MeaslesGlobalCases | MeaslesTopCountries | MeaslesCountryProfile
| MeaslesCompareCountries.

Section Routes.
Context {num : Type} `{Numeric num} `{Libs num}.

(** The view function registered for each route. *)
Definition view (ep : endpoint) (req : request) : M num (response num) :=
  match ep with
  | AidsData => Hiv.get_aids_data
  | MalariaData => Malaria.get_malaria_data
  | MeaslesData => Measles.get_death_data
  | DeathsGlobal => ChartsApi.deaths_global
  | DeathsByGroup => ChartsApi.deaths_by_group
  | PrevalenceGlobal => ChartsApi.prevalence_global
  | PrevalenceYoung => ChartsApi.prevalence_young
  | InfectionsGlobal => ChartsApi.infections_global
  | InfectionsByGroup => ChartsApi.infections_by_group
  | PlhivGlobal => ChartsApi.plhiv_global
  | PlhivByGroup => ChartsApi.plhiv_by_group
  | TopDeaths => ChartsApi.top_deaths
  | TopInfections => ChartsApi.top_infections
  | TopPlhiv => ChartsApi.top_plhiv
  | AidsOrphans => ChartsApi.aids_orphans
  | DeathsByGender => ChartsApi.deaths_by_gender
  | IncidenceRate => ChartsApi.incidence_rate
  | CountryProfile country_name => ChartsApi.country_profile country_name
  | TopPrevalence => ChartsApi.top_prevalence
  | MalariaGlobalDeaths => MalariaCharts.global_deaths
  | MalariaTopCountries => MalariaCharts.top_countries
  | MalariaCountryProfile => MalariaCharts.country_profile req
  | MalariaCompareCountries => MalariaCharts.compare_countries req
  | MeaslesGlobalCases => MeaslesCharts.global_cases
  | MeaslesTopCountries => MeaslesCharts.top_countries
  | MeaslesCountryProfile => MeaslesCharts.country_profile req
  | MeaslesCompareCountries => MeaslesCharts.compare_countries req
  end.

(** One request served: the response sent and the world left. *)
Definition serve (ep : endpoint) (req : request) (w : world num)
  : response num * world num :=
  dispatch (view ep req) w.

(** The CSV file a route works from. *)
Definition csv_of (ep : endpoint) : string :=
  match ep with
  | AidsData | DeathsGlobal | DeathsByGroup | PrevalenceGlobal | PrevalenceYoung
  | InfectionsGlobal | InfectionsByGroup | PlhivGlobal | PlhivByGroup
  | TopDeaths | TopInfections | TopPlhiv | AidsOrphans | DeathsByGender
  | IncidenceRate | CountryProfile _ | TopPrevalence => "aids.csv"
  | MalariaData | MalariaGlobalDeaths | MalariaTopCountries
  | MalariaCountryProfile | MalariaCompareCountries => "malaria_data.csv"
  | MeaslesData | MeaslesGlobalCases | MeaslesTopCountries
  | MeaslesCountryProfile | MeaslesCompareCountries => "data.csv"
  end.

(** Requests served one after the other. *)
Fixpoint serve_all (reqs : list (endpoint * request)) (w : world num) : world num :=
  match reqs with
  | [] => w
  | (ep, req) :: r => serve_all r (snd (serve ep req w))
  end.

End Routes.

(* ===================================================================== *)
(** * The notions the properties are stated with *)
(* ===================================================================== *)

Unset Implicit Arguments.

(** The rows of [l] split by key: for each key in turn, the rows that
    match it. *)
Definition split_by {K R : Type} (matches : K -> R -> bool) (ks : list K) (l : list R)
  : list R :=
  List.concat (map (fun k => filter (matches k) l) ks).

Definition no_write (ev : event) : Prop :=
  match ev with
  | EvWriteFile _ => False
  | _ => True
  end.

(** The top-countries routes of charts_api.py and the column each
    charts. *)
Definition top_column (ep : endpoint) : option string :=
  match ep with
  | TopDeaths => Some "Data.AIDS-Related Deaths.All Ages"
  | TopInfections => Some "Data.New HIV Infections.All Ages"
  | TopPlhiv => Some "Data.People Living with HIV.Total"
  | TopPrevalence => Some "Data.HIV Prevalence.Adults"
  | _ => None
  end.

Section Notions.
Context {num : Type} `{Numeric num} `{Libs num}.

Local Abbreviation frame := (DataFrame num).
Local Abbreviation row := (list (cell num)).

(** A cell that holds a number. *)
Definition is_num (c : cell num) : Prop := exists x, c = Num x.

(** A cell of a cleaned malaria column: an int64 that is not
    negative. *)
Definition is_count (c : cell num) : Prop :=
  exists z, c = Num (num_of_Z z) /\ 0 <= z <= int64_max.

Definition present (c : cell num) : Prop := is_nan c = false.

Definition after_event (ev : event) (w : world num) : world num :=
  World (files w) (figures w) (trace w ++ [ev]).

(** The frame a loader obtains from the file at [path]. *)
Definition loaded_frame (path : string) (clean : frame -> outcome frame)
           (w : world num) : outcome frame :=
  match parse_file (files w path) path with
  | Ok df => clean df
  | Raise e => Raise e
  end.

Definition malaria_load_message (e : exn) : string :=
  match exn_cls e with
  | FileNotFoundError =>
      "Error: malaria_data.csv not found. Please ensure the file is in the correct directory."
  | _ => ("An unexpected error occurred during data loading or cleaning: " ++ exn_msg e)%string
  end.

Definition measles_load_message (e : exn) : string :=
  match exn_cls e with
  | FileNotFoundError =>
      "Error: data.csv not found. Please ensure the file is in the correct directory."
  | _ => ("An error occurred while loading or cleaning data: " ++ exn_msg e)%string
  end.

(** The groups of a frame as pairs of a key and the rows of the
    group. *)
Definition group_rows (groups : list (cell num * frame)) : list (cell num * list row) :=
  map (fun kg => (fst kg, rows (snd kg))) groups.

(** What it means for [groups] to be the rows [rs] grouped by
    [key]: no key twice, one group for every present key, each group
    holding in order exactly the rows with its key and at least one,
    and the groups together holding every row with a present key
    once. *)
Definition grouped {R : Type} (key : R -> cell num) (rs : list R)
           (groups : list (cell num * list R)) : Prop :=
  NoDup (map fst groups)
  /\ (forall g g', In g groups -> In g' groups ->
                   cell_eqb (fst g) (fst g') = true -> g = g')
  /\ (forall r, In r rs -> present (key r) ->
                exists g, In g groups /\ cell_eqb (fst g) (key r) = true)
  /\ (forall g, In g groups ->
                snd g = filter (fun r => cell_eqb (fst g) (key r)) rs /\ snd g <> [])
  /\ Permutation (List.concat (map snd groups))
                 (filter (fun r => negb (is_nan (key r))) rs).





(** A melted row: the country of a row of the wide table, the name of
    one of its other columns, and the cell under it. *)
Definition melted_from (df : frame) (r : row) (j : nat) (y : string) (v : cell num) : row :=
  [cell_of (columns df) "country" r; Str y; v].

Definition is_year_cell (df : frame) (r : row) (j : nat) (y : string) : Prop :=
  In r (rows df) /\ nth_error (columns df) j = Some y /\ y <> "country".


(** The statements under [try:] of a data endpoint. *)
Definition try_body_of (ep : endpoint)
  : option (M num (response num)) :=
  match ep with
  | AidsData => Some Hiv.try_body
  | MalariaData => Some Malaria.try_body
  | MeaslesData => Some Measles.try_body
  | _ => None
  end.

(** A computation that leaves the files as they are and writes none:
    it only adds events other than file writes to the trace. *)
Definition quiet {A} (m : M num A) : Prop :=
  forall w,
    files (snd (m w)) = files w
    /\ exists evs, trace (snd (m w)) = trace w ++ evs /\ Forall no_write evs.

(** A quiet computation whose first effect is to read the CSV file at
    [path]. *)
Definition reads_first {A} (path : string) (m : M num A) : Prop :=
  forall w,
    files (snd (m w)) = files w
    /\ exists evs,
        trace (snd (m w)) = trace w ++ EvReadCsv path :: evs /\ Forall no_write evs.

(** A view either starts by reading its CSV file, or turns the request
    down with status 400 without any effect. *)
Definition reads_or_rejects (path : string) (m : M num (response num)) : Prop :=
  forall w,
    (exists evs, trace (snd (m w)) = trace w ++ EvReadCsv path :: evs)
    \/ (exists r, m w = (Ok r, w) /\ status r = 400).

(** Two worlds agree when they hold the same content at [path]; with
    [h] set they also agree on the current figure.  Nothing is asked
    of the other files, of the older figures or of the traces. *)
Definition agree (path : string) (h : bool) (w1 w2 : world num) : Prop :=
  files w1 path = files w2 path
  /\ (h = true -> exists f r1 r2, figures w1 = f :: r1 /\ figures w2 = f :: r2).

(** Run from agreeing worlds, [m] ends the same way in both, and the
    worlds agree again. *)
Definition rel {A} (path : string) (h h' : bool) (m : M num A) : Prop :=
  forall w1 w2, agree path h w1 w2 ->
    fst (m w1) = fst (m w2)
    /\ agree path false (snd (m w1)) (snd (m w2))
    /\ (forall a, fst (m w1) = Ok a -> agree path h' (snd (m w1)) (snd (m w2))).

(** No cell of the column is the text [name] up to case. *)
Definition no_cell_equal_ci (name : string) (col : list (cell num)) : Prop :=
  forall s, In (Str s) col -> PyStr.lower s <> PyStr.lower name.

(** No text cell of the column passes the test [f]. *)
Definition no_cell_matches (f : string -> bool) (col : list (cell num)) : Prop :=
  forall s, In (Str s) col -> f s = false.

(** A computation that answers 200 when it returns. *)
Definition answers_200 (m : M num (response num)) : Prop :=
  forall w, match fst (m w) with
            | Ok r => status r = 200
            | Raise _ => True
            end.

Definition error_page : response num := text_response "Internal Server Error" 500.

End Notions.

(* ===================================================================== *)
(** * Tables to run the services on *)
(* ===================================================================== *)

(** The columns are as [pd.read_csv] infers them: a column holds
    numbers, with gaps, or it holds texts. *)

(** The libraries, for running the code on the tables below: the
    renderer answers the PNG signature followed by one byte per call
    made on the figure (capped), and no pattern with a metacharacter
    compiles.  The theorems hold for every renderer and every
    compiler. *)
Definition png_signature : list Byte.byte :=
  [Byte.x89; Byte.x50; Byte.x4e; Byte.x47; Byte.x0d; Byte.x0a; Byte.x1a; Byte.x0a].

#[global] Instance sample_libs : Libs Z := {
  render_png := fun fig => png_signature ++ map (fun _ => Byte.x00) fig;
  re_compile_ci := fun _ => None
}.

Module Samples.

(** A disk with the three CSV files. *)
Definition disk (aids malaria measles : option (file_content Z)) : world Z :=
  World (fun path =>
           if String.eqb path "aids.csv" then aids
           else if String.eqb path "malaria_data.csv" then malaria
           else if String.eqb path "data.csv" then measles
           else None)
        [] [].

Definition aids_table : DataFrame Z :=
  Frame ["Country"; "Year"; "Data.AIDS-Related Deaths.All Ages";
         "Data.New HIV Infections.All Ages"; "Data.People Living with HIV.Total"]
        [[Str "Kenya"; Num 2020; Num 19000; Str "33000"; Num 1400000];
         [Str "Kenya"; Num 2021; Num 22000; Str "n/a"; Num 1400000];
         [Str "Chad"; Num 2021; Num 3100; Str "3500"; NaN];
         [Str "Peru"; Num 2021; NaN; Str "5400"; Num 98000]].

Definition malaria_table : DataFrame Z :=
  Frame ["Countries, territories and areas"; "2019"; "2018"]
        [[Str "Chad"; Str "12,345 [9000-15000]"; Num 11000];
         [Str "Mali"; Str "No data"; NaN];
         [Str "Niger"; Str "17000"; Num 16500]].

Definition measles_table : DataFrame Z :=
  Frame ["Countries, territories and areas"; "2000"; "2001"]
        [[Str "Congo"; Num 5; Num 6];
         [Str "Democratic Republic of the Congo"; Num 7; NaN];
         [Str "Ghana"; Num 12; Num 9]].


(** A malaria file with a header and no row. *)
Definition header_only : DataFrame Z :=
  Frame ["Countries, territories and areas"; "2019"] [].

Definition sample_disk : world Z :=
  disk (Some (CsvFile aids_table)) (Some (CsvFile malaria_table))
       (Some (CsvFile measles_table)).

Definition aids_loaded : DataFrame Z :=
  Eval vm_compute in
    match loaded_frame "aids.csv" ChartsApi.clean_frame sample_disk with
    | Ok df => df
    | Raise _ => empty_frame
    end.

Definition malaria_loaded : DataFrame Z :=
  Eval vm_compute in
    match loaded_frame "malaria_data.csv" MalariaCharts.clean_frame sample_disk with
    | Ok df => df
    | Raise _ => empty_frame
    end.

Definition measles_loaded : DataFrame Z :=
  Eval vm_compute in
    match loaded_frame "data.csv" MeaslesCharts.clean_frame sample_disk with
    | Ok df => df
    | Raise _ => empty_frame
    end.

End Samples.





(** The cell on which the two cleanings part: twenty digits. *)
Definition huge_cell : cell Z := Str "99999999999999999999".

(** The same libraries for tables whose numbers carry their dtype. *)
#[global] Instance dtype_libs : Libs pynum := {
  render_png := fun fig => png_signature ++ map (fun _ => Byte.x00) fig;
  re_compile_ci := fun _ => None
}.

(** A malaria table whose year columns have two dtypes: '2019' is an
    int64 column, '2018', with a gap, a float64 column. *)
Definition stacked_table : DataFrame pynum :=
  Frame ["Countries, territories and areas"; "2019"; "2018"]
        [[Str "Chad"; Num (PInt 10000000000000000); NaN];
         [Str "Mali"; Num (PInt 900); Num (PFloat 850)]].

(** What the data service and the charts service make of it. *)
Definition stacked_melted : DataFrame pynum :=
  Eval vm_compute in
    match Malaria.melted stacked_table with
    | Ok m => m
    | Raise _ => empty_frame
    end.

Definition stacked_cleaned : DataFrame pynum :=
  Eval vm_compute in
    match MalariaCharts.clean_frame stacked_table with
    | Ok c => c
    | Raise _ => empty_frame
    end.

(** A second disk: the same aids.csv, other files gone, and a figure
    left open by an earlier request. *)
Definition other_disk : world Z :=
  World (files (Samples.disk (Some (CsvFile Samples.aids_table)) None None))
        [[Grid]] [EvNewFigure].

(** C9 read to the letter for malaria_charts.py: 404 exactly when no
    row's country equals or contains the query, whatever the case. *)
Definition no_row_equals_or_contains (query : string) (df : DataFrame Z) : Prop :=
  forall r s, In r (rows df) -> cell_of (columns df) "country" r = Str s ->
              PyStr.lower s <> PyStr.lower query
              /\ PyStr.contains (PyStr.lower query) (PyStr.lower s) = false.

(* ===================================================================== *)
(** * The stages of a request *)
(* ===================================================================== *)

(** What a request has done so far, as its effects show it: nothing,
    read its CSV file, reported a failure on the console, opened a
    figure, rendered it, closed it. *)
Inductive stage : Type :=
| Fresh | Loaded | Reported | Drawing | Rendered | Closed.

(** The one effect that may follow at each stage. *)
Definition next_stage (path : string) (s : stage) (ev : event) : option stage :=
  match s, ev with
  | Fresh, EvReadCsv p => if String.eqb p path then Some Loaded else None
  | Loaded, EvPrint _ => Some Reported
  | Loaded, EvNewFigure => Some Drawing
  | Drawing, EvSavefigBuffer => Some Rendered
  | Rendered, EvCloseFigure => Some Closed
  | _, _ => None
  end.

Fixpoint walk (path : string) (s : stage) (evs : list event) : option stage :=
  match evs with
  | [] => Some s
  | ev :: r =>
      match next_stage path s ev with
      | Some s' => walk path s' r
      | None => None
      end
  end.

(** The stages at which the request holds an open figure. *)
Definition holds_figure (s : stage) : bool :=
  match s with
  | Drawing | Rendered => true
  | _ => false
  end.

(** The key [_get_sorted_year_columns] sorts a header by. *)
Definition year_key (y : string) : outcome (Z * string) :=
  match PyStr.py_int (PyStr.strip y) with
  | Some k => Ok (k, y)
  | None => Raise (Exn ValueError "invalid literal for int() with base 10")
  end.

(** The routes of the three chart services. *)
Definition is_chart (ep : endpoint) : bool :=
  match ep with
  | AidsData | MalariaData | MeaslesData => false
  | _ => true
  end.

(** The two yearly aggregates of charts_api.py. *)
Inductive aggregate : Type := Sum | Mean.

(** The yearly series each route of charts_api.py plots: the aggregate,
    the column and the label of the line. *)
Definition series_of (ep : endpoint) : list (aggregate * string * string) :=
  match ep with
  | DeathsGlobal => [(Sum, "Data.AIDS-Related Deaths.All Ages", EmptyString)]
  | DeathsByGroup =>
      [(Sum, "Data.AIDS-Related Deaths.Adults", "Adults (15+)");
       (Sum, "Data.AIDS-Related Deaths.Children", "Children (0-14)")]
  | PrevalenceGlobal => [(Mean, "Data.HIV Prevalence.Adults", EmptyString)]
  | PrevalenceYoung =>
      [(Mean, "Data.HIV Prevalence.Young Men", "Young Men (15-24)");
       (Mean, "Data.HIV Prevalence.Young Women", "Young Women (15-24)")]
  | InfectionsGlobal => [(Sum, "Data.New HIV Infections.All Ages", EmptyString)]
  | InfectionsByGroup =>
      [(Sum, "Data.New HIV Infections.Adults", "Adults (15+)");
       (Sum, "Data.New HIV Infections.Children", "Children (0-14)")]
  | PlhivGlobal => [(Sum, "Data.People Living with HIV.Total", EmptyString)]
  | PlhivByGroup =>
      [(Sum, "Data.People Living with HIV.Adults", "Adults (15+)");
       (Sum, "Data.People Living with HIV.Children", "Children (0-14)")]
  | AidsOrphans => [(Sum, "Data.AIDS-Related Deaths.AIDS Orphans", EmptyString)]
  | DeathsByGender =>
      [(Sum, "Data.AIDS-Related Deaths.Female Adults", "Female Adults");
       (Sum, "Data.AIDS-Related Deaths.Male Adults", "Male Adults")]
  | IncidenceRate =>
      [(Mean, "Data.New HIV Infections.Incidence Rate Among Adults", EmptyString)]
  | _ => []
  end.

Section MoreNotions.
Context {num : Type} `{Numeric num} `{Libs num}.

Local Abbreviation frame := (DataFrame num).
Local Abbreviation row := (list (cell num)).

(** The registry of figures of a request at stage [s] that started
    from the registry [base]. *)
Definition figures_at (s : stage) (base : list (figure num)) (w : world num) : Prop :=
  if holds_figure s then exists f, figures w = f :: base else figures w = base.

(** The shapes of a response. *)
Definition is_error_json (code : Z) (r : response num) : Prop :=
  status r = code /\ mimetype r = "application/json"
  /\ exists msg, payload r = BJson (error_json msg).

Definition is_png (r : response num) : Prop :=
  status r = 200 /\ mimetype r = "image/png"
  /\ exists fig, payload r = BBytes (render_png fig).

Definition is_country_list (r : response num) : Prop :=
  status r = 200 /\ mimetype r = "application/json"
  /\ exists result, payload r = BJson (json_of_result result).

(** The responses a view may return at each stage: of a chart route
    when [chart] is set, of a data route otherwise. *)
Definition answer_at (chart : bool) (s : stage) (r : response num) : Prop :=
  match s with
  | Fresh => chart = true /\ is_error_json 400 r
  | Loaded =>
      if chart then is_error_json 404 r \/ is_error_json 500 r
      else is_country_list r \/ is_error_json 500 r
  | Reported =>
      if chart then r = ChartsApi.not_found \/ is_error_json 500 r
      else is_error_json 500 r
  | Closed => chart = true /\ is_png r
  | Drawing | Rendered => False
  end.

(** Started at stage [a], the computation [m] moves the request along
    the stages: the events it adds lead from [a] to a stage [b], the
    registry of figures is the one of stage [b], a value returned
    satisfies [Q] at [b], and an exception is raised only after the
    file was read, with or without a figure open. *)
Definition proceeds {A} (path : string) (a : stage) (m : M num A)
           (Q : A -> stage -> Prop) : Prop :=
  forall w base, figures_at a base w ->
    files (snd (m w)) = files w
    /\ exists evs b,
        trace (snd (m w)) = trace w ++ evs
        /\ walk path a evs = Some b
        /\ figures_at b base (snd (m w))
        /\ match fst (m w) with
           | Ok x => Q x b
           | Raise _ => b = Loaded \/ b = Drawing
           end.

(** [.sum()] and [.mean()] on the cells of one group. *)
Definition aggregate_of (a : aggregate) : list (cell num) -> outcome (cell num) :=
  match a with
  | Sum => sum_agg
  | Mean => mean_cells
  end.

(** [df.groupby(key)[name].sum()] or [.mean()] *)
Definition groupby_aggregate (a : aggregate)
  : string -> string -> frame -> outcome (list (cell num * cell num)) :=
  match a with
  | Sum => groupby_sum
  | Mean => groupby_mean
  end.

(** The columns [_get_sorted_year_columns] sorts. *)
Definition year_columns (df : frame) : list string :=
  filter (fun c => negb (String.eqb c "country" || String.eqb c "total_deaths"))
         (columns df).

(** A header written with digits only, [width] of them. *)
Definition is_year_header (width : nat) (c : string) : Prop :=
  PyStr.all_digits c = true /\ String.length c = width /\ c <> EmptyString.

(** The world of a request that has read its file and holds the
    figure [f]. *)
Definition drawing (path : string) (f : figure num) (w : world num) : world num :=
  World (files w) (f :: figures w) (trace w ++ [EvReadCsv path; EvNewFigure]).

(** The world of a request that has rendered and closed its figure. *)
Definition served (path : string) (w : world num) : world num :=
  World (files w) (figures w)
        (trace w ++ [EvReadCsv path; EvNewFigure; EvSavefigBuffer; EvCloseFigure]).

(** The answer of a chart route that went all the way: the rendering
    of the figure. *)
Definition png_of (f : figure num) : response num :=
  send_file (render_png f) "image/png".

(** What the routes of charts_api.py do when the data does not
    load. *)
Definition hiv_load_failed (e : exn) (w : world num) : outcome (response num) * world num :=
  (Ok ChartsApi.not_found,
   after_event (EvPrint ("Error loading or processing data: " ++ exn_msg e)%string)
               (after_event (EvReadCsv "aids.csv") w)).

(** What the routes of malaria_charts.py and measles_charts.py do
    when the data does not load. *)
Definition malaria_load_failed (e : exn) (w : world num)
  : outcome (response num) * world num :=
  (Ok MalariaCharts.load_failed,
   after_event (EvPrint (malaria_load_message e))
               (after_event (EvReadCsv "malaria_data.csv") w)).

Definition measles_load_failed (e : exn) (w : world num)
  : outcome (response num) * world num :=
  (Ok MeaslesCharts.load_failed,
   after_event (EvPrint (measles_load_message e))
               (after_event (EvReadCsv "data.csv") w)).



(** The test [country_profile] puts a row to: its cell under [key],
    in lower case, is the name in lower case. *)
Definition equal_ci (cols : list string) (key name : string) (r : row) : bool :=
  cell_eqb (str_lower (cell_of cols key r)) (Str (PyStr.lower name)).

(** The second test of malaria_charts.py: the country of the row is a
    text the pattern is found in. *)
Definition matching (cols : list string) (f : string -> bool) (r : row) : bool :=
  match cell_of cols "country" r with
  | Str s => f s
  | _ => false
  end.




(** The line of one row: the years against the cells of the row under
    them, labelled with the country of the row. *)
Definition line_of (cols years : list string) (r : row) : draw num :=
  Plot 0 (map Str years) (map (fun y => cell_of cols y r) years)
       (py_str (cell_of cols "country" r)).

(** The line [compare_countries] draws for one row. *)
Definition row_plot (cols years : list string) (r : row) : outcome (draw num) :=
  match row_values cols ["country"] r with
  | Raise e => Raise e
  | Ok country =>
      match row_values cols years r with
      | Raise e => Raise e
      | Ok values =>
          if Nat.eqb (List.length (map (@Str num) years)) (List.length values)
          then Ok (Plot 0 (map Str years) values (py_str (hd NaN country)))
          else Raise (Exn ValueError "x and y must have same first dimension")
      end
  end.

(** A computation that stays at its stage. *)
Definition stays {A} (path : string) (a : stage) (m : M num A) : Prop :=
  proceeds path a m (fun _ b => b = a).

End MoreNotions.

(* ===================================================================== *)
(** * More tables to run the services on *)
(* ===================================================================== *)

(** A malaria table with a column that is no year. *)
Definition noted_table : DataFrame Z :=
  Frame ["Countries, territories and areas"; "2019"; "Source"]
        [[Str "Chad"; Num 11000; Str "WHO"];
         [Str "Mali"; Num 900; Str "WHO"]].

Definition noted_disk : world Z :=
  Samples.disk None (Some (CsvFile noted_table)) None.

Definition noted_loaded : DataFrame Z :=
  Eval vm_compute in
    match loaded_frame "malaria_data.csv" MalariaCharts.clean_frame noted_disk with
    | Ok df => df
    | Raise _ => empty_frame
    end.

(* ===================================================================== *)
(** * Properties of the text operations *)
(* ===================================================================== *)

#[export] Instance Int_numeric_order : NumericOrder Z.
Proof.
  split; simpl; intros.
  - destruct (Z.leb_spec a b); [now left | right; apply Z.leb_le; lia].
  - apply Z.leb_le. apply Z.leb_le in H, H0. lia.
Qed.


Lemma is_digit_not_space (a : ascii) :
  PyStr.is_digit a = true -> PyStr.is_space a = false.
Proof.
  destruct a as [[] [] [] [] [] [] [] []]; vm_compute; congruence.
Qed.

Lemma is_digit_not_sign (a : ascii) :
  PyStr.is_digit a = true -> Ascii.eqb a "-" = false /\ Ascii.eqb a "+" = false.
Proof.
  destruct a as [[] [] [] [] [] [] [] []]; vm_compute; intuition congruence.
Qed.

Lemma digit_val_range (a : ascii) :
  PyStr.is_digit a = true -> 0 <= PyStr.digit_val a <= 9.
Proof.
  destruct a as [[] [] [] [] [] [] [] []]; vm_compute; intuition congruence.
Qed.

Lemma take_digits_all_digits (s : string) :
  PyStr.all_digits (PyStr.take_digits s) = true.
Proof.
  induction s as [|a r IH]; simpl; auto.
  destruct (PyStr.is_digit a) eqn:E; simpl; auto.
  now rewrite E.
Qed.

(** A match of [\d+] is a text of digits, and not the empty one. *)
Lemma search_digits_spec (s m : string) :
  PyStr.search_digits s = Some m ->
  PyStr.all_digits m = true /\ m <> EmptyString.
Proof.
  induction s as [|a r IH]; simpl; [discriminate|].
  destruct (PyStr.is_digit a) eqn:E.
  - intros Hm. injection Hm as <-. split.
    + simpl. rewrite E. simpl. apply take_digits_all_digits.
    + discriminate.
  - exact IH.
Qed.

Lemma lstrip_digits (s : string) :
  PyStr.all_digits s = true -> PyStr.lstrip s = s.
Proof.
  destruct s as [|a r]; simpl; auto.
  intros Hd. apply andb_prop in Hd as [Ha _].
  now rewrite (is_digit_not_space _ Ha).
Qed.

Lemma rstrip_digits (s : string) :
  PyStr.all_digits s = true -> PyStr.rstrip s = s.
Proof.
  induction s as [|a r IH]; simpl; auto.
  intros Hd. apply andb_prop in Hd as [Ha Hr].
  rewrite (IH Hr). destruct r; auto.
  now rewrite (is_digit_not_space _ Ha).
Qed.

Lemma int_of_digits_acc_nonneg (s : string) (acc : Z) :
  PyStr.all_digits s = true -> 0 <= acc -> 0 <= PyStr.int_of_digits_acc acc s.
Proof.
  revert acc.
  induction s as [|a r IH]; cbn [PyStr.int_of_digits_acc PyStr.all_digits];
    intros acc Hd Hacc; auto.
  apply andb_prop in Hd as [Ha Hr].
  apply IH; auto. pose proof (digit_val_range _ Ha). lia.
Qed.

Lemma int_of_digits_nonneg (s : string) :
  PyStr.all_digits s = true -> 0 <= PyStr.int_of_digits s.
Proof. intros. apply int_of_digits_acc_nonneg; auto. lia. Qed.

(** [int(m)] on a text of digits is its decimal value. *)
Lemma py_int_digits (m : string) :
  PyStr.all_digits m = true -> m <> EmptyString ->
  PyStr.py_int m = Some (PyStr.int_of_digits m).
Proof.
  intros Hd Hne. unfold PyStr.py_int, PyStr.strip.
  rewrite (lstrip_digits _ Hd), (rstrip_digits _ Hd).
  destruct m as [|a r]; [congruence|].
  pose proof Hd as Hd'. simpl in Hd'. apply andb_prop in Hd' as [Ha _].
  destruct (is_digit_not_sign _ Ha) as [-> ->].
  now rewrite Hd.
Qed.

Lemma in_int64_nonneg (z : Z) :
  0 <= z -> in_int64 z = (z <=? int64_max).
Proof.
  intros Hz. unfold in_int64.
  replace (int64_min <=? z) with true; auto.
  assert (int64_min < 0) by reflexivity.
  symmetry. apply Z.leb_le. lia.
Qed.

Section CleaningFacts.
Context {num : Type} `{Numeric num} `{Libs num}.

Lemma extract_number_nonneg (val : cell num) :
  0 <= Malaria.extract_number val.
Proof.
  unfold Malaria.extract_number.
  destruct (is_nan val); [lia|].
  destruct (PyStr.search_digits _) as [m|] eqn:E; [|lia].
  apply search_digits_spec in E as [Hd _].
  now apply int_of_digits_nonneg.
Qed.

(** The chain of [load_malaria_data] on one cell: the number
    [extract_number] returns, unless it does not fit int64. *)
Lemma clean_cell_spec (val : cell num) :
  MalariaCharts.clean_cell val =
  if Malaria.extract_number val <=? int64_max
  then Ok (Malaria.extract_number val)
  else Raise (Exn OverflowError "Python int too large to convert to C long").
Proof.
  unfold MalariaCharts.clean_cell, Malaria.extract_number,
    MalariaCharts.str_extract_digits.
  destruct val as [|x|s]; simpl.
  - reflexivity.
  - destruct (PyStr.search_digits _) as [m|] eqn:E; simpl; [|reflexivity].
    destruct (search_digits_spec _ _ E) as [Hd Hne].
    rewrite (py_int_digits _ Hd Hne).
    now rewrite (in_int64_nonneg _ (int_of_digits_nonneg _ Hd)).
  - destruct (PyStr.search_digits _) as [m|] eqn:E; simpl; [|reflexivity].
    destruct (search_digits_spec _ _ E) as [Hd Hne].
    rewrite (py_int_digits _ Hd Hne).
    now rewrite (in_int64_nonneg _ (int_of_digits_nonneg _ Hd)).
Qed.

Lemma clean_cell_range (val : cell num) (z : Z) :
  MalariaCharts.clean_cell val = Ok z -> 0 <= z <= int64_max.
Proof.
  rewrite clean_cell_spec.
  destruct (Z.leb_spec (Malaria.extract_number val) int64_max); [|discriminate].
  intros Hz. injection Hz as <-. split; auto. apply extract_number_nonneg.
Qed.
End CleaningFacts.

(* ===================================================================== *)
(** * Facts about frames *)
(* ===================================================================== *)

Section FrameFacts.
Context {num : Type} `{Numeric num}.

Local Abbreviation frame := (DataFrame num).
Local Abbreviation row := (list (cell num)).

Lemma index_of_lt (name : string) (cols : list string) (i : nat) :
  index_of name cols = Some i -> (i < List.length cols)%nat.
Proof.
  revert i. induction cols as [|c r IH]; simpl; intros i; [discriminate|].
  destruct (String.eqb c name).
  - intros Hi. injection Hi as <-. lia.
  - destruct (index_of name r) as [j|]; [|discriminate].
    intros Hi. injection Hi as <-. specialize (IH j eq_refl). lia.
Qed.

Lemma index_of_nth (name : string) (cols : list string) (i : nat) :
  index_of name cols = Some i -> nth i cols EmptyString = name.
Proof.
  revert i. induction cols as [|c r IH]; simpl; intros i; [discriminate|].
  destruct (String.eqb c name) eqn:E.
  - intros Hi. injection Hi as <-. now apply String.eqb_eq.
  - destruct (index_of name r) as [j|]; [|discriminate].
    intros Hi. injection Hi as <-. now apply IH.
Qed.

Lemma index_of_inj (a b : string) (cols : list string) (i : nat) :
  index_of a cols = Some i -> index_of b cols = Some i -> a = b.
Proof.
  intros Ha Hb. rewrite <- (index_of_nth _ _ _ Ha). now apply index_of_nth.
Qed.

Lemma index_of_In (name : string) (cols : list string) :
  In name cols -> exists i, index_of name cols = Some i.
Proof.
  induction cols as [|c r IH]; simpl; [tauto|].
  intros [->|Hin].
  - rewrite String.eqb_refl. eauto.
  - destruct (String.eqb c name); eauto.
    destruct (IH Hin) as [i ->]. eauto.
Qed.

Lemma index_of_Some_In (name : string) (cols : list string) (i : nat) :
  index_of name cols = Some i -> In name cols.
Proof.
  intros Hi. rewrite <- (index_of_nth _ _ _ Hi).
  apply nth_In. now apply index_of_lt with (name := name).
Qed.

Lemma row_get_replace_same (i : nat) (v : cell num) (r : row) :
  row_get i (replace_nth i v r) = v.
Proof.
  unfold row_get. revert r. induction i as [|i IH]; intros [|c t]; simpl; auto.
Qed.

Lemma row_get_replace_other (i j : nat) (v : cell num) (r : row) :
  i <> j -> row_get j (replace_nth i v r) = row_get j r.
Proof.
  unfold row_get. revert j r.
  induction i as [|i IH]; intros [|j] [|c t] Hij; simpl; auto; try congruence.
  - now destruct j.
  - rewrite IH by congruence. now destruct j.
Qed.

Lemma row_get_pad (n i : nat) (r : row) :
  (i < n)%nat -> row_get i (pad n r) = row_get i r.
Proof.
  intros Hi. unfold row_get, pad.
  rewrite nth_firstn.
  replace (i <? n)%nat with true by (symmetry; now apply Nat.ltb_lt).
  destruct (Nat.lt_ge_cases i (List.length r)) as [Hl|Hl].
  - now rewrite app_nth1.
  - rewrite app_nth2 by lia. rewrite (nth_overflow r) by lia.
    now rewrite nth_repeat.
Qed.

Lemma length_pad (n : nat) (r : row) : List.length (pad n r) = n.
Proof.
  unfold pad. rewrite length_firstn, length_app, repeat_length. lia.
Qed.

Lemma row_get_map_pad (f : cell num -> cell num) (n i : nat) (r : row) :
  (i < n)%nat -> row_get i (map f (pad n r)) = f (row_get i r).
Proof.
  intros Hi. rewrite <- (row_get_pad n i r Hi). unfold row_get.
  rewrite (nth_indep _ NaN (f NaN)) by (rewrite length_map, length_pad; lia).
  apply map_nth.
Qed.

Lemma map_snd_combine {A B} (l : list A) (l' : list B) :
  List.length l = List.length l' -> map snd (combine l l') = l'.
Proof.
  revert l'. induction l as [|a l IH]; intros [|b l'] Hl; simpl in *; try congruence.
  f_equal. apply IH. congruence.
Qed.

Lemma map_fst_combine {A B} (l : list A) (l' : list B) :
  List.length l = List.length l' -> map fst (combine l l') = l.
Proof.
  revert l'. induction l as [|a l IH]; intros [|b l'] Hl; simpl in *; try congruence.
  f_equal. apply IH. congruence.
Qed.

Lemma get_column_length (df : frame) (name : string) (c : list (cell num)) :
  get_column df name = Ok c -> List.length c = List.length (rows df).
Proof.
  unfold get_column. destruct (index_of name (columns df)); [|discriminate].
  intros Hc. injection Hc as <-. apply length_map.
Qed.

Lemma get_column_In (df : frame) (name : string) (c : list (cell num)) :
  get_column df name = Ok c -> In name (columns df).
Proof.
  unfold get_column. destruct (index_of name (columns df)) eqn:E; [|discriminate].
  intros _. eapply index_of_Some_In; eauto.
Qed.

(** Writing a column that exists keeps the header and the number of
    rows, stores the cells, and leaves the other columns alone. *)
Lemma set_column_existing (df : frame) (name : string) (vals : list (cell num)) :
  In name (columns df) ->
  List.length vals = List.length (rows df) ->
  columns (set_column df name vals) = columns df
  /\ List.length (rows (set_column df name vals)) = List.length (rows df)
  /\ get_column (set_column df name vals) name = Ok vals
  /\ (forall other, other <> name ->
        get_column (set_column df name vals) other = get_column df other).
Proof.
  intros Hin Hlen. destruct (index_of_In _ _ Hin) as [i Hi].
  unfold set_column. rewrite Hi. simpl. repeat split.
  - rewrite length_map, length_combine. lia.
  - unfold get_column. simpl. rewrite Hi. f_equal.
    rewrite map_map.
    erewrite map_ext; [|intros; apply row_get_replace_same].
    apply map_snd_combine. congruence.
  - intros other Hne. unfold get_column. simpl.
    destruct (index_of other (columns df)) as [j|] eqn:Hj; auto.
    f_equal. rewrite map_map.
    assert (Hij : i <> j).
    { intros ->. apply Hne. eapply index_of_inj; eauto. }
    erewrite map_ext; [|intros; apply row_get_replace_other; exact Hij].
    rewrite <- map_map. f_equal. apply map_fst_combine. congruence.
Qed.

Lemma get_column_fillna0 (df : frame) (name : string) (c : list (cell num)) :
  get_column df name = Ok c ->
  get_column (fillna0 df) name = Ok (map fillna_cell c).
Proof.
  unfold get_column, fillna0. simpl.
  destruct (index_of name (columns df)) as [i|] eqn:Hi; [|discriminate].
  intros Hc. injection Hc as <-. f_equal. rewrite !map_map.
  apply map_ext. intros r. apply row_get_map_pad. eapply index_of_lt; eauto.
Qed.

(** ** A loop over columns *)
Section ColumnLoop.
Variable step : frame -> string -> outcome frame.
Variable P : cell num -> Prop.

Hypothesis step_spec :
  forall df col df', step df col = Ok df' ->
    columns df' = columns df
    /\ (exists c, get_column df' col = Ok c /\ Forall P c)
    /\ (forall other, other <> col -> get_column df' other = get_column df other).

Lemma for_each_column_spec (cols : list string) (df df' : frame) :
  for_each_column step cols df = Ok df' ->
  columns df' = columns df
  /\ (forall col, In col cols -> exists c, get_column df' col = Ok c /\ Forall P c)
  /\ (forall other, ~ In other cols -> get_column df' other = get_column df other).
Proof.
  revert df. induction cols as [|c r IH]; simpl; intros df.
  - intros Hd. injection Hd as <-. repeat split; auto. tauto.
  - destruct (step df c) as [df1|e] eqn:Hs; [|discriminate].
    intros Hr. destruct (step_spec _ _ _ Hs) as (Hc1 & (cells & Hg1 & HP1) & Ho1).
    destruct (IH _ Hr) as (Hc2 & Hin2 & Ho2).
    split; [congruence|]. split.
    + intros col [<-|Hin]; [|now apply Hin2].
      destruct (in_dec string_dec c r) as [Hcr|Hcr]; [now apply Hin2|].
      exists cells. rewrite Ho2; auto.
    + intros other Hno. rewrite Ho2 by tauto. apply Ho1. intros ->. tauto.
Qed.
End ColumnLoop.

Lemma to_numeric_cell_not_str (c : cell num) : is_str (to_numeric_cell c) = false.
Proof.
  destruct c as [|x|s]; simpl; auto. now destruct (num_parse s).
Qed.

Lemma to_numeric_column_spec (df : frame) (col : string) (df' : frame) :
  to_numeric_column df col = Ok df' ->
  columns df' = columns df
  /\ (exists c, get_column df' col = Ok c /\ Forall (fun x => is_str x = false) c)
  /\ (forall other, other <> col -> get_column df' other = get_column df other).
Proof.
  unfold to_numeric_column.
  destruct (get_column df col) as [c|e] eqn:Hg; [|discriminate].
  intros Hd. injection Hd as <-.
  destruct (set_column_existing df col (map to_numeric_cell c))
    as (Hc & _ & Hs & Ho).
  - eapply get_column_In; eauto.
  - rewrite length_map. eapply get_column_length; eauto.
  - repeat split; auto. eexists; split; [exact Hs|].
    apply Forall_map, Forall_forall. intros; apply to_numeric_cell_not_str.
Qed.

Lemma fillna_cell_num (c : cell num) : is_str c = false -> is_num (fillna_cell c).
Proof.
  destruct c as [|x|s]; simpl; intros; try discriminate; eexists; reflexivity.
Qed.

(** The columns converted by [pd.to_numeric] and then filled hold
    numbers only. *)
Lemma numeric_after_fillna (cols : list string) (df df' : frame) :
  for_each_column to_numeric_column cols df = Ok df' ->
  columns (fillna0 df') = columns df
  /\ forall col, In col cols ->
       exists c, get_column (fillna0 df') col = Ok c /\ Forall is_num c.
Proof.
  intros Hf.
  destruct (for_each_column_spec to_numeric_column _ to_numeric_column_spec _ _ _ Hf) as (Hc & Hin & _).
  split; [exact Hc|].
  intros col Hcol. destruct (Hin _ Hcol) as (c & Hg & HP).
  exists (map fillna_cell c). split; [now apply get_column_fillna0|].
  apply Forall_map. revert HP. apply Forall_impl. apply fillna_cell_num.
Qed.

(** A sum over numbers does not raise. *)
Lemma sum_cells_from_num (c : list (cell num)) (acc : num) :
  Forall is_num c -> exists s, sum_cells_from acc c = Ok s.
Proof.
  intros Hc. revert acc. induction Hc as [|x l [v ->] _ IH]; simpl; eauto.
Qed.

Lemma sum_cells_num (c : list (cell num)) :
  Forall is_num c -> exists s, sum_cells c = Ok s.
Proof. apply sum_cells_from_num. Qed.

Lemma mean_cells_num (c : list (cell num)) :
  Forall is_num c -> exists v, mean_cells c = Ok v.
Proof.
  intros Hc. unfold mean_cells. destruct (sum_cells_num _ Hc) as [s ->].
  destruct (count_present c); eauto.
Qed.

Lemma existsb_is_str_num (c : list (cell num)) :
  Forall is_num c -> existsb is_str c = false.
Proof.
  induction 1 as [|x l [v ->] _ IH]; simpl; auto.
Qed.

End FrameFacts.

(* ===================================================================== *)
(** * What the loaders return *)
(* ===================================================================== *)

Lemma omap_length {A B} (f : A -> outcome B) (l : list A) (l' : list B) :
  omap f l = Ok l' -> List.length l' = List.length l.
Proof.
  revert l'. induction l as [|a l IH]; simpl; intros l'.
  - intros Hl. now injection Hl as <-.
  - destruct (f a); [|discriminate]. destruct (omap f l); [|discriminate].
    intros Hl. injection Hl as <-. simpl. f_equal. now apply IH.
Qed.

Lemma omap_Forall {A B} (f : A -> outcome B) (Q : B -> Prop) (l : list A) (l' : list B) :
  (forall a b, f a = Ok b -> Q b) -> omap f l = Ok l' -> Forall Q l'.
Proof.
  intros Hf. revert l'. induction l as [|a l IH]; simpl; intros l'.
  - intros Hl. injection Hl as <-. constructor.
  - destruct (f a) eqn:Ea; [|discriminate]. destruct (omap f l); [|discriminate].
    intros Hl. injection Hl as <-. constructor; eauto.
Qed.

Section Loaders.
Context {num : Type} `{Numeric num} `{Libs num}.

Local Abbreviation frame := (DataFrame num).

Lemma read_csv_run (path : string) (w : world num) :
  read_csv path w = (parse_file (files w path) path, after_event (EvReadCsv path) w).
Proof. reflexivity. Qed.

Lemma load_data_run (w : world num) :
  ChartsApi.load_data w =
  match loaded_frame "aids.csv" ChartsApi.clean_frame w with
  | Ok df => (Ok (Some df), after_event (EvReadCsv "aids.csv") w)
  | Raise e =>
      (Ok None,
       after_event (EvPrint ("Error loading or processing data: " ++ exn_msg e)%string)
                   (after_event (EvReadCsv "aids.csv") w))
  end.
Proof.
  unfold ChartsApi.load_data, try_except, bind, loaded_frame.
  rewrite read_csv_run. unfold lift, after_event. simpl.
  destruct (parse_file (files w "aids.csv") "aids.csv") as [df|e]; [|reflexivity].
  destruct (ChartsApi.clean_frame df); reflexivity.
Qed.

Lemma load_malaria_data_run (w : world num) :
  MalariaCharts.load_malaria_data w =
  match loaded_frame "malaria_data.csv" MalariaCharts.clean_frame w with
  | Ok df => (Ok df, after_event (EvReadCsv "malaria_data.csv") w)
  | Raise e =>
      (Ok empty_frame,
       after_event (EvPrint (malaria_load_message e))
                   (after_event (EvReadCsv "malaria_data.csv") w))
  end.
Proof.
  unfold MalariaCharts.load_malaria_data, try_except, bind, loaded_frame.
  rewrite read_csv_run. unfold lift, after_event, malaria_load_message. simpl.
  destruct (parse_file _ _) as [df|e].
  - destruct (MalariaCharts.clean_frame df) as [df'|e]; [reflexivity|].
    destruct e as [[] msg]; reflexivity.
  - destruct e as [[] msg]; reflexivity.
Qed.

Lemma load_measles_data_run (w : world num) :
  MeaslesCharts.load_measles_data w =
  match loaded_frame "data.csv" MeaslesCharts.clean_frame w with
  | Ok df => (Ok df, after_event (EvReadCsv "data.csv") w)
  | Raise e =>
      (Ok empty_frame,
       after_event (EvPrint (measles_load_message e))
                   (after_event (EvReadCsv "data.csv") w))
  end.
Proof.
  unfold MeaslesCharts.load_measles_data, try_except, bind, loaded_frame.
  rewrite read_csv_run. unfold lift, after_event, measles_load_message. simpl.
  destruct (parse_file _ _) as [df|e].
  - destruct (MeaslesCharts.clean_frame df) as [df'|e]; [reflexivity|].
    destruct e as [[] msg]; reflexivity.
  - destruct e as [[] msg]; reflexivity.
Qed.

(** ** The cleaned frames *)

Lemma hiv_clean_numeric (df0 df : frame) :
  ChartsApi.clean_frame df0 = Ok df ->
  forall col, In col (columns df) -> PyStr.startswith "Data." col = true ->
  exists c, get_column df col = Ok c /\ Forall is_num c.
Proof.
  unfold ChartsApi.clean_frame.
  destruct (for_each_column _ _ _) as [df1|e] eqn:Hf; [|discriminate].
  intros Hd. injection Hd as <-.
  destruct (numeric_after_fillna _ _ _ Hf) as (Hc & Hin).
  intros col Hcol Hp. apply Hin. apply filter_In. split; [|exact Hp].
  now rewrite <- Hc.
Qed.

Lemma measles_clean_numeric (df0 df : frame) :
  MeaslesCharts.clean_frame df0 = Ok df ->
  forall col, In col (columns df) -> col <> "country" ->
  exists c, get_column df col = Ok c /\ Forall is_num c.
Proof.
  unfold MeaslesCharts.clean_frame.
  destruct (for_each_column _ _ _) as [df1|e] eqn:Hf; [|discriminate].
  intros Hd. injection Hd as <-.
  destruct (numeric_after_fillna _ _ _ Hf) as (Hc & Hin).
  intros col Hcol Hne. apply Hin. apply filter_In. split.
  - now rewrite <- Hc.
  - apply negb_true_iff. apply String.eqb_neq. exact Hne.
Qed.

Lemma is_count_num (c : cell num) : is_count c -> is_num c.
Proof. intros (z & -> & _). eexists; reflexivity. Qed.

Lemma clean_column_spec (df : frame) (col : string) (df' : frame) :
  MalariaCharts.clean_column df col = Ok df' ->
  columns df' = columns df
  /\ (exists c, get_column df' col = Ok c /\ Forall is_count c)
  /\ (forall other, other <> col -> get_column df' other = get_column df other).
Proof.
  unfold MalariaCharts.clean_column.
  destruct (get_column df col) as [c|e] eqn:Hg; [|discriminate].
  destruct (omap MalariaCharts.clean_cell c) as [zs|e] eqn:Ho; [|discriminate].
  intros Hd. injection Hd as <-.
  destruct (set_column_existing df col (map (fun z => Num (num_of_Z z)) zs))
    as (Hc & _ & Hs & Hother).
  - eapply get_column_In; eauto.
  - rewrite length_map, (omap_length _ _ _ Ho). eapply get_column_length; eauto.
  - repeat split; auto. eexists; split; [exact Hs|].
    apply Forall_map.
    eapply omap_Forall; [|exact Ho].
    intros a z Hz. exists z. split; auto. eapply clean_cell_range; eauto.
Qed.

Lemma malaria_clean_counts (df0 df : frame) :
  MalariaCharts.clean_frame df0 = Ok df ->
  forall col, In col (columns df) -> col <> "country" ->
  exists c, get_column df col = Ok c /\ Forall is_count c.
Proof.
  unfold MalariaCharts.clean_frame. intros Hf.
  destruct (for_each_column_spec MalariaCharts.clean_column is_count clean_column_spec _ _ _ Hf)
    as (Hc & Hin & _).
  intros col Hcol Hne. apply Hin. apply filter_In. split.
  - now rewrite <- Hc.
  - apply negb_true_iff. apply String.eqb_neq. exact Hne.
Qed.

End Loaders.

Section NumericExact.
Context {num : Type} `{Numeric num}.

Local Abbreviation frame := (DataFrame num).

Lemma to_numeric_cell_idem (c : cell num) :
  to_numeric_cell (to_numeric_cell c) = to_numeric_cell c.
Proof.
  destruct c as [|x|s]; simpl; auto. destruct (num_parse s); reflexivity.
Qed.

Lemma to_numeric_column_exact (df df' : frame) (col : string) :
  to_numeric_column df col = Ok df' ->
  columns df' = columns df
  /\ (forall c, get_column df col = Ok c ->
                get_column df' col = Ok (map to_numeric_cell c))
  /\ (forall other, other <> col -> get_column df' other = get_column df other).
Proof.
  unfold to_numeric_column.
  destruct (get_column df col) as [c|e] eqn:Hg; [|discriminate].
  intros Hd. injection Hd as <-.
  destruct (set_column_existing df col (map to_numeric_cell c))
    as (Hc & _ & Hs & Ho).
  - eapply get_column_In; eauto.
  - rewrite length_map. eapply get_column_length; eauto.
  - repeat split; auto. intros c' Hc'. injection Hc' as <-. exact Hs.
Qed.

(** The columns named are converted, once however often they are
    named, and the others are kept. *)
Lemma for_each_to_numeric_exact (cols : list string) (df df' : frame) :
  for_each_column to_numeric_column cols df = Ok df' ->
  forall col c, get_column df col = Ok c ->
    get_column df' col
    = Ok (if in_dec string_dec col cols then map to_numeric_cell c else c).
Proof.
  revert df. induction cols as [|a r IH]; simpl; intros df.
  - intros Hd col c Hc. injection Hd as <-. exact Hc.
  - destruct (to_numeric_column df a) as [df1|e] eqn:Hs; [|discriminate].
    intros Hr col c Hc.
    destruct (to_numeric_column_exact _ _ _ Hs) as (_ & Hsame & Hother).
    destruct (string_dec a col) as [->|Hne].
    + rewrite (IH _ Hr col _ (Hsame _ Hc)).
      destruct (in_dec string_dec col r); [|reflexivity].
      rewrite map_map. f_equal. apply map_ext. apply to_numeric_cell_idem.
    + assert (Hc1 : get_column df1 col = Ok c) by (rewrite Hother; auto).
      rewrite (IH _ Hr col _ Hc1).
      destruct (in_dec string_dec col r); reflexivity.
Qed.

Lemma get_column_Some (df : frame) (col : string) :
  In col (columns df) -> exists c, get_column df col = Ok c.
Proof.
  intros Hin. destruct (index_of_In _ _ Hin) as [i Hi].
  unfold get_column. rewrite Hi. eauto.
Qed.

(** [clean_frame] of charts_api.py, cell by cell: in a 'Data.' column
    a number is kept, a text is parsed, and what is missing or does
    not parse becomes 0. *)
Lemma hiv_clean_exact (df0 df : frame) (col : string) :
  ChartsApi.clean_frame df0 = Ok df ->
  In col (columns df) -> PyStr.startswith "Data." col = true ->
  exists c0, get_column (strip_columns df0) col = Ok c0
             /\ get_column df col
                = Ok (map (fun x => fillna_cell (to_numeric_cell x)) c0).
Proof.
  unfold ChartsApi.clean_frame.
  destruct (for_each_column _ _ _) as [df1|e] eqn:Hf; [|discriminate].
  intros Hd Hin Hp. injection Hd as <-.
  destruct (numeric_after_fillna _ _ _ Hf) as (Hc & _).
  rewrite Hc in Hin. destruct (get_column_Some _ _ Hin) as [c0 Hc0].
  exists c0. split; auto.
  rewrite (get_column_fillna0 _ _ _ (for_each_to_numeric_exact _ _ _ Hf _ _ Hc0)).
  destruct (in_dec string_dec col _) as [_|Hno].
  - now rewrite map_map.
  - exfalso. apply Hno. apply filter_In. auto.
Qed.

Lemma measles_clean_exact (df0 df : frame) (col : string) :
  MeaslesCharts.clean_frame df0 = Ok df ->
  In col (columns df) -> col <> "country" ->
  exists c0,
    get_column (rename [("Countries, territories and areas", "country")] df0) col = Ok c0
    /\ get_column df col = Ok (map (fun x => fillna_cell (to_numeric_cell x)) c0).
Proof.
  unfold MeaslesCharts.clean_frame.
  destruct (for_each_column _ _ _) as [df1|e] eqn:Hf; [|discriminate].
  intros Hd Hin Hne. injection Hd as <-.
  destruct (numeric_after_fillna _ _ _ Hf) as (Hc & _).
  rewrite Hc in Hin. destruct (get_column_Some _ _ Hin) as [c0 Hc0].
  exists c0. split; auto.
  rewrite (get_column_fillna0 _ _ _ (for_each_to_numeric_exact _ _ _ Hf _ _ Hc0)).
  destruct (in_dec string_dec col _) as [_|Hno].
  - now rewrite map_map.
  - exfalso. apply Hno. apply filter_In. split; auto.
    apply negb_true_iff. now apply String.eqb_neq.
Qed.
End NumericExact.

(* ===================================================================== *)
(** * Sorting and top-N selection *)
(* ===================================================================== *)

Section SortFacts.
Variable A : Type.
Variable le : A -> A -> bool.

Lemma insert_sorted_perm (x : A) (l : list A) :
  Permutation (x :: l) (insert_sorted le x l).
Proof.
  induction l as [|y r IH]; simpl; auto.
  destruct (le x y); auto.
  rewrite perm_swap. now constructor.
Qed.

Lemma stable_sort_perm (l : list A) : Permutation l (stable_sort le l).
Proof.
  induction l as [|x r IH]; simpl; auto.
  rewrite <- insert_sorted_perm. now constructor.
Qed.

Lemma stable_sort_In (l : list A) (x : A) : In x (stable_sort le l) <-> In x l.
Proof.
  split; apply Permutation_in; [symmetry|]; apply stable_sort_perm.
Qed.


(** The order is total and transitive on the elements that satisfy
    [P]. *)
Variable P : A -> Prop.
Hypothesis le_total : forall x y, P x -> P y -> le x y = true \/ le y x = true.
Hypothesis le_trans :
  forall x y z, P x -> P y -> P z -> le x y = true -> le y z = true -> le x z = true.

Let R (a b : A) : Prop := le a b = true.

Lemma insert_sorted_sorted (x : A) (l : list A) :
  P x -> Forall P l -> StronglySorted R l -> StronglySorted R (insert_sorted le x l).
Proof.
  intros Hx HP Hs. induction Hs as [|y r Hs IH Hy]; simpl.
  - repeat constructor.
  - inversion HP as [|? ? Py Pr]; subst.
    destruct (le x y) eqn:E.
    + constructor; [now constructor|]. constructor; [exact E|].
      rewrite Forall_forall in *. intros z Hz.
      apply (le_trans x y z); auto. now apply Hy.
    + constructor; auto.
      rewrite Forall_forall in *. intros z Hz.
      apply (Permutation_in _ (Permutation_sym (insert_sorted_perm x r))) in Hz.
      destruct Hz as [<-|Hz]; auto.
      destruct (le_total _ _ Hx Py) as [Hxy|Hyx]; [unfold R in *; congruence|exact Hyx].
Qed.

Lemma stable_sort_sorted (l : list A) :
  Forall P l -> StronglySorted R (stable_sort le l).
Proof.
  induction 1 as [|x r Hx Hr IH]; simpl; [constructor|].
  apply insert_sorted_sorted; auto.
  rewrite Forall_forall in *. intros z Hz. apply Hr. now apply stable_sort_In.
Qed.


End SortFacts.

Section Selection.
Context {num : Type} {N : Numeric num} {O : NumericOrder num}.

Local Abbreviation frame := (DataFrame num).
Local Abbreviation row := (list (cell num)).

Lemma mask_rows_filter (df : frame) (f : row -> bool) :
  rows (mask_rows df (map f (rows df))) = filter f (rows df).
Proof.
  unfold mask_rows. simpl. induction (rows df) as [|r l IH]; simpl; auto.
  destruct (f r); simpl; now rewrite IH.
Qed.

Lemma get_column_cell_of (df : frame) (name : string) (c : list (cell num)) :
  get_column df name = Ok c -> c = map (cell_of (columns df) name) (rows df).
Proof.
  unfold get_column, cell_of.
  destruct (index_of name (columns df)); [|discriminate].
  intros Hc. now injection Hc as <-.
Qed.

Lemma desc_first_num_total (a b : cell num) :
  is_num a -> is_num b -> desc_first a b = true \/ desc_first b a = true.
Proof.
  intros [x ->] [y ->]. simpl. destruct (num_leb_total x y); auto.
Qed.

Lemma desc_first_num_trans (a b c : cell num) :
  is_num a -> is_num b -> is_num c ->
  desc_first a b = true -> desc_first b c = true -> desc_first a c = true.
Proof.
  intros [x ->] [y ->] [z ->]. simpl. intros. eapply num_leb_trans; eauto.
Qed.




(** [col.max()] on numbers: a number of the column that none
    exceeds. *)
Lemma col_max_from_num (l : list (cell num)) (acc m : cell num) :
  Forall is_num l -> is_num acc ->
  col_max_from acc l = Ok m ->
  (m = acc \/ In m l)
  /\ exists x, m = Num x
               /\ (forall a, acc = Num a -> num_leb a x = true)
               /\ forall y, In (Num y) l -> num_leb y x = true.
Proof.
  intros Hl. revert acc. induction Hl as [|c l [y ->] _ IH]; intros acc [a ->]; simpl.
  - intros E. injection E as <-. split; auto. exists a. split; auto. split.
    + intros a' E. injection E as <-.
      destruct (num_leb_total a a); auto.
    + tauto.
  - intros Hm.
    assert (Hstep : is_num (if num_leb a y then Num y else Num a)).
    { destruct (num_leb a y); eexists; reflexivity. }
    destruct (IH _ Hstep Hm) as (Hin & x & -> & Hacc & Hall).
    split.
    + destruct Hin as [E|Hin]; auto.
      destruct (num_leb a y); auto.
    + exists x. split; auto. split.
      * intros a' E. injection E as <-.
        destruct (num_leb a y) eqn:Eay.
        -- eapply num_leb_trans; [exact Eay|]. now apply Hacc.
        -- now apply Hacc.
      * intros y' [E|Hy']; auto. injection E as <-.
        destruct (num_leb a y) eqn:Eay.
        -- now apply Hacc.
        -- destruct (num_leb_total a y) as [E|E]; [congruence|].
           eapply num_leb_trans; [exact E|]. now apply Hacc.
Qed.

Lemma col_max_num (l : list (cell num)) (m : cell num) :
  Forall is_num l -> l <> [] -> col_max l = Ok m ->
  In m l /\ exists x, m = Num x /\ forall y, In (Num y) l -> num_leb y x = true.
Proof.
  intros Hl Hne. destruct l as [|c l]; [congruence|].
  inversion Hl as [|? ? [y ->] Hl']; subst. unfold col_max. simpl.
  intros Hm. destruct (col_max_from_num l (Num y) m Hl') as (Hin & x & -> & Hacc & Hall).
  { eexists; reflexivity. }
  { exact Hm. }
  split.
  - destruct Hin as [E|Hin]; [left; now symmetry|now right].
  - exists x. split; auto. intros y' [E|Hy']; auto.
Qed.

End Selection.

Section SelectionFacts.
Context {num : Type} {N : Numeric num} {O : NumericOrder num}.

Local Abbreviation frame := (DataFrame num).
Local Abbreviation row := (list (cell num)).

Lemma index_of_app_new (name : string) (cols : list string) :
  index_of name cols = None ->
  index_of name (cols ++ [name]) = Some (List.length cols).
Proof.
  induction cols as [|c r IH]; simpl.
  - now rewrite String.eqb_refl.
  - destruct (String.eqb c name); [discriminate|].
    destruct (index_of name r); [discriminate|].
    intros _. now rewrite IH.
Qed.

(** [df[name] = vals] followed by [df[name]] gives [vals] back. *)
Lemma get_column_set_column (df : frame) (name : string) (vals : list (cell num)) :
  List.length vals = List.length (rows df) ->
  get_column (set_column df name vals) name = Ok vals.
Proof.
  intros Hlen. destruct (index_of name (columns df)) as [i|] eqn:Hi.
  - apply set_column_existing; auto. eapply index_of_Some_In; eauto.
  - unfold set_column, get_column. rewrite Hi. simpl.
    rewrite (index_of_app_new _ _ Hi). f_equal. rewrite map_map.
    erewrite map_ext.
    + apply map_snd_combine. congruence.
    + intros [r v]. simpl. unfold row_get.
      rewrite app_nth2; rewrite length_pad; [|lia].
      now rewrite Nat.sub_diag.
Qed.


Lemma select_columns_rows_length (df sub : frame) (names : list string) :
  select_columns df names = Ok sub -> List.length (rows sub) = List.length (rows df).
Proof.
  unfold select_columns. destruct (omap _ names); [|discriminate].
  intros Hs. injection Hs as <-. simpl. apply length_map.
Qed.

Lemma sum_agg_num (c : list (cell num)) (v : cell num) :
  sum_agg c = Ok v -> is_num v.
Proof.
  unfold sum_agg. destruct (sum_cells c); [|discriminate].
  intros Hv. injection Hv as <-. eexists; reflexivity.
Qed.

(** The row sums: one number per row. *)
Lemma sum_axis1_spec (names : list string) (df : frame) (totals : list (cell num)) :
  sum_axis1 names df = Ok totals ->
  List.length totals = List.length (rows df) /\ Forall is_num totals.
Proof.
  unfold sum_axis1. destruct (select_columns df names) as [sub|e] eqn:Hs; [|discriminate].
  intros Ho. split.
  - rewrite (omap_length _ _ _ Ho). eapply select_columns_rows_length; eauto.
  - eapply omap_Forall; [|exact Ho]. intros a b. apply sum_agg_num.
Qed.



Lemma nlargest_columns (n : nat) (name : string) (df top : frame) :
  nlargest n name df = Ok top -> In name (columns df).
Proof.
  unfold nlargest. destruct (index_of name (columns df)) eqn:Hi; [|discriminate].
  intros _. eapply index_of_Some_In; eauto.
Qed.

Lemma nlargest_total (n : nat) (name : string) (df : frame) (c : list (cell num)) :
  get_column df name = Ok c -> Forall is_num c ->
  exists top, nlargest n name df = Ok top.
Proof.
  unfold get_column, nlargest.
  destruct (index_of name (columns df)) as [i|]; [|discriminate].
  intros Hc Hn. injection Hc as Hc. rewrite Hc, (existsb_is_str_num _ Hn). eauto.
Qed.

(** ** The top ten of the latest year (charts_api.py) *)

Lemma latest_rows_spec (df df_latest : frame) (latest_year : cell num) :
  ChartsApi.latest_rows df = Ok (latest_year, df_latest) ->
  columns df_latest = columns df
  /\ rows df_latest =
     filter (fun r => cell_eqb (cell_of (columns df) "Year" r) latest_year) (rows df)
  /\ exists mask, df_latest = mask_rows df mask.
Proof.
  unfold ChartsApi.latest_rows.
  destruct (get_column df "Year") as [years|e] eqn:Hy; [|discriminate].
  destruct (col_max years) as [m|e]; [|discriminate].
  intros Hl. injection Hl as <- <-.
  rewrite (get_column_cell_of _ _ _ Hy), map_map.
  split; [reflexivity|]. split; [|eauto].
  apply (mask_rows_filter df
           (fun r => cell_eqb (cell_of (columns df) "Year" r) m)).
Qed.


(** ** The top ten of the row totals (malaria_charts.py,
    measles_charts.py) *)


End SelectionFacts.

(* ===================================================================== *)
(** * Grouping *)
(* ===================================================================== *)

Section DedupFacts.
Variable A : Type.
Variable eqb : A -> A -> bool.
Variable ok : A -> Prop.

(** [eqb] is an equivalence on the elements that satisfy [ok]. *)
Hypothesis eqb_refl : forall a, ok a -> eqb a a = true.
Hypothesis eqb_sym : forall a b, eqb a b = eqb b a.
Hypothesis eqb_trans :
  forall a b c, eqb a b = true -> eqb b c = true -> eqb a c = true.

Lemma dedup_In (l : list A) (x : A) : In x (dedup eqb l) -> In x l.
Proof.
  revert x. induction l as [|a r IH]; simpl; auto.
  intros x [->|Hx]; auto. apply filter_In in Hx as [Hx _]. auto.
Qed.

Lemma dedup_covers (l : list A) (x : A) :
  Forall ok l -> In x l -> exists y, In y (dedup eqb l) /\ eqb y x = true.
Proof.
  intros Hok. revert x. induction Hok as [|a r Ha Hr IH]; simpl; [tauto|].
  intros x [->|Hx].
  - exists x. split; auto.
  - destruct (IH _ Hx) as (y & Hy & Hyx).
    destruct (eqb a y) eqn:E.
    + exists a. split; auto. eapply eqb_trans; eauto.
    + exists y. split; auto. right. apply filter_In. split; auto. now rewrite E.
Qed.

Lemma dedup_unique (l : list A) (a b : A) :
  Forall ok l ->
  In a (dedup eqb l) -> In b (dedup eqb l) -> eqb a b = true -> a = b.
Proof.
  intros Hok. revert a b. induction Hok as [|x r Hx Hr IH]; simpl; [tauto|].
  intros a b [<-|Ha] [<-|Hb] Hab; auto.
  - apply filter_In in Hb as [_ Hb]. rewrite Hab in Hb. discriminate.
  - apply filter_In in Ha as [_ Ha]. rewrite eqb_sym, Hab in Ha. discriminate.
  - apply filter_In in Ha as [Ha _]. apply filter_In in Hb as [Hb _]. auto.
Qed.

Lemma dedup_NoDup (l : list A) : Forall ok l -> NoDup (dedup eqb l).
Proof.
  induction 1 as [|x r Hx Hr IH]; simpl; constructor.
  - intros Hin. apply filter_In in Hin as [_ Hin].
    rewrite (eqb_refl _ Hx) in Hin. discriminate.
  - now apply NoDup_filter.
Qed.
End DedupFacts.

Section PartitionFacts.
Variable K R : Type.
Variable matches : K -> R -> bool.

Lemma split_by_unmatched (ks : list K) (r : R) (l : list R) :
  (forall k, In k ks -> matches k r = false) ->
  split_by matches ks (r :: l) = split_by matches ks l.
Proof.
  unfold split_by. induction ks as [|k ks IH]; simpl; auto.
  intros Hno. rewrite (Hno k) by auto. f_equal. apply IH. auto.
Qed.

Lemma split_by_matched (ks : list K) (r : R) (l : list R) :
  NoDup ks ->
  (forall a b, In a ks -> In b ks -> matches a r = true -> matches b r = true -> a = b) ->
  (exists k, In k ks /\ matches k r = true) ->
  Permutation (split_by matches ks (r :: l)) (r :: split_by matches ks l).
Proof.
  intros Hnd. induction Hnd as [|k ks Hk Hnd IH]; intros Huniq (k0 & Hin & Hm).
  - destruct Hin.
  - change (split_by matches (k :: ks) (r :: l))
      with (filter (matches k) (r :: l) ++ split_by matches ks (r :: l)).
    change (split_by matches (k :: ks) l) with (filter (matches k) l ++ split_by matches ks l).
    simpl. destruct (matches k r) eqn:E.
    + rewrite split_by_unmatched; auto.
      intros k' Hk'. destruct (matches k' r) eqn:E'; auto.
      exfalso. apply Hk. rewrite (Huniq k k'); simpl; auto.
    + destruct Hin as [->|Hin]; [congruence|].
      rewrite IH.
      * symmetry. apply Permutation_middle.
      * intros a b Ha Hb. apply Huniq; simpl; auto.
      * eauto.
Qed.

(** Keys that match each wanted row exactly once split the wanted
    rows without loss and without repetition. *)
Lemma split_by_partition (ks : list K) (wanted : R -> bool) (l : list R) :
  NoDup ks ->
  (forall r a b, In a ks -> In b ks ->
                 matches a r = true -> matches b r = true -> a = b) ->
  (forall r, In r l -> wanted r = true -> exists k, In k ks /\ matches k r = true) ->
  (forall r k, matches k r = true -> wanted r = true) ->
  Permutation (split_by matches ks l) (filter wanted l).
Proof.
  intros Hnd Huniq Hcov Hwanted.
  induction l as [|r l IH].
  - unfold split_by. clear. induction ks; simpl; auto.
  - simpl. destruct (wanted r) eqn:E.
    + rewrite split_by_matched; auto.
      * constructor. apply IH. intros; apply Hcov; simpl; auto.
      * intros a b. apply Huniq.
      * apply Hcov; simpl; auto.
    + rewrite split_by_unmatched.
      * apply IH. intros; apply Hcov; simpl; auto.
      * intros k _. destruct (matches k r) eqn:Em; auto.
        rewrite (Hwanted _ _ Em) in E. discriminate.
Qed.
End PartitionFacts.

Section GroupFacts.
Context {num : Type} {N : Numeric num} {O : NumericOrder num}.

Local Abbreviation frame := (DataFrame num).
Local Abbreviation row := (list (cell num)).

Lemma num_eqb_refl (x : num) : num_eqb x x = true.
Proof.
  unfold num_eqb. destruct (num_leb_total x x) as [E|E]; now rewrite E.
Qed.

Lemma cell_eqb_refl (c : cell num) : present c -> cell_eqb c c = true.
Proof.
  destruct c as [|x|s]; simpl; unfold present; simpl; try discriminate; intros _.
  - apply num_eqb_refl.
  - apply String.eqb_refl.
Qed.

Lemma cell_eqb_sym (a b : cell num) : cell_eqb a b = cell_eqb b a.
Proof.
  destruct a, b; simpl; auto.
  - unfold num_eqb. apply andb_comm.
  - apply String.eqb_sym.
Qed.

Lemma cell_eqb_trans (a b c : cell num) :
  cell_eqb a b = true -> cell_eqb b c = true -> cell_eqb a c = true.
Proof.
  destruct a, b, c; simpl; try discriminate.
  - unfold num_eqb. intros H1 H2.
    apply andb_prop in H1 as [H1 H1']. apply andb_prop in H2 as [H2 H2'].
    apply andb_true_intro. split; eapply num_leb_trans; eauto.
  - intros H1 H2. apply String.eqb_eq in H1, H2. subst. apply String.eqb_refl.
Qed.

Lemma cell_eqb_present (a b : cell num) : cell_eqb a b = true -> present b.
Proof. destruct a, b; simpl; try discriminate; reflexivity. Qed.

Lemma keys_grouped {R : Type} (key : R -> cell num) (rs : list R) (keys : list (cell num)) :
  Permutation keys
    (dedup cell_eqb (filter (fun c => negb (is_nan c)) (map key rs))) ->
  grouped key rs
          (map (fun k => (k, filter (fun r => cell_eqb k (key r)) rs)) keys).
Proof.
  intros Hperm.
  set (cs := filter (fun c => negb (is_nan c)) (map key rs)) in *.
  assert (Hok : Forall present cs).
  { apply Forall_forall. intros c Hc. apply filter_In in Hc as [_ Hc].
    now apply negb_true_iff in Hc. }
  assert (Hin : forall k, In k keys <-> In k (dedup cell_eqb cs)).
  { intros k. split; apply Permutation_in; [|symmetry]; exact Hperm. }
  assert (Hnd : NoDup keys).
  { eapply Permutation_NoDup; [symmetry; exact Hperm|].
    eapply dedup_NoDup with (ok := present); eauto. apply cell_eqb_refl. }
  assert (Huniq : forall a b, In a keys -> In b keys -> cell_eqb a b = true -> a = b).
  { intros a b Ha Hb. apply Hin in Ha, Hb.
    eapply dedup_unique with (ok := present); eauto. apply cell_eqb_sym. }
  assert (Hcov : forall r, In r rs -> present (key r) ->
                           exists k, In k keys /\ cell_eqb k (key r) = true).
  { intros r Hr Hp.
    destruct (dedup_covers _ cell_eqb present cell_eqb_refl cell_eqb_trans cs (key r) Hok)
      as (k & Hk & Hkr).
    - apply filter_In. split; [now apply in_map|]. now apply negb_true_iff.
    - exists k. split; auto. now apply Hin. }
  assert (Hocc : forall k, In k keys ->
                           exists r, In r rs /\ cell_eqb k (key r) = true).
  { intros k Hk. apply Hin in Hk. apply dedup_In in Hk.
    apply filter_In in Hk as [Hk Hp]. apply in_map_iff in Hk as (r & <- & Hr).
    exists r. split; auto. apply cell_eqb_refl. now apply negb_true_iff in Hp. }
  unfold grouped. rewrite !map_map. simpl. rewrite map_id.
  split; [exact Hnd|]. split; [|split; [|split]].
  - intros g g' Hg Hg' Heq.
    apply in_map_iff in Hg as (k & <- & Hk).
    apply in_map_iff in Hg' as (k' & <- & Hk'). simpl in Heq.
    now rewrite (Huniq _ _ Hk Hk' Heq).
  - intros r Hr Hp. destruct (Hcov r Hr Hp) as (k & Hk & Hkr).
    eexists. split; [apply in_map_iff; exists k; split; [reflexivity|exact Hk]|exact Hkr].
  - intros g Hg. apply in_map_iff in Hg as (k & <- & Hk). simpl. split; auto.
    destruct (Hocc k Hk) as (r & Hr & Hkr). intros Hnil.
    assert (Hrin : In r (filter (fun r => cell_eqb k (key r)) rs))
      by (apply filter_In; auto).
    rewrite Hnil in Hrin. destruct Hrin.
  - apply (split_by_partition _ _ (fun k r => cell_eqb k (key r)) keys
                              (fun r => negb (is_nan (key r))) rs); auto.
    + intros r a b Ha Hb Har Hbr. apply Huniq; auto.
      eapply cell_eqb_trans; eauto. now rewrite cell_eqb_sym.
    + intros r Hr Hw. apply Hcov; auto. now apply negb_true_iff in Hw.
    + intros r k Hkr. apply negb_true_iff. eapply cell_eqb_present; eauto.
Qed.

(** [groupby] groups the rows of the frame by the named column. *)
Lemma groupby_grouped (name : string) (df : frame) (groups : list (cell num * frame)) :
  groupby name df = Ok groups ->
  grouped (cell_of (columns df) name) (rows df) (group_rows groups)
  /\ Forall (fun kg => columns (snd kg) = columns df) groups.
Proof.
  unfold groupby, cell_of.
  destruct (index_of name (columns df)) as [i|]; [|discriminate].
  intros Hg. injection Hg as <-. split.
  - unfold group_rows. rewrite map_map. simpl.
    apply keys_grouped. symmetry. apply stable_sort_perm.
  - apply Forall_forall. intros kg Hkg.
    apply in_map_iff in Hkg as (k & <- & _). reflexivity.
Qed.

(** Grouping survives a change of what is kept of each row. *)
Lemma grouped_map {R S : Type} (f : R -> S) (key : R -> cell num) (rs : list R)
      (groups : list (cell num * list R)) :
  grouped key rs groups ->
  NoDup (map fst groups)
  /\ (forall g g', In g groups -> In g' groups ->
                   cell_eqb (fst g) (fst g') = true -> fst g = fst g')
  /\ (forall r, In r rs -> present (key r) ->
                exists g, In g groups /\ cell_eqb (fst g) (key r) = true)
  /\ (forall g, In g groups ->
                map f (snd g) = map f (filter (fun r => cell_eqb (fst g) (key r)) rs)
                /\ map f (snd g) <> [])
  /\ Permutation (List.concat (map (fun g => map f (snd g)) groups))
                 (map f (filter (fun r => negb (is_nan (key r))) rs)).
Proof.
  intros (Hnd & Hu & Hc & Hg & Hp). repeat split; auto.
  - intros g g' Hin Hin' Heq. now rewrite (Hu g g' Hin Hin' Heq).
  - destruct (Hg g H) as [-> _]. reflexivity.
  - destruct (Hg g H) as [_ Hne]. destruct (snd g); [congruence|discriminate].
  - rewrite <- Hp. rewrite concat_map, map_map. reflexivity.
Qed.

End GroupFacts.

(* ===================================================================== *)
(** * The reshaping of the data services *)
(* ===================================================================== *)

Section ReshapeFacts.
Context {num : Type} {N : Numeric num} {O : NumericOrder num}.

Local Abbreviation frame := (DataFrame num).
Local Abbreviation row := (list (cell num)).




Lemma melt_columns (id var value : string) (df m : frame) :
  melt id var value df = Ok m -> columns m = [id; var; value].
Proof.
  unfold melt. destruct (index_of id (columns df)); [|discriminate].
  intros Hm. now injection Hm as <-.
Qed.






(** ** The rows of the melted frames *)

Lemma In_combine_seq {A} (l : list A) (j : nat) (x : A) (start : nat) :
  In (j, x) (combine (seq start (List.length l)) l)
  <-> (start <= j)%nat /\ nth_error l (j - start) = Some x.
Proof.
  revert start. induction l as [|a l IH]; intros start; simpl.
  - split; [tauto|]. intros [_ Hn]. destruct (j - start)%nat; discriminate.
  - rewrite IH. split.
    + intros [Heq|[Hle Hn]].
      * injection Heq as <- <-. rewrite Nat.sub_diag. split; auto.
      * split; [lia|]. replace (j - start)%nat with (S (j - S start)) by lia. exact Hn.
    + intros [Hle Hn]. destruct (Nat.eq_dec start j) as [<-|Hne].
      * rewrite Nat.sub_diag in Hn. simpl in Hn. injection Hn as <-. now left.
      * right. split; [lia|].
        replace (j - start)%nat with (S (j - S start)) in Hn by lia. exact Hn.
Qed.


(** A cell that is no number is stacked as it is, and every cell is
    when the stacked column is not float64. *)
Lemma stacked_same (id : string) (df : frame) (c : cell num) :
  value_dtype id df <> Float64 \/ (forall x, c <> Num x) ->
  stacked id df c = c.
Proof.
  unfold stacked. intros [Hd|Hc].
  - destruct (value_dtype id df), c; try reflexivity. congruence.
  - destruct (value_dtype id df), c; try reflexivity. now elim (Hc x).
Qed.

Lemma melt_rows (df m : frame) :
  melt "country" "year" "cases" df = Ok m ->
  forall x, In x (rows m) <->
            exists r j y,
              is_year_cell df r j y
              /\ x = melted_from df r j y (stacked "country" df (row_get j r)).
Proof.
  unfold melt, value_vars, melted_from, is_year_cell, cell_of.
  destruct (index_of "country" (columns df)) as [i|]; [|discriminate].
  intros Hm. injection Hm as <-. simpl. intros x.
  rewrite in_flat_map. split.
  - intros ([j y] & Hjy & Hx). apply filter_In in Hjy as [Hjy Hne].
    apply In_combine_seq in Hjy as [_ Hn]. rewrite Nat.sub_0_r in Hn.
    apply in_map_iff in Hx as (r & <- & Hr). simpl.
    exists r, j, y. repeat split; auto.
    apply negb_true_iff in Hne. simpl in Hne. now apply String.eqb_neq in Hne.
  - intros (r & j & y & (Hr & Hn & Hne) & ->).
    exists (j, y). split.
    + apply filter_In. split.
      * apply In_combine_seq. rewrite Nat.sub_0_r. split; [lia|exact Hn].
      * apply negb_true_iff. simpl. now apply String.eqb_neq.
    + apply in_map_iff. exists r. auto.
Qed.

Lemma melt_rows_length (df m : frame) :
  melt "country" "year" "cases" df = Ok m ->
  List.length (rows m)
  = (List.length (filter (fun c => negb (String.eqb c "country")) (columns df))
     * List.length (rows df))%nat.
Proof.
  unfold melt, value_vars.
  destruct (index_of "country" (columns df)) as [i|]; [|discriminate].
  intros Hm. injection Hm as <-. simpl.
  generalize (stacked "country" df). intros st.
  generalize 0%nat. induction (columns df) as [|c cols IH]; intros start; simpl; auto.
  destruct (String.eqb c "country"); simpl; auto.
  rewrite length_app, length_map, IH. reflexivity.
Qed.

Lemma combine_map_self {A B} (f : A -> B) (l : list A) :
  combine l (map f l) = map (fun a => (a, f a)) l.
Proof. induction l; simpl; congruence. Qed.

Lemma malaria_melted_rows (df m : frame) :
  Malaria.melted df = Ok m ->
  let wide := rename [("Countries, territories and areas", "country")] df in
  (forall x, In x (rows m) <->
             exists r j y,
               is_year_cell wide r j y
               /\ x = melted_from wide r j y
                        (Num (num_of_Z (Malaria.extract_number
                                          (stacked "country" wide (row_get j r))))))
  /\ List.length (rows m)
     = (List.length (filter (fun c => negb (String.eqb c "country")) (columns wide))
        * List.length (rows wide))%nat.
Proof.
  intros Hm. unfold Malaria.melted in Hm. cbv zeta in *.
  set (wide := rename [("Countries, territories and areas", "country")] df) in *.
  destruct (melt "country" "year" "cases" wide) as [m0|e] eqn:Hm0; [|discriminate].
  destruct (get_column m0 "cases") as [c|e] eqn:Hc; [|discriminate].
  injection Hm as <-.
  pose proof (melt_columns _ _ _ _ _ Hm0) as Hcols.
  pose proof (melt_rows _ _ Hm0) as Hrows.
  pose proof (melt_rows_length _ _ Hm0) as Hlen.
  unfold get_column in Hc. rewrite Hcols in Hc.
  change (index_of "cases" ["country"; "year"; "cases"]) with (Some 2%nat) in Hc.
  injection Hc as <-.
  unfold set_column. rewrite Hcols.
  change (index_of "cases" ["country"; "year"; "cases"]) with (Some 2%nat).
  cbn [rows columns]. rewrite map_map, combine_map_self, map_map. cbn [fst snd].
  split.
  - intros x. rewrite in_map_iff. split.
    + intros (x0 & <- & Hx0). apply Hrows in Hx0 as (r & j & y & Hy & ->).
      exists r, j, y. split; auto.
    + intros (r & j & y & Hy & ->).
      exists (melted_from wide r j y (stacked "country" wide (row_get j r))).
      split; [reflexivity|]. apply Hrows. eauto.
  - now rewrite length_map.
Qed.


End ReshapeFacts.

(* ===================================================================== *)
(** * The effects of a request *)
(* ===================================================================== *)

Section Effects.
Context {num : Type} `{Numeric num} `{Libs num}.

Local Abbreviation frame := (DataFrame num).

Lemma quiet_ret {A} (a : A) : quiet (@ret num A a).
Proof. intros w. split; auto. exists []. now rewrite app_nil_r. Qed.

Lemma quiet_raise {A} (e : exn) : quiet (@raise num A e).
Proof. intros w. split; auto. exists []. now rewrite app_nil_r. Qed.

Lemma quiet_lift {A} (o : outcome A) : quiet (@lift num A o).
Proof. intros w. split; auto. exists []. now rewrite app_nil_r. Qed.

Lemma quiet_emit (ev : event) : no_write ev -> quiet (@emit num ev).
Proof. intros Hev w. split; auto. exists [ev]. split; auto. Qed.

Lemma quiet_print (msg : string) : quiet (@print num msg).
Proof. apply quiet_emit. exact I. Qed.

Lemma quiet_bind {A B} (m : M num A) (k : A -> M num B) :
  quiet m -> (forall a, quiet (k a)) -> quiet (bind m k).
Proof.
  intros Hm Hk w. unfold bind. destruct (Hm w) as (Hf & evs & Ht & Hn).
  destruct (m w) as [[a|e] w1]; simpl in *.
  - destruct (Hk a w1) as (Hf' & evs' & Ht' & Hn'). split; [congruence|].
    exists (evs ++ evs'). rewrite Ht', Ht, app_assoc. split; auto.
    apply Forall_app; auto.
  - split; auto. eauto.
Qed.

Lemma quiet_try {A} (m : M num A) (h : exn -> M num A) :
  quiet m -> (forall e, quiet (h e)) -> quiet (try_except m h).
Proof.
  intros Hm Hh w. unfold try_except. destruct (Hm w) as (Hf & evs & Ht & Hn).
  destruct (m w) as [[a|e] w1]; simpl in *.
  - split; auto. eauto.
  - destruct (Hh e w1) as (Hf' & evs' & Ht' & Hn'). split; [congruence|].
    exists (evs ++ evs'). rewrite Ht', Ht, app_assoc. split; auto.
    apply Forall_app; auto.
Qed.

Lemma reads_first_quiet {A} (path : string) (m : M num A) :
  reads_first path m -> quiet m.
Proof.
  intros Hm w. destruct (Hm w) as (Hf & evs & Ht & Hn). split; auto.
  exists (EvReadCsv path :: evs). split; auto. constructor; auto. exact I.
Qed.

Lemma reads_first_bind {A B} (path : string) (m : M num A) (k : A -> M num B) :
  reads_first path m -> (forall a, quiet (k a)) -> reads_first path (bind m k).
Proof.
  intros Hm Hk w. unfold bind. destruct (Hm w) as (Hf & evs & Ht & Hn).
  destruct (m w) as [[a|e] w1]; simpl in *.
  - destruct (Hk a w1) as (Hf' & evs' & Ht' & Hn'). split; [congruence|].
    exists (evs ++ evs'). rewrite Ht', Ht, <- app_assoc. split; auto.
    apply Forall_app; auto.
  - split; auto. eauto.
Qed.

Lemma reads_first_try {A} (path : string) (m : M num A) (h : exn -> M num A) :
  reads_first path m -> (forall e, quiet (h e)) -> reads_first path (try_except m h).
Proof.
  intros Hm Hh w. unfold try_except. destruct (Hm w) as (Hf & evs & Ht & Hn).
  destruct (m w) as [[a|e] w1]; simpl in *.
  - split; auto. eauto.
  - destruct (Hh e w1) as (Hf' & evs' & Ht' & Hn'). split; [congruence|].
    exists (evs ++ evs'). rewrite Ht', Ht, <- app_assoc. split; auto.
    apply Forall_app; auto.
Qed.

Lemma reads_first_read_csv (path : string) : reads_first path (@read_csv num path).
Proof.
  intros w. rewrite read_csv_run. simpl. split; auto. exists []. split; auto.
Qed.

Lemma quiet_subplots : quiet (@plt_subplots num).
Proof.
  intros w. unfold plt_subplots, bind, emit. simpl. split; auto.
  exists [EvNewFigure]. split; auto. repeat constructor.
Qed.

Lemma quiet_on_current (d : draw num) : quiet (on_current d).
Proof.
  intros w. unfold on_current. destruct (figures w); simpl; split; auto;
    exists []; now rewrite app_nil_r.
Qed.

Lemma quiet_ax_plot (ax : nat) (xs ys : list (cell num)) (label : string) :
  quiet (ax_plot ax xs ys label).
Proof.
  unfold ax_plot. destruct (Nat.eqb _ _); [apply quiet_on_current|apply quiet_raise].
Qed.

Lemma quiet_ax_barh (ys ws : list (cell num)) : quiet (ax_barh ys ws).
Proof.
  unfold ax_barh. destruct (Nat.eqb _ _); [apply quiet_on_current|apply quiet_raise].
Qed.

Lemma quiet_savefig_buffer : quiet (@fig_savefig num _ ToBuffer).
Proof.
  intros w. simpl. split; auto. exists [EvSavefigBuffer]. split; auto.
  repeat constructor.
Qed.

Lemma quiet_close : quiet (@plt_close num).
Proof.
  intros w. unfold plt_close, bind, emit. simpl. split; auto.
  exists [EvCloseFigure]. split; auto. repeat constructor.
Qed.

(** Saving to a path, which no handler does, is not quiet. *)
Lemma savefig_to_path_writes (path : string) (w : world num) :
  files (snd (fig_savefig (ToPath path) w)) path
  = Some (PngFile (render_png (hd [] (figures w))))
  /\ In (EvWriteFile path) (trace (snd (fig_savefig (ToPath path) w))).
Proof.
  simpl. rewrite String.eqb_refl. split; auto.
  apply in_or_app. right. now left.
Qed.

End Effects.

Create HintDb effects.

#[global] Hint Resolve quiet_ret quiet_raise quiet_lift quiet_print quiet_subplots
  quiet_on_current quiet_ax_plot quiet_ax_barh quiet_savefig_buffer quiet_close
  : effects.

(** One step of a proof that a view is quiet: split a sequence, or look
    at the cases of a test. *)
Ltac quiet_step :=
  match goal with
  | |- quiet (bind _ _) => apply quiet_bind; [|intros ?]
  | |- quiet (try_except _ _) => apply quiet_try; [|intros ?]
  | |- quiet (fig_call _) => apply quiet_on_current
  | |- quiet (plt_call _) => apply quiet_on_current
  | |- quiet (if ?b then _ else _) => destruct b
  | |- quiet (match ?x with _ => _ end) => destruct x
  | |- quiet _ => solve [auto with effects]
  end.

Ltac quiet_tac := cbv zeta; repeat quiet_step.

Section ViewEffects.
Context {num : Type} `{Numeric num} `{Libs num}.

Local Abbreviation frame := (DataFrame num).

Lemma reads_first_load_data : reads_first "aids.csv" ChartsApi.load_data.
Proof.
  unfold ChartsApi.load_data. apply reads_first_try.
  - apply reads_first_bind; [apply reads_first_read_csv|]. intros. quiet_tac.
  - intros. quiet_tac.
Qed.

Lemma reads_first_load_malaria_data :
  reads_first "malaria_data.csv" MalariaCharts.load_malaria_data.
Proof.
  unfold MalariaCharts.load_malaria_data. apply reads_first_try.
  - apply reads_first_bind; [apply reads_first_read_csv|]. intros. quiet_tac.
  - intros. quiet_tac.
Qed.

Lemma reads_first_load_measles_data :
  reads_first "data.csv" MeaslesCharts.load_measles_data.
Proof.
  unfold MeaslesCharts.load_measles_data. apply reads_first_try.
  - apply reads_first_bind; [apply reads_first_read_csv|]. intros. quiet_tac.
  - intros. quiet_tac.
Qed.

Lemma quiet_fig_calls (ds : list (draw num)) : quiet (ChartsApi.fig_calls ds).
Proof. induction ds; simpl; quiet_tac. Qed.

Lemma quiet_hiv_send_png : quiet (@ChartsApi.send_png num _).
Proof. unfold ChartsApi.send_png, ChartsApi.save_plot_to_bytesio. quiet_tac. Qed.

Lemma quiet_malaria_send_png : quiet (@MalariaCharts.send_png num _).
Proof. unfold MalariaCharts.send_png, MalariaCharts.save_plot_to_bytesio. quiet_tac. Qed.

Lemma quiet_measles_send_png : quiet (@MeaslesCharts.send_png num _).
Proof. unfold MeaslesCharts.send_png, MeaslesCharts.save_plot_to_bytesio. quiet_tac. Qed.

Lemma quiet_malaria_plot_rows (cols years : list string) (rs : list (list (cell num))) :
  quiet (MalariaCharts.plot_rows cols years rs).
Proof. induction rs; simpl; quiet_tac. Qed.

Lemma quiet_measles_plot_rows (cols years : list string) (rs : list (list (cell num))) :
  quiet (MeaslesCharts.plot_rows cols years rs).
Proof. induction rs; simpl; quiet_tac. Qed.

End ViewEffects.

#[global] Hint Resolve quiet_fig_calls quiet_hiv_send_png quiet_malaria_send_png
  quiet_measles_send_png quiet_malaria_plot_rows quiet_measles_plot_rows : effects.

Section ViewsAreQuiet.
Context {num : Type} `{Numeric num} `{Libs num}.

Lemma quiet_read_csv (path : string) : quiet (@read_csv num path).
Proof. eapply reads_first_quiet. apply reads_first_read_csv. Qed.

Lemma quiet_load_data : quiet (@ChartsApi.load_data num _).
Proof. eapply reads_first_quiet. apply reads_first_load_data. Qed.

Lemma quiet_load_malaria_data : quiet (@MalariaCharts.load_malaria_data num _).
Proof. eapply reads_first_quiet. apply reads_first_load_malaria_data. Qed.

Lemma quiet_load_measles_data : quiet (@MeaslesCharts.load_measles_data num _).
Proof. eapply reads_first_quiet. apply reads_first_load_measles_data. Qed.
End ViewsAreQuiet.

#[global] Hint Resolve quiet_read_csv quiet_load_data quiet_load_malaria_data
  quiet_load_measles_data : effects.

(** The views and the blocks they are made of. *)
Create HintDb views.

#[global] Hint Unfold
  Hiv.get_aids_data Hiv.try_body Malaria.get_malaria_data Malaria.try_body
  Measles.get_death_data Measles.try_body
  ChartsApi.series_chart ChartsApi.two_series_chart ChartsApi.top_chart
  ChartsApi.deaths_global ChartsApi.deaths_by_group ChartsApi.prevalence_global
  ChartsApi.prevalence_young ChartsApi.infections_global ChartsApi.infections_by_group
  ChartsApi.plhiv_global ChartsApi.plhiv_by_group ChartsApi.top_deaths
  ChartsApi.top_infections ChartsApi.top_plhiv ChartsApi.aids_orphans
  ChartsApi.deaths_by_gender ChartsApi.incidence_rate ChartsApi.country_profile
  ChartsApi.top_prevalence
  MalariaCharts.global_deaths MalariaCharts.top_countries MalariaCharts.country_profile
  MalariaCharts.compare_countries
  MeaslesCharts.global_cases MeaslesCharts.top_countries MeaslesCharts.country_profile
  MeaslesCharts.compare_countries : views.

Section ViewTraces.
Context {num : Type} `{Numeric num} `{Libs num}.

(** Every view leaves the files alone. *)
Lemma quiet_view (ep : endpoint) (req : request) : quiet (view ep req).
Proof.
  destruct ep; simpl; autounfold with views; quiet_tac.
Qed.

Lemma reads_first_reads (path : string) (m : M num (response num)) :
  reads_first path m -> reads_or_rejects path m.
Proof.
  intros Hm w. left. destruct (Hm w) as (_ & evs & Ht & _). eauto.
Qed.

Lemma rejects_ret (path : string) (r : response num) :
  status r = 400 -> reads_or_rejects path (ret r).
Proof. intros Hr w. right. exists r. auto. Qed.

Lemma view_reads_or_rejects (ep : endpoint) (req : request) :
  reads_or_rejects (csv_of ep) (view ep req).
Proof.
  destruct ep; simpl; autounfold with views;
    try (apply reads_first_reads;
         first [ apply reads_first_try;
                 [apply reads_first_bind; [apply reads_first_read_csv|]|]
               | apply reads_first_bind;
                 [first [ apply reads_first_load_data
                        | apply reads_first_load_malaria_data
                        | apply reads_first_load_measles_data ]|] ];
         intros; quiet_tac).
  all: repeat match goal with
         | |- reads_or_rejects _ (match ?x with _ => _ end) => destruct x
         | |- reads_or_rejects _ (if ?b then _ else _) => destruct b
         | |- reads_or_rejects _ (let _ := _ in _) => cbv zeta
         | |- reads_or_rejects _ (ret _) => apply rejects_ret; reflexivity
         end.
  all: apply reads_first_reads; apply reads_first_bind;
    [first [ apply reads_first_load_malaria_data
           | apply reads_first_load_measles_data ]|];
    intros; quiet_tac.
Qed.

End ViewTraces.

(* ===================================================================== *)
(** * Two runs of a view *)
(* ===================================================================== *)

Section TwoRuns.
Context {num : Type} `{Numeric num} `{Libs num}.

Lemma agree_weaken (path : string) (h : bool) (w1 w2 : world num) :
  agree path h w1 w2 -> agree path false w1 w2.
Proof. intros [Hf _]. split; auto. discriminate. Qed.

Lemma rel_ret {A} (path : string) (h : bool) (a : A) : rel path h h (@ret num A a).
Proof.
  intros w1 w2 Ha. simpl. split; [reflexivity|].
  split; [exact (agree_weaken _ _ _ _ Ha)|]. intros _ _. exact Ha.
Qed.

Lemma rel_lift {A} (path : string) (h : bool) (o : outcome A) :
  rel path h h (@lift num A o).
Proof.
  intros w1 w2 Ha. simpl. split; [reflexivity|].
  split; [exact (agree_weaken _ _ _ _ Ha)|]. intros _ _. exact Ha.
Qed.

Lemma rel_raise {A} (path : string) (h h' : bool) (e : exn) :
  rel path h h' (@raise num A e).
Proof.
  intros w1 w2 Ha. simpl. split; [reflexivity|].
  split; [exact (agree_weaken _ _ _ _ Ha)|]. intros a Hr. discriminate Hr.
Qed.

Lemma rel_emit (path : string) (h : bool) (ev : event) : rel path h h (@emit num ev).
Proof.
  intros w1 w2 Ha. simpl. split; [reflexivity|].
  split; [exact (agree_weaken _ _ _ _ Ha)|]. intros _ _. exact Ha.
Qed.

Lemma rel_bind {A B} (path : string) (h h1 h2 : bool) (m : M num A) (k : A -> M num B) :
  rel path h h1 m -> (forall a, rel path h1 h2 (k a)) -> rel path h h2 (bind m k).
Proof.
  intros Hm Hk w1 w2 Ha. unfold bind.
  destruct (Hm w1 w2 Ha) as (Ho & Hw & Hok).
  destruct (m w1) as [[a|e] w1'], (m w2) as [[a'|e'] w2']; simpl in *;
    try discriminate.
  - injection Ho as <-. apply (Hk a). apply (Hok a). reflexivity.
  - injection Ho as <-. split; [reflexivity|]. split; [exact Hw|].
    intros b Hb. discriminate Hb.
Qed.

Lemma rel_try {A} (path : string) (h h' : bool) (m : M num A) (hd : exn -> M num A) :
  rel path h h' m -> (forall e, rel path false h' (hd e)) -> rel path h h' (try_except m hd).
Proof.
  intros Hm Hh w1 w2 Ha. unfold try_except.
  destruct (Hm w1 w2 Ha) as (Ho & Hw & Hok).
  destruct (m w1) as [[a|e] w1'], (m w2) as [[a'|e'] w2']; simpl in *;
    try discriminate.
  - injection Ho as <-. split; [reflexivity|]. split; [exact Hw|]. exact Hok.
  - injection Ho as <-. apply (Hh e). exact Hw.
Qed.

Lemma rel_read_csv (path : string) (h : bool) : rel path h h (@read_csv num path).
Proof.
  intros w1 w2 Ha. rewrite !read_csv_run. simpl.
  split; [now rewrite (proj1 Ha)|].
  split; [exact (agree_weaken _ _ _ _ Ha)|]. intros _ _. exact Ha.
Qed.

Lemma rel_subplots (path : string) (h : bool) : rel path h true (@plt_subplots num).
Proof.
  intros w1 w2 [Hf _]. unfold plt_subplots, bind, emit. simpl.
  split; [reflexivity|]. split; [split; [exact Hf|discriminate]|].
  intros _ _. split; [exact Hf|]. intros _. simpl. eauto.
Qed.

Lemma rel_on_current (path : string) (d : draw num) : rel path true true (on_current d).
Proof.
  intros w1 w2 [Hf Hh]. destruct (Hh eq_refl) as (f & r1 & r2 & E1 & E2).
  unfold on_current. rewrite E1, E2. simpl.
  split; [reflexivity|]. split; [split; [exact Hf|discriminate]|].
  intros _ _. split; [exact Hf|]. intros _. simpl. eauto.
Qed.

Lemma rel_ax_plot (path : string) (ax : nat) (xs ys : list (cell num)) (label : string) :
  rel path true true (ax_plot ax xs ys label).
Proof.
  unfold ax_plot. destruct (Nat.eqb _ _); [apply rel_on_current|apply rel_raise].
Qed.

Lemma rel_ax_barh (path : string) (ys ws : list (cell num)) :
  rel path true true (ax_barh ys ws).
Proof.
  unfold ax_barh. destruct (Nat.eqb _ _); [apply rel_on_current|apply rel_raise].
Qed.

Lemma rel_savefig_buffer (path : string) : rel path true true (@fig_savefig num _ ToBuffer).
Proof.
  intros w1 w2 [Hf Hh]. destruct (Hh eq_refl) as (f & r1 & r2 & E1 & E2).
  simpl. rewrite E1, E2. simpl.
  split; [reflexivity|]. split; [split; [exact Hf|discriminate]|].
  intros _ _. split; [exact Hf|]. intros _. simpl. eauto.
Qed.

Lemma rel_close (path : string) (h : bool) : rel path h false (@plt_close num).
Proof.
  intros w1 w2 [Hf _]. unfold plt_close, bind, emit. simpl.
  split; [reflexivity|]. split; [split; [exact Hf|discriminate]|].
  intros _ _. split; [exact Hf|discriminate].
Qed.

End TwoRuns.

Create HintDb tworuns.

#[global] Hint Resolve rel_ret rel_lift rel_raise rel_emit rel_read_csv rel_subplots
  rel_on_current rel_ax_plot rel_ax_barh rel_savefig_buffer rel_close : tworuns.

Ltac rel_step :=
  match goal with
  | |- rel _ _ _ (bind _ _) => eapply rel_bind; [|intros ?]
  | |- rel _ _ _ (try_except _ _) => eapply rel_try; [|intros ?]
  | |- rel _ _ _ (print _) => apply rel_emit
  | |- rel _ _ _ (fig_call _) => apply rel_on_current
  | |- rel _ _ _ (plt_call _) => apply rel_on_current
  | |- rel _ _ _ (if ?b then _ else _) => destruct b
  | |- rel _ _ _ (match ?x with _ => _ end) => destruct x
  | |- rel _ _ _ _ => solve [eauto with tworuns]
  end.

Ltac rel_tac := cbv zeta; repeat rel_step.

Section ViewRuns.
Context {num : Type} `{Numeric num} `{Libs num}.

Lemma rel_load_data : rel "aids.csv" false false ChartsApi.load_data.
Proof. unfold ChartsApi.load_data. rel_tac. Qed.

Lemma rel_load_malaria_data :
  rel "malaria_data.csv" false false MalariaCharts.load_malaria_data.
Proof. unfold MalariaCharts.load_malaria_data. rel_tac. Qed.

Lemma rel_load_measles_data :
  rel "data.csv" false false MeaslesCharts.load_measles_data.
Proof. unfold MeaslesCharts.load_measles_data. rel_tac. Qed.

Lemma rel_fig_calls (path : string) (ds : list (draw num)) :
  rel path true true (ChartsApi.fig_calls ds).
Proof. induction ds; simpl; rel_tac. Qed.

Lemma rel_hiv_send_png (path : string) : rel path true false (@ChartsApi.send_png num _).
Proof. unfold ChartsApi.send_png, ChartsApi.save_plot_to_bytesio. rel_tac. Qed.

Lemma rel_malaria_send_png (path : string) :
  rel path true false (@MalariaCharts.send_png num _).
Proof. unfold MalariaCharts.send_png, MalariaCharts.save_plot_to_bytesio. rel_tac. Qed.

Lemma rel_measles_send_png (path : string) :
  rel path true false (@MeaslesCharts.send_png num _).
Proof. unfold MeaslesCharts.send_png, MeaslesCharts.save_plot_to_bytesio. rel_tac. Qed.

Lemma rel_malaria_plot_rows (path : string) (cols years : list string)
      (rs : list (list (cell num))) :
  rel path true true (MalariaCharts.plot_rows cols years rs).
Proof. induction rs; simpl; rel_tac. Qed.

Lemma rel_measles_plot_rows (path : string) (cols years : list string)
      (rs : list (list (cell num))) :
  rel path true true (MeaslesCharts.plot_rows cols years rs).
Proof. induction rs; simpl; rel_tac. Qed.

End ViewRuns.

#[global] Hint Resolve rel_load_data rel_load_malaria_data rel_load_measles_data
  rel_fig_calls rel_hiv_send_png rel_malaria_send_png rel_measles_send_png
  rel_malaria_plot_rows rel_measles_plot_rows : tworuns.

Section ViewsAreFunctions.
Context {num : Type} `{Numeric num} `{Libs num}.

(** Run from two worlds holding the same CSV file, a view ends the
    same way. *)
Lemma rel_view (ep : endpoint) (req : request) :
  rel (csv_of ep) false false (view ep req).
Proof.
  destruct ep; simpl; autounfold with views; rel_tac.
Qed.

Lemma serve_files (ep : endpoint) (req : request) (w : world num) :
  files (snd (serve ep req w)) = files w.
Proof.
  unfold serve, dispatch. destruct (quiet_view ep req w) as [Hf _].
  destruct (view ep req w) as [[r|e] w']; exact Hf.
Qed.

Lemma serve_all_files (reqs : list (endpoint * request)) (w : world num) :
  files (serve_all reqs w) = files w.
Proof.
  revert w. induction reqs as [|[ep req] reqs IH]; intros w; simpl; auto.
  rewrite IH. apply serve_files.
Qed.

Lemma serve_same_file (ep : endpoint) (req : request) (w1 w2 : world num) :
  files w1 (csv_of ep) = files w2 (csv_of ep) ->
  fst (serve ep req w1) = fst (serve ep req w2).
Proof.
  intros Hf. unfold serve, dispatch.
  destruct (rel_view ep req w1 w2) as (Ho & _).
  { split; auto. discriminate. }
  destruct (view ep req w1) as [[r|e] w1'], (view ep req w2) as [[r'|e'] w2'];
    simpl in *; congruence.
Qed.

End ViewsAreFunctions.

(* ===================================================================== *)
(** * Country lookups and the status of a response *)
(* ===================================================================== *)

Section LookupFacts.
Context {num : Type} `{Numeric num} `{Libs num}.

Local Abbreviation frame := (DataFrame num).

Lemma df_empty_rows (df : frame) :
  columns df <> [] -> (df_empty df = true <-> rows df = []).
Proof.
  unfold df_empty. destruct (columns df); [congruence|]. intros _.
  destruct (rows df); split; congruence.
Qed.

Lemma filter_nil_iff {A} (f : A -> bool) (l : list A) :
  filter f l = [] <-> forall x, In x l -> f x = false.
Proof.
  induction l as [|a l IH]; simpl.
  - split; auto. tauto.
  - destruct (f a) eqn:E.
    + split; [discriminate|]. intros Hx. rewrite (Hx a) in E; auto. discriminate.
    + rewrite IH. split.
      * intros Hl x [<-|Hx]; auto.
      * intros Hl x Hx. apply Hl. auto.
Qed.

(** The rows kept by a test on one column: none is kept exactly when
    no cell of the column passes the test. *)
Lemma mask_by_column_empty (df : frame) (name : string) (col : list (cell num))
      (g : cell num -> bool) :
  get_column df name = Ok col ->
  (df_empty (mask_rows df (map g col)) = true <-> forall c, In c col -> g c = false).
Proof.
  intros Hc. pose proof (get_column_In _ _ _ Hc) as Hin.
  unfold get_column in Hc.
  destruct (index_of name (columns df)) as [i|]; [|discriminate].
  injection Hc as <-. rewrite df_empty_rows.
  - rewrite map_map.
    rewrite (mask_rows_filter df (fun r => g (row_get i r))).
    rewrite filter_nil_iff. split.
    + intros Hr c Hcin. apply in_map_iff in Hcin as (r & <- & Hr'). auto.
    + intros Hcol r Hr. apply Hcol. now apply in_map.
  - simpl. intros E. rewrite E in Hin. destruct Hin.
Qed.

Lemma str_accessor_ok (col col' : list (cell num)) :
  str_accessor col = Ok col' -> col' = col.
Proof.
  unfold str_accessor. destruct col; [congruence|].
  destruct (existsb _ _); congruence.
Qed.

Lemma equal_ci_mask (name : string) (col : list (cell num)) :
  (forall c, In c col -> cell_eqb (str_lower c) (Str (PyStr.lower name)) = false)
  <-> no_cell_equal_ci name col.
Proof.
  unfold no_cell_equal_ci. split.
  - intros Hc s Hs. specialize (Hc _ Hs). simpl in Hc. now apply String.eqb_neq.
  - intros Hs [|x|s] Hc; simpl; auto. apply String.eqb_neq. auto.
Qed.

Lemma matches_mask (f : string -> bool) (col : list (cell num)) :
  (forall c, In c col -> match c with Str s => f s | _ => false end = false)
  <-> no_cell_matches f col.
Proof.
  unfold no_cell_matches. split.
  - intros Hc s Hs. exact (Hc _ Hs).
  - intros Hs [|x|s] Hc; auto.
Qed.

Lemma str_contains_spec (pat : string) (col : list (cell num)) (mask : list bool) :
  str_contains pat col = Ok mask <->
  str_accessor col = Ok col
  /\ exists f, re_search_ci pat = Ok f
               /\ mask = map (fun c => match c with Str s => f s | _ => false end) col.
Proof.
  unfold str_contains. destruct (str_accessor col) as [c'|e] eqn:Ha.
  - pose proof (str_accessor_ok _ _ Ha) as Hcc. subst c'.
    destruct (re_search_ci pat) as [f|e]; split.
    + intros Hm. injection Hm as <-. eauto.
    + intros (_ & f' & Hf & ->). now injection Hf as <-.
    + discriminate.
    + intros (_ & f' & Hf & _). discriminate.
  - split; [discriminate|]. intros [Hd _]. discriminate.
Qed.

(** ** charts_api.py *)

Lemma hiv_lookup_empty (name : string) (df : frame) :
  (exists cd, ChartsApi.lookup_country name df = Ok cd /\ df_empty cd = true)
  <-> exists col, get_column df "Country" = Ok col
                  /\ str_accessor col = Ok col
                  /\ no_cell_equal_ci name col.
Proof.
  unfold ChartsApi.lookup_country.
  destruct (get_column df "Country") as [col|e] eqn:Hc.
  - destruct (str_accessor col) as [c'|e] eqn:Ha.
    + pose proof (str_accessor_ok _ _ Ha) as Hcc. subst c'.
      pose proof (mask_by_column_empty df "Country" col
                    (fun x => cell_eqb (str_lower x) (Str (PyStr.lower name))) Hc) as Hm.
      rewrite equal_ci_mask in Hm. split.
      * intros (cd & Hcd & He). injection Hcd as <-. exists col.
        split; [reflexivity|]. split; [exact Ha|]. now apply Hm.
      * intros (col' & Hc' & _ & Hn). injection Hc' as <-.
        eexists. split; [reflexivity|]. now apply Hm.
    + split.
      * intros (cd & Hcd & _). discriminate.
      * intros (col' & Hc' & Ha' & _). injection Hc' as <-. congruence.
  - split.
    + intros (cd & Hcd & _). discriminate.
    + intros (col' & Hc' & _). discriminate.
Qed.

(** ** malaria_charts.py *)

Lemma malaria_find_empty (name : string) (df : frame) :
  (exists row, MalariaCharts.find_rows name df = Ok row /\ df_empty row = true)
  <-> exists col f, get_column df "country" = Ok col
                    /\ str_accessor col = Ok col
                    /\ no_cell_equal_ci name col
                    /\ re_search_ci name = Ok f
                    /\ no_cell_matches f col.
Proof.
  unfold MalariaCharts.find_rows, MalariaCharts.exact_rows, MalariaCharts.contains_rows.
  destruct (get_column df "country") as [col|e] eqn:Hc.
  - destruct (str_accessor col) as [c'|e] eqn:Ha.
    + pose proof (str_accessor_ok _ _ Ha) as Hcc. subst c'.
      pose proof (mask_by_column_empty df "country" col
                    (fun x => cell_eqb (str_lower x) (Str (PyStr.lower name))) Hc) as Hm.
      rewrite equal_ci_mask in Hm.
      destruct (df_empty (mask_rows df _)) eqn:He.
      * destruct (str_contains name col) as [mask|e] eqn:Hs.
        -- apply str_contains_spec in Hs as (_ & f & Hf & ->).
           pose proof (mask_by_column_empty df "country" col
                         (fun c => match c with Str s => f s | _ => false end) Hc) as Hm2.
           rewrite matches_mask in Hm2. split.
           ++ intros (row & Hr & Hre). injection Hr as <-.
              exists col, f. repeat split; auto; [now apply Hm|now apply Hm2].
           ++ intros (col' & f' & Hc' & _ & _ & Hf' & Hn). injection Hc' as <-.
              rewrite Hf in Hf'. injection Hf' as <-.
              eexists. split; [reflexivity|]. now apply Hm2.
        -- split.
           ++ intros (row & Hr & _). discriminate.
           ++ intros (col' & f & Hc' & _ & _ & Hf & _). injection Hc' as <-.
              assert (Hs' : str_contains name col
                            = Ok (map (fun c => match c with Str s => f s | _ => false end) col)).
              { apply str_contains_spec. eauto. }
              congruence.
      * split.
        -- intros (row & Hr & Hre). injection Hr as <-. congruence.
        -- intros (col' & f & Hc' & _ & Hn & _). injection Hc' as <-.
           apply Hm in Hn. congruence.
    + split.
      * intros (row & Hr & _). discriminate.
      * intros (col' & f & Hc' & Ha' & _). injection Hc' as <-. congruence.
  - split.
    + intros (row & Hr & _). discriminate.
    + intros (col' & f & Hc' & _). discriminate.
Qed.

(** ** measles_charts.py *)

Lemma measles_contains_empty (name : string) (df : frame) :
  (exists row, MeaslesCharts.contains_rows name df = Ok row /\ df_empty row = true)
  <-> exists col f, get_column df "country" = Ok col
                    /\ str_accessor col = Ok col
                    /\ re_search_ci name = Ok f
                    /\ no_cell_matches f col.
Proof.
  unfold MeaslesCharts.contains_rows.
  destruct (get_column df "country") as [col|e] eqn:Hc.
  - destruct (str_contains name col) as [mask|e] eqn:Hs.
    + apply str_contains_spec in Hs as (Ha & f & Hf & ->).
      pose proof (mask_by_column_empty df "country" col
                    (fun c => match c with Str s => f s | _ => false end) Hc) as Hm2.
      rewrite matches_mask in Hm2. split.
      * intros (row & Hr & Hre). injection Hr as <-.
        exists col, f. repeat split; auto. now apply Hm2.
      * intros (col' & f' & Hc' & _ & Hf' & Hn). injection Hc' as <-.
        rewrite Hf in Hf'. injection Hf' as <-.
        eexists. split; [reflexivity|]. now apply Hm2.
    + split.
      * intros (row & Hr & _). discriminate.
      * intros (col' & f & Hc' & Ha & Hf & _). injection Hc' as <-.
        assert (Hs' : str_contains name col
                      = Ok (map (fun c => match c with Str s => f s | _ => false end) col)).
        { apply str_contains_spec. eauto. }
        congruence.
  - split.
    + intros (row & Hr & _). discriminate.
    + intros (col' & f & Hc' & _). discriminate.
Qed.

(** ** The status of a view that draws *)

Lemma answers_200_bind {A} (m : M num A) (k : A -> M num (response num)) :
  (forall a, answers_200 (k a)) -> answers_200 (bind m k).
Proof.
  intros Hk w. unfold bind. destruct (m w) as [[a|e] w']; simpl; auto.
  apply Hk.
Qed.

Lemma answers_200_hiv_send : answers_200 ChartsApi.send_png.
Proof.
  unfold ChartsApi.send_png. apply answers_200_bind. intros img w. reflexivity.
Qed.

Lemma answers_200_malaria_send : answers_200 MalariaCharts.send_png.
Proof.
  unfold MalariaCharts.send_png. apply answers_200_bind. intros img w. reflexivity.
Qed.

Lemma answers_200_measles_send : answers_200 MeaslesCharts.send_png.
Proof.
  unfold MeaslesCharts.send_png. apply answers_200_bind. intros img w. reflexivity.
Qed.

(** What the client sees of a view that answers 200 when it returns:
    200, or the 500 of a raised exception. *)
Lemma dispatch_answers_200 (m : M num (response num)) (w : world num) :
  answers_200 m ->
  status (fst (dispatch m w)) = 200 \/ status (fst (dispatch m w)) = 500.
Proof.
  intros Hm. specialize (Hm w). unfold dispatch.
  destruct (m w) as [[r|e] w']; simpl in *; auto.
Qed.

End LookupFacts.

Ltac answers_200_tac :=
  repeat first
    [ apply answers_200_hiv_send
    | apply answers_200_malaria_send
    | apply answers_200_measles_send
    | apply answers_200_bind; intros ? ].

(* ===================================================================== *)
(** * The malaria table in the two services *)
(* ===================================================================== *)

Section MalariaTables.
Context {num : Type} `{Numeric num} `{Libs num}.

Local Abbreviation frame := (DataFrame num).
Local Abbreviation row := (list (cell num)).

Lemma omap_clean_cell_exact (c : list (cell num)) (zs : list Z) :
  omap MalariaCharts.clean_cell c = Ok zs -> zs = map Malaria.extract_number c.
Proof.
  revert zs. induction c as [|v c IH]; simpl; intros zs.
  - intros E. now injection E as <-.
  - rewrite clean_cell_spec.
    destruct (Malaria.extract_number v <=? int64_max); [|discriminate].
    destruct (omap MalariaCharts.clean_cell c) as [zs'|e]; [|discriminate].
    intros E. injection E as <-. now rewrite (IH _ eq_refl).
Qed.

(** One column through the chain of [load_malaria_data]: each cell
    becomes the number [extract_number] returns, the other columns
    and the rows stay. *)
Lemma clean_column_exact (df df' : frame) (col : string) :
  MalariaCharts.clean_column df col = Ok df' ->
  columns df' = columns df
  /\ List.length (rows df') = List.length (rows df)
  /\ (forall c, get_column df col = Ok c ->
        get_column df' col
        = Ok (map (fun v => Num (num_of_Z (Malaria.extract_number v))) c))
  /\ (forall other, other <> col -> get_column df' other = get_column df other).
Proof.
  unfold MalariaCharts.clean_column.
  destruct (get_column df col) as [c|e] eqn:Hg; [|discriminate].
  destruct (omap MalariaCharts.clean_cell c) as [zs|e] eqn:Ho; [|discriminate].
  intros Hd. injection Hd as <-.
  rewrite (omap_clean_cell_exact _ _ Ho), map_map.
  destruct (set_column_existing df col
              (map (fun v => Num (num_of_Z (Malaria.extract_number v))) c))
    as (Hc & Hl & Hs & Hother).
  - eapply get_column_In; eauto.
  - rewrite length_map. eapply get_column_length; eauto.
  - repeat split; auto. intros c' Hc'. injection Hc' as <-. exact Hs.
Qed.

Lemma for_each_clean_exact (cols : list string) (df df' : frame) :
  NoDup cols ->
  for_each_column MalariaCharts.clean_column cols df = Ok df' ->
  columns df' = columns df
  /\ List.length (rows df') = List.length (rows df)
  /\ forall col c, get_column df col = Ok c ->
       get_column df' col
       = Ok (if in_dec string_dec col cols
             then map (fun v => Num (num_of_Z (Malaria.extract_number v))) c
             else c).
Proof.
  intros Hnd. revert df. induction Hnd as [|a r Ha Hnd IH]; simpl; intros df.
  - intros Hd. injection Hd as <-. auto.
  - destruct (MalariaCharts.clean_column df a) as [df1|e] eqn:Hs; [|discriminate].
    intros Hr.
    destruct (clean_column_exact _ _ _ Hs) as (Hc1 & Hl1 & Hsame & Hother).
    destruct (IH _ Hr) as (Hc2 & Hl2 & Hcols).
    split; [congruence|]. split; [congruence|].
    intros col c Hc. destruct (string_dec a col) as [->|Hne].
    + rewrite (Hcols col _ (Hsame _ Hc)).
      destruct (in_dec string_dec col r); [contradiction|reflexivity].
    + assert (Hc1' : get_column df1 col = Ok c) by (rewrite Hother; auto).
      rewrite (Hcols col _ Hc1').
      destruct (in_dec string_dec col r); reflexivity.
Qed.

Lemma NoDup_filter {A} (f : A -> bool) (l : list A) : NoDup l -> NoDup (filter f l).
Proof.
  induction 1 as [|a l Ha _ IH]; simpl; [constructor|].
  destruct (f a); auto. constructor; auto.
  intros Hin. apply filter_In in Hin. tauto.
Qed.

(** The frame [load_malaria_data] makes of a table with distinct
    columns: the rows of the table, each year cell replaced by the
    number [extract_number] returns on it. *)
Lemma malaria_clean_exact (df c : frame) :
  let wide := rename [("Countries, territories and areas", "country")] df in
  NoDup (columns wide) ->
  MalariaCharts.clean_frame df = Ok c ->
  columns c = columns wide
  /\ forall (i : nat) (r : row) (y : string),
       nth_error (rows wide) i = Some r -> In y (columns wide) -> y <> "country" ->
       exists r', nth_error (rows c) i = Some r'
                  /\ cell_of (columns c) y r'
                     = Num (num_of_Z (Malaria.extract_number (cell_of (columns wide) y r))).
Proof.
  intros wide Hnd Hc. unfold MalariaCharts.clean_frame in Hc. cbv zeta in Hc.
  assert (Hw : rename [("Countries, territories and areas", "country")] df = wide)
    by reflexivity.
  rewrite Hw in Hc. clearbody wide.
  destruct (for_each_clean_exact _ _ _ (NoDup_filter _ _ Hnd) Hc) as (Hcols & Hlen & Hex).
  split; [exact Hcols|]. intros i r y Hr Hy Hne.
  destruct (get_column_Some _ _ Hy) as [c0 Hc0].
  pose proof (Hex _ _ Hc0) as Hcy.
  destruct (in_dec string_dec y _) as [_|Hno].
  2: { exfalso. apply Hno. apply filter_In. split; auto.
       apply negb_true_iff. now apply String.eqb_neq. }
  assert (Hi : (i < List.length (rows c))%nat).
  { rewrite Hlen. apply nth_error_Some. congruence. }
  destruct (nth_error (rows c) i) as [r'|] eqn:Hr'.
  2: { apply nth_error_None in Hr'. lia. }
  exists r'. split; [reflexivity|].
  apply get_column_cell_of in Hc0, Hcy. rewrite Hcols in *.
  assert (Hn : nth_error (map (cell_of (columns wide) y) (rows c)) i
               = Some (cell_of (columns wide) y r')).
  { now rewrite nth_error_map, Hr'. }
  rewrite <- Hcy, Hc0, map_map, nth_error_map, Hr in Hn. cbv beta in Hn.
  simpl option_map in Hn. now injection Hn as <-.
Qed.

(** The row the data service makes of a year cell. *)
Lemma malaria_melted_row (df m : frame) (r : row) (y : string) :
  let wide := rename [("Countries, territories and areas", "country")] df in
  Malaria.melted df = Ok m ->
  In r (rows wide) -> In y (columns wide) -> y <> "country" ->
  In [cell_of (columns wide) "country" r; Str y;
      Num (num_of_Z (Malaria.extract_number
                       (stacked "country" wide (cell_of (columns wide) y r))))]
     (rows m).
Proof.
  intros wide Hm Hr Hy Hne.
  destruct (malaria_melted_rows _ _ Hm) as [Hrows _].
  assert (Hw : rename [("Countries, territories and areas", "country")] df = wide)
    by reflexivity.
  rewrite Hw in Hrows. clearbody wide.
  apply Hrows. destruct (index_of_In _ _ Hy) as [j Hj].
  exists r, j, y. split.
  - split; [exact Hr|]. split; [|exact Hne].
    pose proof (index_of_lt _ _ _ Hj) as Hlt.
    rewrite <- (index_of_nth _ _ _ Hj).
    now apply nth_error_nth'.
  - unfold melted_from, cell_of at 2. now rewrite Hj.
Qed.

End MalariaTables.

(* ===================================================================== *)
(** * The cleaning of malaria cells (C3) *)
(* ===================================================================== *)

(** C3, as stated, fails: on a cell whose first run of digits does not
    fit int64 the data service returns the integer, while the chain of
    the charts service raises OverflowError and returns no integer. *)
Lemma clean_cell_overflows_where_extract_number_returns :
  Malaria.extract_number huge_cell = 99999999999999999999
  /\ MalariaCharts.clean_cell huge_cell
     = Raise (Exn OverflowError "Python int too large to convert to C long")
  /\ MalariaCharts.clean_cell huge_cell <> Ok (Malaria.extract_number huge_cell).
Proof.
  repeat split; try reflexivity. vm_compute. discriminate.
Qed.

Lemma omap_clean_cells {num : Type} `{Numeric num} `{Libs num} (c : list (cell num)) :
  Forall (fun v => Malaria.extract_number v <= int64_max) c ->
  omap MalariaCharts.clean_cell c = Ok (map Malaria.extract_number c).
Proof.
  induction 1 as [|v l Hv Hl IH]; simpl; auto.
  rewrite clean_cell_spec.
  replace (Malaria.extract_number v <=? int64_max) with true
    by (symmetry; now apply Z.leb_le).
  now rewrite IH.
Qed.

(** C3 (amended): for every raw cell, the chain of [load_malaria_data]
    returns the integer [extract_number] returns when that integer fits
    int64, and raises OverflowError otherwise; a column whose numbers
    all fit is cleaned by the chain to these integers.  On a table with
    distinct columns that both services load, the charts service holds
    for the cell [v] of a row under a year the number
    [extract_number v], and the data service, which cleans after
    [melt], the number [extract_number] returns on the cell as [melt]
    stacks it.  The two are the same when the year columns are not
    stacked to float64 or [v] is no number; an int64 stacked with a
    float64 column is cleaned as the text of a float, of which a figure
    from 10^16 on keeps its first digit only. *)
Theorem malaria_cleanings_agree_within_int64
        {num : Type} `{Numeric num} `{Libs num} :
  (forall val : cell num,
      MalariaCharts.clean_cell val =
      if Malaria.extract_number val <=? int64_max
      then Ok (Malaria.extract_number val)
      else Raise (Exn OverflowError "Python int too large to convert to C long"))
  /\ (forall (df : DataFrame num) (col : string) (c : list (cell num)),
         get_column df col = Ok c ->
         Forall (fun v => Malaria.extract_number v <= int64_max) c ->
         exists df',
           MalariaCharts.clean_column df col = Ok df'
           /\ get_column df' col
              = Ok (map (fun v => Num (num_of_Z (Malaria.extract_number v))) c))
  /\ (forall (df m c : DataFrame num) (i : nat) (r : list (cell num)) (y : string),
         let wide := rename [("Countries, territories and areas", "country")] df in
         let v := cell_of (columns wide) y r in
         NoDup (columns wide) ->
         Malaria.melted df = Ok m ->
         MalariaCharts.clean_frame df = Ok c ->
         nth_error (rows wide) i = Some r -> In y (columns wide) -> y <> "country" ->
         (exists r', nth_error (rows c) i = Some r'
                     /\ cell_of (columns c) y r'
                        = Num (num_of_Z (Malaria.extract_number v)))
         /\ In [cell_of (columns wide) "country" r; Str y;
                Num (num_of_Z (Malaria.extract_number (stacked "country" wide v)))]
               (rows m)
         /\ (value_dtype "country" wide <> Float64 \/ (forall x, v <> Num x) ->
             stacked "country" wide v = v)).
Proof.
  split; [apply clean_cell_spec|]. split.
  - intros df col c Hc Hfit. unfold MalariaCharts.clean_column.
    rewrite Hc, (omap_clean_cells _ Hfit). eexists. split; [reflexivity|].
    rewrite map_map. apply get_column_set_column.
    rewrite length_map. eapply get_column_length; eauto.
  - intros df m c i r y wide v Hnd Hm Hc Hr Hy Hne.
    destruct (malaria_clean_exact df c Hnd Hc) as (_ & Hcell).
    split; [exact (Hcell i r y Hr Hy Hne)|]. split.
    + apply (malaria_melted_row df m r y Hm); auto.
      eapply nth_error_In; eauto.
    + apply stacked_same.
Qed.

Lemma malaria_cleanings_agree_witness :
  ((exists r', nth_error (rows stacked_cleaned) 0 = Some r'
               /\ cell_of (columns stacked_cleaned) "2019" r'
                  = Num (PInt 10000000000000000))
   /\ In [Str "Chad"; Str "2019"; Num (PInt 1)] (rows stacked_melted))
  /\ ((exists r', nth_error (rows stacked_cleaned) 1 = Some r'
                  /\ cell_of (columns stacked_cleaned) "2019" r' = Num (PInt 900))
      /\ In [Str "Mali"; Str "2019"; Num (PInt 900)] (rows stacked_melted)).
Proof.
  split.
  - refine ((fun p => conj (proj1 p) (proj1 (proj2 p)))
              (proj2 (proj2 (@malaria_cleanings_agree_within_int64 pynum _ _))
                     stacked_table stacked_melted stacked_cleaned 0%nat
                     [Str "Chad"; Num (PInt 10000000000000000); NaN] "2019"
                     _ _ _ _ _ _)).
    + repeat constructor; simpl; intuition discriminate.
    + reflexivity.
    + reflexivity.
    + reflexivity.
    + simpl. auto.
    + discriminate.
  - refine ((fun p => conj (proj1 p) (proj1 (proj2 p)))
              (proj2 (proj2 (@malaria_cleanings_agree_within_int64 pynum _ _))
                     stacked_table stacked_melted stacked_cleaned 1%nat
                     [Str "Mali"; Num (PInt 900); Num (PFloat 850)] "2019"
                     _ _ _ _ _ _)).
    + repeat constructor; simpl; intuition discriminate.
    + reflexivity.
    + reflexivity.
    + reflexivity.
    + simpl. auto.
    + discriminate.
Defined.

(* ===================================================================== *)
(** * The frames the chart services work on (C10) *)
(* ===================================================================== *)

Lemma loader_frame_hiv {num : Type} `{Numeric num} `{Libs num}
      (w : world num) (df : DataFrame num) :
  fst (ChartsApi.load_data w) = Ok (Some df) ->
  loaded_frame "aids.csv" ChartsApi.clean_frame w = Ok df.
Proof.
  rewrite load_data_run. destruct (loaded_frame _ _ w); simpl; congruence.
Qed.

Lemma loader_frame_malaria {num : Type} `{Numeric num} `{Libs num}
      (w : world num) (df : DataFrame num) :
  fst (MalariaCharts.load_malaria_data w) = Ok df ->
  df = empty_frame \/ loaded_frame "malaria_data.csv" MalariaCharts.clean_frame w = Ok df.
Proof.
  rewrite load_malaria_data_run. destruct (loaded_frame _ _ w); simpl.
  - intros Hd. injection Hd as <-. now right.
  - intros Hd. injection Hd as <-. now left.
Qed.

Lemma loader_frame_measles {num : Type} `{Numeric num} `{Libs num}
      (w : world num) (df : DataFrame num) :
  fst (MeaslesCharts.load_measles_data w) = Ok df ->
  df = empty_frame \/ loaded_frame "data.csv" MeaslesCharts.clean_frame w = Ok df.
Proof.
  rewrite load_measles_data_run. destruct (loaded_frame _ _ w); simpl.
  - intros Hd. injection Hd as <-. now right.
  - intros Hd. injection Hd as <-. now left.
Qed.

Lemma loaded_frame_clean {num : Type} `{Numeric num} `{Libs num}
      (path : string) (clean : DataFrame num -> outcome (DataFrame num))
      (w : world num) (df : DataFrame num) :
  loaded_frame path clean w = Ok df ->
  exists df0, parse_file (files w path) path = Ok df0 /\ clean df0 = Ok df.
Proof.
  unfold loaded_frame. destruct (parse_file _ _); [eauto|discriminate].
Qed.

(** C10: a frame returned by [load_data] holds numbers only in every
    column whose name starts with 'Data.', and a frame returned by
    [load_measles_data] in every column other than 'country': each cell
    is the cell of the file converted by [pd.to_numeric] and filled, so
    that a number is kept and a missing or non-numeric cell has become
    0.  A frame returned by [load_malaria_data] holds in every column
    other than 'country' int64 values that are not negative.  The sums,
    means and [nlargest] the endpoints take of such a column are
    defined. *)
Theorem loaded_frames_have_no_missing_cell
        {num : Type} `{Numeric num} `{Libs num} :
  (forall (w : world num) (df : DataFrame num) (col : string),
      fst (ChartsApi.load_data w) = Ok (Some df) ->
      In col (columns df) -> PyStr.startswith "Data." col = true ->
      exists file c0 c,
        parse_file (files w "aids.csv") "aids.csv" = Ok file
        /\ get_column (strip_columns file) col = Ok c0
        /\ get_column df col = Ok c
        /\ c = map (fun x => fillna_cell (to_numeric_cell x)) c0
        /\ Forall is_num c
        /\ (exists s, sum_cells c = Ok s)
        /\ (exists m, mean_cells c = Ok m)
        /\ (exists top, nlargest 10 col df = Ok top))
  /\ (forall (w : world num) (df : DataFrame num) (col : string),
         fst (MeaslesCharts.load_measles_data w) = Ok df ->
         In col (columns df) -> col <> "country" ->
         exists file c0 c,
           parse_file (files w "data.csv") "data.csv" = Ok file
           /\ get_column (rename [("Countries, territories and areas", "country")] file)
                         col = Ok c0
           /\ get_column df col = Ok c
           /\ c = map (fun x => fillna_cell (to_numeric_cell x)) c0
           /\ Forall is_num c
           /\ (exists s, sum_cells c = Ok s))
  /\ (forall (w : world num) (df : DataFrame num) (col : string),
         fst (MalariaCharts.load_malaria_data w) = Ok df ->
         In col (columns df) -> col <> "country" ->
         exists c, get_column df col = Ok c /\ Forall is_count c
                   /\ (exists s, sum_cells c = Ok s)).
Proof.
  split; [|split].
  - intros w df col Hl Hin Hp. apply loader_frame_hiv in Hl.
    destruct (loaded_frame_clean _ _ _ _ Hl) as (df0 & Hparse & Hc).
    destruct (hiv_clean_numeric _ _ Hc col Hin Hp) as (c & Hg & Hn).
    destruct (hiv_clean_exact _ _ _ Hc Hin Hp) as (c0 & Hc0 & Hex).
    exists df0, c0, c.
    split; [exact Hparse|]. split; [exact Hc0|]. split; [exact Hg|].
    split; [congruence|]. split; [exact Hn|].
    split; [now apply sum_cells_num|].
    split; [now apply mean_cells_num|].
    exact (nlargest_total _ _ _ _ Hg Hn).
  - intros w df col Hl Hin Hne. apply loader_frame_measles in Hl as [->|Hl].
    + destruct Hin.
    + destruct (loaded_frame_clean _ _ _ _ Hl) as (df0 & Hparse & Hc).
      destruct (measles_clean_numeric _ _ Hc col Hin Hne) as (c & Hg & Hn).
      destruct (measles_clean_exact _ _ _ Hc Hin Hne) as (c0 & Hc0 & Hex).
      exists df0, c0, c.
      split; [exact Hparse|]. split; [exact Hc0|]. split; [exact Hg|].
      split; [congruence|]. split; [exact Hn|].
      now apply sum_cells_num.
  - intros w df col Hl Hin Hne. apply loader_frame_malaria in Hl as [->|Hl].
    + destruct Hin.
    + destruct (loaded_frame_clean _ _ _ _ Hl) as (df0 & Hparse & Hc).
      destruct (malaria_clean_counts _ _ Hc col Hin Hne) as (c & Hg & Hn).
      exists c. repeat split; auto. apply sum_cells_num.
      revert Hn. apply Forall_impl. apply is_count_num.
Qed.

Lemma loaded_frames_witness :
  exists file c0 c,
    parse_file (files Samples.sample_disk "aids.csv") "aids.csv" = Ok file
    /\ get_column (strip_columns file) "Data.New HIV Infections.All Ages" = Ok c0
    /\ get_column Samples.aids_loaded "Data.New HIV Infections.All Ages" = Ok c
    /\ c = map (fun x => fillna_cell (to_numeric_cell x)) c0
    /\ Forall is_num c
    /\ (exists s, sum_cells c = Ok s)
    /\ (exists m, mean_cells c = Ok m)
    /\ (exists top,
           nlargest 10 "Data.New HIV Infections.All Ages" Samples.aids_loaded = Ok top).
Proof.
  refine (proj1 (@loaded_frames_have_no_missing_cell Z _ _) Samples.sample_disk
                Samples.aids_loaded "Data.New HIV Infections.All Ages" _ _ _).
  - reflexivity.
  - simpl. auto.
  - reflexivity.
Defined.

(* ===================================================================== *)
(** * The top ten (C2) *)
(* ===================================================================== *)

Section TopCharts.
Context {num : Type} `{Numeric num} `{Libs num}.





Lemma top_column_view (ep : endpoint) (col : string) (req : request) :
  top_column ep = Some col ->
  exists xlabel title fmt, view ep req = ChartsApi.top_chart col xlabel title fmt
                           /\ PyStr.startswith "Data." col = true.
Proof.
  destruct ep; simpl; try discriminate; intros Hc; injection Hc as <-;
    do 3 eexists; split; reflexivity.
Qed.

End TopCharts.

Section TopTen.
Context {num : Type} {N : Numeric num} {O : NumericOrder num} {L : Libs num}.

Local Abbreviation frame := (DataFrame num).



End TopTen.




(* ===================================================================== *)
(** * The JSON data endpoints (C1, C8) *)
(* ===================================================================== *)





Lemma try_body_status {num : Type} `{Numeric num} `{Libs num}
      (path : string) (reshape : DataFrame num -> outcome (country_records num))
      (w : world num) (r : response num) :
  fst ((df <- read_csv path ;;
        result <- lift (reshape df) ;;
        ret (jsonify (json_of_result result))) w) = Ok r ->
  status r = 200.
Proof.
  unfold bind. rewrite read_csv_run.
  destruct (parse_file _ _) as [df|e]; simpl; [|discriminate].
  destruct (reshape df); simpl; [|discriminate].
  intros Hr. now injection Hr as <-.
Qed.

(** C8: a data endpoint answers what the statements under [try:]
    return, with status 200, when they raise nothing; when they raise
    [e] it answers status 500 with the JSON body [{"error": str(e)}];
    so it answers 200 exactly when nothing is raised, and the view
    itself never raises. *)
Theorem data_endpoints_catch_every_exception
        {num : Type} `{Numeric num} `{Libs num}
        (ep : endpoint) (body : M num (response num)) (req : request) (w : world num) :
  try_body_of ep = Some body ->
  match fst (body w) with
  | Ok r => fst (serve ep req w) = r /\ status r = 200
  | Raise e =>
      fst (serve ep req w)
      = Response 500 (BJson (JObj [("error", JStr (exn_msg e))])) "application/json"
  end
  /\ (status (fst (serve ep req w)) = 200 <-> exists r, fst (body w) = Ok r)
  /\ (exists r, fst (view ep req w) = Ok r).
Proof.
  intros Hb.
  assert (Hs : forall r, fst (body w) = Ok r -> status r = 200).
  { destruct ep; try discriminate; injection Hb as <-; intros r; apply try_body_status. }
  assert (Hv : fst (view ep req w)
               = match fst (body w) with
                 | Ok r => Ok r
                 | Raise e => Ok (error_500 e)
                 end).
  { destruct ep; try discriminate; injection Hb as <-; simpl;
      [unfold Hiv.get_aids_data|unfold Malaria.get_malaria_data
       |unfold Measles.get_death_data];
      unfold try_except;
      match goal with |- context [?b w] => destruct (b w) as [[r|e] w'] end;
      reflexivity. }
  unfold serve, dispatch.
  destruct (view ep req w) as [o w'] eqn:Ev. simpl in Hv. subst o.
  destruct (fst (body w)) as [r|e] eqn:Eb; simpl.
  - repeat split; eauto.
  - repeat split; eauto.
    + intros Hx. discriminate Hx.
    + intros [r Hr]. discriminate Hr.
Qed.

Lemma data_endpoints_catch_witness :
  fst (serve MeaslesData (Request []) (Samples.disk None None None))
  = Response 500
      (BJson (JObj [("error", JStr "[Errno 2] No such file or directory: 'data.csv'")]))
      "application/json".
Proof.
  exact (proj1 (@data_endpoints_catch_every_exception Z _ _ MeaslesData Measles.try_body
                  (Request []) (Samples.disk None None None) eq_refl)).
Defined.

(* ===================================================================== *)
(** * The country profiles (C9, C6) *)
(* ===================================================================== *)

Section DispatchFacts.
Context {num : Type} `{Numeric num} `{Libs num}.

Lemma dispatch_ret (r : response num) (w : world num) : dispatch (ret r) w = (r, w).
Proof. reflexivity. Qed.

Lemma dispatch_bind {A} (m : M num A) (k : A -> M num (response num)) (w : world num) :
  dispatch (bind m k) w =
  match m w with
  | (Ok a, w') => dispatch (k a) w'
  | (Raise e, w') => (error_page, w')
  end.
Proof. unfold dispatch, bind. destruct (m w) as [[a|e] w']; reflexivity. Qed.

Lemma dispatch_lift {A} (o : outcome A) (k : A -> M num (response num)) (w : world num) :
  dispatch (bind (lift o) k) w =
  match o with
  | Ok a => dispatch (k a) w
  | Raise e => (error_page, w)
  end.
Proof. rewrite dispatch_bind. unfold lift. destruct o; reflexivity. Qed.

Lemma df_empty_empty_frame : df_empty (@empty_frame num) = true.
Proof. reflexivity. Qed.

Lemma is_empty_spec (s : string) : PyStr.is_empty s = true <-> s = EmptyString.
Proof. destruct s; simpl; split; congruence. Qed.

End DispatchFacts.

(** C9, as stated, fails: on a malaria file that holds a header and no
    row, no row matches the query, and the answer is 500, not 404. *)
Lemma malaria_profile_of_empty_table_is_500 :
  let w := Samples.disk None (Some (CsvFile Samples.header_only)) None in
  let resp := fst (serve MalariaCountryProfile (Request [("country", "Chad")]) w) in
  status resp = 500
  /\ no_row_equals_or_contains "Chad"
       (rename [("Countries, territories and areas", "country")] Samples.header_only)
  /\ ~ (status resp = 404 <->
        no_row_equals_or_contains "Chad"
          (rename [("Countries, territories and areas", "country")] Samples.header_only)).
Proof.
  assert (Hno : no_row_equals_or_contains "Chad"
                  (rename [("Countries, territories and areas", "country")]
                          Samples.header_only)).
  { intros r s Hr. destruct Hr. }
  split; [reflexivity|]. split; [exact Hno|].
  intros [_ Hback]. specialize (Hback Hno). vm_compute in Hback. discriminate.
Qed.

Section ProfileFailures.
Context {num : Type} `{Numeric num} `{Libs num}.

(** [country_profile] of malaria_charts.py when the data does not
    load or has no row: the 500 of [load_failed]. *)
Lemma malaria_profile_load_failed (req : request) (w : world num) (name : string) :
  args_get req "country" = Some name -> name <> EmptyString ->
  match loaded_frame "malaria_data.csv" MalariaCharts.clean_frame w with
  | Raise _ => True
  | Ok df => df_empty df = true
  end ->
  fst (serve MalariaCountryProfile req w) = MalariaCharts.load_failed.
Proof.
  intros Hn Hne Hload. unfold serve. simpl. unfold MalariaCharts.country_profile.
  rewrite Hn. destruct (PyStr.is_empty name) eqn:En.
  { apply is_empty_spec in En. congruence. }
  rewrite dispatch_bind, load_malaria_data_run.
  destruct (loaded_frame "malaria_data.csv" MalariaCharts.clean_frame w) as [df|e].
  - now rewrite Hload, dispatch_ret.
  - now rewrite df_empty_empty_frame, dispatch_ret.
Qed.

Lemma measles_profile_load_failed (req : request) (w : world num) (name : string) :
  args_get req "country" = Some name -> name <> EmptyString ->
  match loaded_frame "data.csv" MeaslesCharts.clean_frame w with
  | Raise _ => True
  | Ok df => df_empty df = true
  end ->
  fst (serve MeaslesCountryProfile req w) = MeaslesCharts.load_failed.
Proof.
  intros Hn Hne Hload. unfold serve. simpl. unfold MeaslesCharts.country_profile.
  rewrite Hn. destruct (PyStr.is_empty name) eqn:En.
  { apply is_empty_spec in En. congruence. }
  rewrite dispatch_bind, load_measles_data_run.
  destruct (loaded_frame "data.csv" MeaslesCharts.clean_frame w) as [df|e].
  - now rewrite Hload, dispatch_ret.
  - now rewrite df_empty_empty_frame, dispatch_ret.
Qed.
End ProfileFailures.

(** The 404 and the 400 of the three [country_profile] views. *)
Lemma profile_lookup_statuses {num : Type} `{Numeric num} `{Libs num} :
  (forall (name : string) (req : request) (w : world num),
      status (fst (serve (CountryProfile name) req w)) = 404 <->
      match loaded_frame "aids.csv" ChartsApi.clean_frame w with
      | Raise _ => True
      | Ok df => exists col, get_column df "Country" = Ok col
                             /\ str_accessor col = Ok col
                             /\ no_cell_equal_ci name col
      end)
  /\ (forall (req : request) (w : world num),
         (status (fst (serve MalariaCountryProfile req w)) = 404 <->
          exists name df col f,
            args_get req "country" = Some name /\ name <> EmptyString
            /\ loaded_frame "malaria_data.csv" MalariaCharts.clean_frame w = Ok df
            /\ df_empty df = false
            /\ get_column df "country" = Ok col /\ str_accessor col = Ok col
            /\ no_cell_equal_ci name col
            /\ re_search_ci name = Ok f /\ no_cell_matches f col)
         /\ (status (fst (serve MalariaCountryProfile req w)) = 400 <->
             args_get req "country" = None \/ args_get req "country" = Some EmptyString)
         /\ (status (fst (serve MalariaCountryProfile req w)) = 400 ->
             snd (serve MalariaCountryProfile req w) = w))
  /\ (forall (req : request) (w : world num),
         (status (fst (serve MeaslesCountryProfile req w)) = 404 <->
          exists name df col f,
            args_get req "country" = Some name /\ name <> EmptyString
            /\ loaded_frame "data.csv" MeaslesCharts.clean_frame w = Ok df
            /\ df_empty df = false
            /\ get_column df "country" = Ok col /\ str_accessor col = Ok col
            /\ re_search_ci name = Ok f /\ no_cell_matches f col)
         /\ (status (fst (serve MeaslesCountryProfile req w)) = 400 <->
             args_get req "country" = None \/ args_get req "country" = Some EmptyString)
         /\ (status (fst (serve MeaslesCountryProfile req w)) = 400 ->
             snd (serve MeaslesCountryProfile req w) = w)).
Proof.
  split; [|split].
  - (* charts_api.py *)
    intros name req w. unfold serve. simpl. unfold ChartsApi.country_profile.
    rewrite dispatch_bind, load_data_run.
    destruct (loaded_frame "aids.csv" ChartsApi.clean_frame w) as [df|e].
    + rewrite dispatch_lift. rewrite <- (hiv_lookup_empty name df).
      destruct (ChartsApi.lookup_country name df) as [cd|e].
      * destruct (df_empty cd) eqn:He.
        -- rewrite dispatch_ret. simpl. split; eauto.
        -- split.
           ++ intros H404.
              match type of H404 with
              | status (fst (dispatch ?m ?w0)) = 404 =>
                  assert (Hans : answers_200 m) by (cbv zeta; answers_200_tac);
                  destruct (dispatch_answers_200 m w0 Hans) as [E|E];
                  rewrite H404 in E; discriminate
              end.
           ++ intros (cd' & Hcd & He'). injection Hcd as <-. congruence.
      * simpl. split; [discriminate|]. intros (cd & Hcd & _). discriminate.
    + rewrite dispatch_ret. simpl. tauto.
  - (* malaria_charts.py *)
    intros req w. unfold serve. simpl. unfold MalariaCharts.country_profile.
    destruct (args_get req "country") as [name|].
    2: { rewrite dispatch_ret. simpl. repeat split; auto; try discriminate.
         intros (name & df & col & f & Hn & _). discriminate. }
    destruct (PyStr.is_empty name) eqn:En.
    { apply is_empty_spec in En. subst name. rewrite dispatch_ret. simpl.
      repeat split; auto; try discriminate.
      intros (name & df & col & f & Hn & Hne & _). congruence. }
    assert (Hne : name <> EmptyString).
    { intros ->. discriminate. }
    assert (Hnot400 :
              ~ (Some name = None \/ Some name = Some EmptyString)).
    { intros [E|E]; [discriminate|]. injection E as ->. congruence. }
    rewrite dispatch_bind, load_malaria_data_run.
    destruct (loaded_frame "malaria_data.csv" MalariaCharts.clean_frame w) as [df|e].
    + destruct (df_empty df) eqn:Hemp.
      * rewrite dispatch_ret. simpl. repeat split; try discriminate; try tauto.
        intros (name' & df' & col & f & _ & _ & Hdf & Hem & _).
        injection Hdf as <-. congruence.
      * rewrite dispatch_lift.
        pose proof (malaria_find_empty name df) as Hfind.
        destruct (MalariaCharts.find_rows name df) as [row|e].
        -- destruct (df_empty row) eqn:Hrow.
           ++ rewrite dispatch_ret. simpl. repeat split; try discriminate; try tauto.
              intros _. destruct Hfind as [Hf _].
              destruct Hf as (col & f & Hrest); [exists row; auto|].
              exists name, df, col, f. tauto.
           ++ match goal with
              | |- context [dispatch ?m ?w0] =>
                  assert (Hans : answers_200 m) by (cbv zeta; answers_200_tac);
                  destruct (dispatch_answers_200 m w0 Hans) as [E|E]
              end.
              all: rewrite E; (repeat split; try discriminate; try tauto).
              all: intros (name' & df' & col & f & Hn & _ & Hdf & _ & Hrest).
              all: injection Hn as <-; injection Hdf as <-.
              all: destruct Hfind as [_ Hb].
              all: (destruct Hb as (row' & Hr' & He'); [exists col, f; tauto|]).
              all: injection Hr' as <-; congruence.
        -- simpl. repeat split; try discriminate; try tauto.
           intros (name' & df' & col & f & Hn & _ & Hdf & _ & Hrest).
           injection Hn as <-. injection Hdf as <-.
           destruct Hfind as [_ Hb].
           destruct Hb as (row' & Hr' & He'); [exists col, f; tauto|]. discriminate.
    + rewrite df_empty_empty_frame, dispatch_ret. simpl.
      repeat split; try discriminate; try tauto.
      intros (name' & df' & col & f & _ & _ & Hdf & _). discriminate.
  - (* measles_charts.py *)
    intros req w. unfold serve. simpl. unfold MeaslesCharts.country_profile.
    destruct (args_get req "country") as [name|].
    2: { rewrite dispatch_ret. simpl. repeat split; auto; try discriminate.
         intros (name & df & col & f & Hn & _). discriminate. }
    destruct (PyStr.is_empty name) eqn:En.
    { apply is_empty_spec in En. subst name. rewrite dispatch_ret. simpl.
      repeat split; auto; try discriminate.
      intros (name & df & col & f & Hn & Hne & _). congruence. }
    assert (Hne : name <> EmptyString).
    { intros ->. discriminate. }
    assert (Hnot400 :
              ~ (Some name = None \/ Some name = Some EmptyString)).
    { intros [E|E]; [discriminate|]. injection E as ->. congruence. }
    rewrite dispatch_bind, load_measles_data_run.
    destruct (loaded_frame "data.csv" MeaslesCharts.clean_frame w) as [df|e].
    + destruct (df_empty df) eqn:Hemp.
      * rewrite dispatch_ret. simpl. repeat split; try discriminate; try tauto.
        intros (name' & df' & col & f & _ & _ & Hdf & Hem & _).
        injection Hdf as <-. congruence.
      * rewrite dispatch_lift.
        pose proof (measles_contains_empty name df) as Hfind.
        destruct (MeaslesCharts.contains_rows name df) as [row|e].
        -- destruct (df_empty row) eqn:Hrow.
           ++ rewrite dispatch_ret. simpl. repeat split; try discriminate; try tauto.
              intros _. destruct Hfind as [Hf _].
              destruct Hf as (col & f & Hrest); [exists row; auto|].
              exists name, df, col, f. tauto.
           ++ match goal with
              | |- context [dispatch ?m ?w0] =>
                  assert (Hans : answers_200 m) by (cbv zeta; answers_200_tac);
                  destruct (dispatch_answers_200 m w0 Hans) as [E|E]
              end.
              all: rewrite E; (repeat split; try discriminate; try tauto).
              all: intros (name' & df' & col & f & Hn & _ & Hdf & _ & Hrest).
              all: injection Hn as <-; injection Hdf as <-.
              all: destruct Hfind as [_ Hb].
              all: (destruct Hb as (row' & Hr' & He'); [exists col, f; tauto|]).
              all: injection Hr' as <-; congruence.
        -- simpl. repeat split; try discriminate; try tauto.
           intros (name' & df' & col & f & Hn & _ & Hdf & _ & Hrest).
           injection Hn as <-. injection Hdf as <-.
           destruct Hfind as [_ Hb].
           destruct Hb as (row' & Hr' & He'); [exists col, f; tauto|]. discriminate.
    + rewrite df_empty_empty_frame, dispatch_ret. simpl.
      repeat split; try discriminate; try tauto.
      intros (name' & df' & col & f & _ & _ & Hdf & _). discriminate.
Qed.

(** C9 (amended).  charts_api.py answers 404 exactly when the data did
    not load, or it loaded and its 'Country' column holds a text and no
    cell equal to the name up to case.  malaria_charts.py answers 404
    exactly when the 'country' parameter is given and not empty, the
    data loaded and is not empty, the 'country' column holds a text (so
    that [.str] exists), no cell equals the name up to case and the
    name, which compiles as a regular expression ignoring case, is
    found in no cell; measles_charts.py the same without the test of
    equality.  Both answer 400 exactly when the parameter is missing or
    empty, and then leave the world untouched: the parameter is checked
    before the CSV is read.  Both answer 500, with the JSON error 'Data
    could not be loaded or is empty', when the parameter is given and
    the data does not load or loads without a row. *)
Theorem country_profile_statuses {num : Type} `{Numeric num} `{Libs num} :
  (forall (name : string) (req : request) (w : world num),
      status (fst (serve (CountryProfile name) req w)) = 404 <->
      match loaded_frame "aids.csv" ChartsApi.clean_frame w with
      | Raise _ => True
      | Ok df => exists col, get_column df "Country" = Ok col
                             /\ str_accessor col = Ok col
                             /\ no_cell_equal_ci name col
      end)
  /\ (forall (req : request) (w : world num),
         (status (fst (serve MalariaCountryProfile req w)) = 404 <->
          exists name df col f,
            args_get req "country" = Some name /\ name <> EmptyString
            /\ loaded_frame "malaria_data.csv" MalariaCharts.clean_frame w = Ok df
            /\ df_empty df = false
            /\ get_column df "country" = Ok col /\ str_accessor col = Ok col
            /\ no_cell_equal_ci name col
            /\ re_search_ci name = Ok f /\ no_cell_matches f col)
         /\ (status (fst (serve MalariaCountryProfile req w)) = 400 <->
             args_get req "country" = None \/ args_get req "country" = Some EmptyString)
         /\ (status (fst (serve MalariaCountryProfile req w)) = 400 ->
             snd (serve MalariaCountryProfile req w) = w)
         /\ (forall name,
               args_get req "country" = Some name -> name <> EmptyString ->
               match loaded_frame "malaria_data.csv" MalariaCharts.clean_frame w with
               | Raise _ => True
               | Ok df => df_empty df = true
               end ->
               status (fst (serve MalariaCountryProfile req w)) = 500
               /\ payload (fst (serve MalariaCountryProfile req w))
                  = BJson (error_json "Data could not be loaded or is empty")))
  /\ (forall (req : request) (w : world num),
         (status (fst (serve MeaslesCountryProfile req w)) = 404 <->
          exists name df col f,
            args_get req "country" = Some name /\ name <> EmptyString
            /\ loaded_frame "data.csv" MeaslesCharts.clean_frame w = Ok df
            /\ df_empty df = false
            /\ get_column df "country" = Ok col /\ str_accessor col = Ok col
            /\ re_search_ci name = Ok f /\ no_cell_matches f col)
         /\ (status (fst (serve MeaslesCountryProfile req w)) = 400 <->
             args_get req "country" = None \/ args_get req "country" = Some EmptyString)
         /\ (status (fst (serve MeaslesCountryProfile req w)) = 400 ->
             snd (serve MeaslesCountryProfile req w) = w)
         /\ (forall name,
               args_get req "country" = Some name -> name <> EmptyString ->
               match loaded_frame "data.csv" MeaslesCharts.clean_frame w with
               | Raise _ => True
               | Ok df => df_empty df = true
               end ->
               status (fst (serve MeaslesCountryProfile req w)) = 500
               /\ payload (fst (serve MeaslesCountryProfile req w))
                  = BJson (error_json "Data could not be loaded or is empty"))).
Proof.
  destruct (@profile_lookup_statuses num _ _) as (Hhiv & Hmalaria & Hmeasles).
  split; [exact Hhiv|]. split.
  - intros req w. destruct (Hmalaria req w) as (H404 & H400 & Hsame).
    split; [exact H404|]. split; [exact H400|]. split; [exact Hsame|].
    intros name Hn Hne Hload.
    rewrite (malaria_profile_load_failed req w name Hn Hne Hload).
    split; reflexivity.
  - intros req w. destruct (Hmeasles req w) as (H404 & H400 & Hsame).
    split; [exact H404|]. split; [exact H400|]. split; [exact Hsame|].
    intros name Hn Hne Hload.
    rewrite (measles_profile_load_failed req w name Hn Hne Hload).
    split; reflexivity.
Qed.

Lemma country_profile_statuses_witness :
  (exists name df col f,
      args_get (Request [("country", "Atlantis")]) "country" = Some name
      /\ name <> EmptyString
      /\ loaded_frame "malaria_data.csv" MalariaCharts.clean_frame Samples.sample_disk
         = Ok df
      /\ df_empty df = false
      /\ get_column df "country" = Ok col /\ str_accessor col = Ok col
      /\ no_cell_equal_ci name col
      /\ re_search_ci name = Ok f /\ no_cell_matches f col)
  /\ (status (fst (serve MalariaCountryProfile (Request [("country", "Chad")])
                         (Samples.disk None (Some (CsvFile Samples.header_only)) None)))
      = 500
      /\ payload (fst (serve MalariaCountryProfile (Request [("country", "Chad")])
                             (Samples.disk None (Some (CsvFile Samples.header_only)) None)))
         = BJson (error_json "Data could not be loaded or is empty"))
  /\ snd (serve MalariaCountryProfile (Request []) Samples.sample_disk)
     = Samples.sample_disk.
Proof.
  split; [|split].
  - refine (proj1 (proj1 (proj1 (proj2 (@country_profile_statuses Z _ _))
                                (Request [("country", "Atlantis")]) Samples.sample_disk))
                  _).
    reflexivity.
  - refine (proj2 (proj2 (proj2 (proj1 (proj2 (@country_profile_statuses Z _ _))
                                       (Request [("country", "Chad")])
                                       (Samples.disk None
                                          (Some (CsvFile Samples.header_only)) None))))
                  "Chad" _ _ _).
    + reflexivity.
    + discriminate.
    + reflexivity.
  - refine (proj1 (proj2 (proj2 (proj1 (proj2 (@country_profile_statuses Z _ _))
                                       (Request []) Samples.sample_disk))) _).
    reflexivity.
Defined.

(** C6 fails on the code: measles_charts.py, [country_profile].  The
    query 'congo' matches two rows of the table and equals none, so
    [row] keeps both rows, [cases] holds their cells one row after the
    other, and [ax.plot(years, cases)] raises ValueError: the lookup
    succeeded, and the client receives a 500 instead of a PNG.  The
    sibling view of malaria_charts.py takes [row.iloc[0]] and answers
    the image. *)
Theorem measles_profile_raises_on_two_matches :
  let req := Request [("country", "congo")] in
  loaded_frame "data.csv" MeaslesCharts.clean_frame Samples.sample_disk
  = Ok Samples.measles_loaded
  /\ (exists row, MeaslesCharts.contains_rows "congo" Samples.measles_loaded = Ok row
                  /\ List.length (rows row) = 2%nat)
  /\ fst (view MeaslesCountryProfile req Samples.sample_disk)
     = Raise (Exn ValueError "x and y must have same first dimension")
  /\ status (fst (serve MeaslesCountryProfile req Samples.sample_disk)) = 500
  /\ (let w := Samples.disk None (Some (CsvFile Samples.measles_table)) None in
      status (fst (serve MalariaCountryProfile req w)) = 200
      /\ mimetype (fst (serve MalariaCountryProfile req w)) = "image/png").
Proof.
  repeat split; try reflexivity. eexists. split; reflexivity.
Qed.

(* ===================================================================== *)
(** * Files, reads and repeated requests (C5, C7, C4) *)
(* ===================================================================== *)

(** C5, as stated, fails: asked for a country profile without the
    'country' parameter, malaria_charts.py answers 400 and reads no
    file. *)
Lemma profile_without_parameter_reads_nothing :
  let w := Samples.sample_disk in
  let w' := snd (serve MalariaCountryProfile (Request []) w) in
  status (fst (serve MalariaCountryProfile (Request []) w)) = 400
  /\ trace w' = []
  /\ ~ (exists evs, trace w' = trace w ++ EvReadCsv "malaria_data.csv" :: evs).
Proof.
  repeat split; try reflexivity. intros [evs Hevs]. discriminate Hevs.
Qed.

(** C5 (amended): on every request a view either starts by reading its
    CSV file, before any other effect, or it turns the request down
    with status 400, a parameter being missing, and has no effect at
    all. *)
Theorem views_read_their_csv_first
        {num : Type} `{Numeric num} `{Libs num}
        (ep : endpoint) (req : request) (w : world num) :
  (exists evs, trace (snd (serve ep req w)) = trace w ++ EvReadCsv (csv_of ep) :: evs)
  \/ (snd (serve ep req w) = w /\ status (fst (serve ep req w)) = 400).
Proof.
  unfold serve, dispatch.
  destruct (view_reads_or_rejects ep req w) as [(evs & Ht)|(r & Hr & Hs)].
  - left. exists evs. destruct (view ep req w) as [[r|e] w']; exact Ht.
  - right. rewrite Hr. auto.
Qed.

(** C7: serving a request changes no file, and the effects it adds to
    the trace hold no file write: the image of a chart goes to the
    buffer only. *)
Theorem serving_writes_no_file
        {num : Type} `{Numeric num} `{Libs num}
        (ep : endpoint) (req : request) (w : world num) :
  files (snd (serve ep req w)) = files w
  /\ exists evs,
      trace (snd (serve ep req w)) = trace w ++ evs
      /\ Forall no_write evs
      /\ forall path, ~ In (EvWriteFile path) evs.
Proof.
  unfold serve, dispatch. destruct (quiet_view ep req w) as (Hf & evs & Ht & Hn).
  destruct (view ep req w) as [[r|e] w']; simpl in *;
    (split; [exact Hf|]; exists evs; split; [exact Ht|]; split; [exact Hn|]);
    intros path Hin; rewrite Forall_forall in Hn; exact (Hn _ Hin).
Qed.

(** C4: the response to a request is the same whenever the CSV file of
    its endpoint is the same, whatever has been served before in either
    world, whatever the other files hold and whatever figures earlier
    requests left open. *)
Theorem responses_depend_on_the_csv_only
        {num : Type} `{Numeric num} `{Libs num}
        (ep : endpoint) (req : request) (w1 w2 : world num)
        (before between : list (endpoint * request)) :
  files w1 (csv_of ep) = files w2 (csv_of ep) ->
  fst (serve ep req (serve_all before w1)) = fst (serve ep req (serve_all between w2))
  /\ fst (serve ep req (serve_all between (snd (serve ep req (serve_all before w1)))))
     = fst (serve ep req (serve_all before w1)).
Proof.
  intros Hf. split.
  - apply serve_same_file. now rewrite !serve_all_files.
  - apply serve_same_file. now rewrite serve_all_files, serve_files.
Qed.

Lemma responses_depend_witness :
  fst (serve TopDeaths (Request [])
             (serve_all [(MeaslesCountryProfile, Request [("country", "congo")])]
                        Samples.sample_disk))
  = fst (serve TopDeaths (Request [])
               (serve_all [(AidsData, Request []); (MalariaGlobalDeaths, Request [])]
                          other_disk)).
Proof.
  refine (proj1 (@responses_depend_on_the_csv_only Z _ _ TopDeaths (Request [])
                   Samples.sample_disk other_disk
                   [(MeaslesCountryProfile, Request [("country", "congo")])]
                   [(AidsData, Request []); (MalariaGlobalDeaths, Request [])] _)).
  reflexivity.
Defined.

(* ===================================================================== *)
(** * Requests move along the stages *)
(* ===================================================================== *)

Lemma walk_app (path : string) (a : stage) (e1 e2 : list event) :
  walk path a (e1 ++ e2) =
  match walk path a e1 with
  | Some b => walk path b e2
  | None => None
  end.
Proof.
  revert a. induction e1 as [|ev r IH]; intros a; simpl; auto.
  destruct (next_stage path a ev); auto.
Qed.

Section Stages.
Context {num : Type} `{Numeric num} `{Libs num}.

Local Abbreviation frame := (DataFrame num).

Lemma proceeds_ret {A} (path : string) (a : stage) (x : A) (Q : A -> stage -> Prop) :
  Q x a -> proceeds path a (@ret num A x) Q.
Proof.
  intros HQ w base Hf. split; auto. exists [], a. rewrite app_nil_r. auto.
Qed.

Lemma proceeds_lift {A} (path : string) (a : stage) (o : outcome A)
      (Q : A -> stage -> Prop) :
  a = Loaded \/ a = Drawing -> (forall x, o = Ok x -> Q x a) ->
  proceeds path a (@lift num A o) Q.
Proof.
  intros Ha HQ w base Hf. split; auto. exists [], a. rewrite app_nil_r.
  repeat split; auto. simpl. destruct o; auto.
Qed.

Lemma stays_lift {A} (path : string) (a : stage) (o : outcome A) :
  a = Loaded \/ a = Drawing -> stays path a (@lift num A o).
Proof. intros Ha. apply proceeds_lift; auto. Qed.

Lemma proceeds_raise {A} (path : string) (a : stage) (e : exn) (Q : A -> stage -> Prop) :
  a = Loaded \/ a = Drawing -> proceeds path a (@raise num A e) Q.
Proof.
  intros Ha w base Hf. split; auto. exists [], a. rewrite app_nil_r. auto.
Qed.

Lemma proceeds_bind {A B} (path : string) (a : stage) (m : M num A) (k : A -> M num B)
      (Q1 : A -> stage -> Prop) (Q : B -> stage -> Prop) :
  proceeds path a m Q1 ->
  (forall x b, Q1 x b -> proceeds path b (k x) Q) ->
  proceeds path a (bind m k) Q.
Proof.
  intros Hm Hk w base Hf. unfold bind.
  destruct (Hm w base Hf) as (Hfl & evs & b & Ht & Hw & Hfig & Hout).
  destruct (m w) as [[x|e] w1]; simpl in *.
  - destruct (Hk x b Hout w1 base Hfig) as (Hfl' & evs' & c & Ht' & Hw' & Hfig' & Hout').
    split; [congruence|]. exists (evs ++ evs'), c.
    rewrite Ht', Ht, app_assoc, walk_app, Hw. auto.
  - split; auto. exists evs, b. auto.
Qed.

(** A step that stays at its stage, then the rest. *)
Lemma proceeds_after {A B} (path : string) (a : stage) (m : M num A) (k : A -> M num B)
      (Q : B -> stage -> Prop) :
  stays path a m -> (forall x, proceeds path a (k x) Q) -> proceeds path a (bind m k) Q.
Proof.
  intros Hm Hk. eapply proceeds_bind; [exact Hm|]. intros x b ->. apply Hk.
Qed.

(** A step that leads to the stage [b], then the rest. *)
Lemma proceeds_via {A B} (path : string) (a b : stage) (m : M num A) (k : A -> M num B)
      (Q : B -> stage -> Prop) :
  proceeds path a m (fun _ s => s = b) ->
  (forall x, proceeds path b (k x) Q) -> proceeds path a (bind m k) Q.
Proof.
  intros Hm Hk. eapply proceeds_bind; [exact Hm|]. intros x s ->. apply Hk.
Qed.

Lemma proceeds_weaken {A} (path : string) (a : stage) (m : M num A)
      (Q Q' : A -> stage -> Prop) :
  proceeds path a m Q -> (forall x b, Q x b -> Q' x b) -> proceeds path a m Q'.
Proof.
  intros Hm HQ w base Hf.
  destruct (Hm w base Hf) as (Hfl & evs & b & Ht & Hw & Hfig & Hout).
  split; auto. exists evs, b. repeat split; auto.
  destruct (fst (m w)); auto.
Qed.

(** ** The steps *)

Lemma read_csv_proceeds (path : string) :
  proceeds path Fresh (@read_csv num path) (fun _ b => b = Loaded).
Proof.
  intros w base Hf. rewrite read_csv_run. simpl. split; auto.
  exists [EvReadCsv path], Loaded. simpl. rewrite String.eqb_refl.
  repeat split; auto. destruct (parse_file _ _); auto.
Qed.

Lemma subplots_proceeds (path : string) :
  proceeds path Loaded (@plt_subplots num) (fun _ b => b = Drawing).
Proof.
  intros w base Hf. unfold plt_subplots, bind, emit. simpl. split; auto.
  exists [EvNewFigure], Drawing. unfold figures_at in *. simpl in *.
  repeat split; auto. exists []. now rewrite Hf.
Qed.

Lemma on_current_stays (path : string) (d : draw num) :
  stays path Drawing (on_current d).
Proof.
  intros w base [f Hf]. unfold on_current. rewrite Hf. simpl. split; auto.
  exists [], Drawing. rewrite app_nil_r.
  split; [reflexivity|]. split; [reflexivity|]. split; [|reflexivity].
  unfold figures_at. simpl. eauto.
Qed.

Lemma ax_plot_stays (path : string) (ax : nat) (xs ys : list (cell num)) (label : string) :
  stays path Drawing (ax_plot ax xs ys label).
Proof.
  unfold ax_plot. destruct (Nat.eqb _ _); [apply on_current_stays|].
  apply proceeds_raise. auto.
Qed.

Lemma ax_barh_stays (path : string) (ys ws : list (cell num)) :
  stays path Drawing (ax_barh ys ws).
Proof.
  unfold ax_barh. destruct (Nat.eqb _ _); [apply on_current_stays|].
  apply proceeds_raise. auto.
Qed.

(** Rendering into the buffer and closing: the figure opened by the
    request is the one rendered and the one closed. *)
Lemma save_and_close (w : world num) (f : figure num) (base : list (figure num)) :
  figures w = f :: base ->
  (img <- fig_savefig ToBuffer ;; plt_close ;;; ret img) w
  = (Ok (render_png f),
     World (files w) base (trace w ++ [EvSavefigBuffer; EvCloseFigure])).
Proof.
  intros Hf. unfold bind, fig_savefig, plt_close, emit, ret, bind. simpl.
  rewrite Hf. simpl. rewrite <- app_assoc. reflexivity.
Qed.

Lemma send_png_proceeds (path : string) (send : M num (response num)) :
  send = (img <- (img <- fig_savefig ToBuffer ;; plt_close ;;; ret img) ;;
          ret (send_file img "image/png")) ->
  proceeds path Drawing send (fun r b => b = Closed /\ is_png r).
Proof.
  intros -> w base [f Hf].
  unfold bind, fig_savefig, plt_close, emit, ret. simpl. rewrite Hf. simpl.
  split; auto. exists [EvSavefigBuffer; EvCloseFigure], Closed.
  split; [now rewrite <- app_assoc|]. split; [reflexivity|]. split; [reflexivity|].
  split; [reflexivity|]. unfold is_png. simpl. eauto.
Qed.

Lemma hiv_send_proceeds (path : string) :
  proceeds path Drawing (@ChartsApi.send_png num _) (fun r b => b = Closed /\ is_png r).
Proof. apply send_png_proceeds. reflexivity. Qed.

Lemma malaria_send_proceeds (path : string) :
  proceeds path Drawing (@MalariaCharts.send_png num _) (fun r b => b = Closed /\ is_png r).
Proof. apply send_png_proceeds. reflexivity. Qed.

Lemma measles_send_proceeds (path : string) :
  proceeds path Drawing (@MeaslesCharts.send_png num _) (fun r b => b = Closed /\ is_png r).
Proof. apply send_png_proceeds. reflexivity. Qed.

End Stages.

Create HintDb stages.

#[global] Hint Resolve on_current_stays ax_plot_stays ax_barh_stays : stages.

Section Loading.
Context {num : Type} `{Numeric num} `{Libs num}.

Local Abbreviation frame := (DataFrame num).

Lemma fig_calls_stays (path : string) (ds : list (draw num)) :
  stays path Drawing (ChartsApi.fig_calls ds).
Proof.
  induction ds as [|d r IH]; simpl.
  - now apply proceeds_ret.
  - apply proceeds_after; [apply on_current_stays|]. intros _. exact IH.
Qed.

Lemma malaria_plot_rows_stays (path : string) (cols years : list string)
      (rs : list (list (cell num))) :
  stays path Drawing (MalariaCharts.plot_rows cols years rs).
Proof.
  induction rs as [|r rest IH]; simpl.
  - now apply proceeds_ret.
  - apply proceeds_after; [apply stays_lift; auto|]. intros country.
    apply proceeds_after; [apply stays_lift; auto|]. intros deaths.
    apply proceeds_after; [apply ax_plot_stays|]. intros _. exact IH.
Qed.

Lemma measles_plot_rows_stays (path : string) (cols years : list string)
      (rs : list (list (cell num))) :
  stays path Drawing (MeaslesCharts.plot_rows cols years rs).
Proof.
  induction rs as [|r rest IH]; simpl.
  - now apply proceeds_ret.
  - apply proceeds_after; [apply stays_lift; auto|]. intros country.
    apply proceeds_after; [apply stays_lift; auto|]. intros cases.
    apply proceeds_after; [apply ax_plot_stays|]. intros _. exact IH.
Qed.

(** [load_data] reads the file; it reports on the console exactly
    when it returns [None]. *)
Lemma load_data_proceeds :
  proceeds "aids.csv" Fresh (@ChartsApi.load_data num _)
           (fun df b => match df with Some _ => b = Loaded | None => b = Reported end).
Proof.
  intros w base Hf. rewrite load_data_run.
  destruct (loaded_frame _ _ w) as [df|e]; simpl; (split; [reflexivity|]).
  - exists [EvReadCsv "aids.csv"], Loaded.
    unfold after_event, figures_at in *. simpl in *. repeat split; auto.
  - eexists [EvReadCsv "aids.csv"; EvPrint _], Reported.
    unfold after_event, figures_at in *. simpl in *.
    rewrite <- app_assoc. repeat split; auto.
Qed.

(** [load_malaria_data] and [load_measles_data] read the file; after a
    report on the console they return the empty frame. *)
Lemma load_malaria_data_proceeds :
  proceeds "malaria_data.csv" Fresh (@MalariaCharts.load_malaria_data num _)
           (fun df b => b = Loaded \/ (b = Reported /\ df = empty_frame)).
Proof.
  intros w base Hf. rewrite load_malaria_data_run.
  destruct (loaded_frame _ _ w) as [df|e]; simpl; (split; [reflexivity|]).
  - exists [EvReadCsv "malaria_data.csv"], Loaded.
    unfold after_event, figures_at in *. simpl in *. repeat split; auto.
  - eexists [EvReadCsv "malaria_data.csv"; EvPrint _], Reported.
    unfold after_event, figures_at in *. simpl in *.
    rewrite <- app_assoc. repeat split; auto.
Qed.

Lemma load_measles_data_proceeds :
  proceeds "data.csv" Fresh (@MeaslesCharts.load_measles_data num _)
           (fun df b => b = Loaded \/ (b = Reported /\ df = empty_frame)).
Proof.
  intros w base Hf. rewrite load_measles_data_run.
  destruct (loaded_frame _ _ w) as [df|e]; simpl; (split; [reflexivity|]).
  - exists [EvReadCsv "data.csv"], Loaded.
    unfold after_event, figures_at in *. simpl in *. repeat split; auto.
  - eexists [EvReadCsv "data.csv"; EvPrint _], Reported.
    unfold after_event, figures_at in *. simpl in *.
    rewrite <- app_assoc. repeat split; auto.
Qed.

Lemma after_load_data {B} (k : option frame -> M num B) (Q : B -> stage -> Prop) :
  (forall df, proceeds "aids.csv" Loaded (k (Some df)) Q) ->
  proceeds "aids.csv" Reported (k None) Q ->
  proceeds "aids.csv" Fresh (bind ChartsApi.load_data k) Q.
Proof.
  intros Hs Hn. eapply proceeds_bind; [apply load_data_proceeds|].
  intros [df|] b ->; auto.
Qed.

Lemma after_load_malaria_data {B} (k : frame -> M num B) (Q : B -> stage -> Prop) :
  (forall df, proceeds "malaria_data.csv" Loaded (k df) Q) ->
  proceeds "malaria_data.csv" Reported (k empty_frame) Q ->
  proceeds "malaria_data.csv" Fresh (bind MalariaCharts.load_malaria_data k) Q.
Proof.
  intros Hs Hn. eapply proceeds_bind; [apply load_malaria_data_proceeds|].
  intros df b [->|[-> ->]]; auto.
Qed.

Lemma after_load_measles_data {B} (k : frame -> M num B) (Q : B -> stage -> Prop) :
  (forall df, proceeds "data.csv" Loaded (k df) Q) ->
  proceeds "data.csv" Reported (k empty_frame) Q ->
  proceeds "data.csv" Fresh (bind MeaslesCharts.load_measles_data k) Q.
Proof.
  intros Hs Hn. eapply proceeds_bind; [apply load_measles_data_proceeds|].
  intros df b [->|[-> ->]]; auto.
Qed.

Lemma send_answers (path : string) (send : M num (response num)) :
  proceeds path Drawing send (fun r b => b = Closed /\ is_png r) ->
  proceeds path Drawing send (fun r b => answer_at true b r).
Proof.
  intros Hs. eapply proceeds_weaken; [exact Hs|]. intros r b [-> Hr].
  split; [reflexivity|exact Hr].
Qed.

Lemma error_json_answer (code : Z) (msg : string) :
  is_error_json code (with_status (jsonify (@error_json num msg)) code).
Proof. unfold is_error_json. simpl. eauto. Qed.

(** ** The data endpoints *)

Lemma data_endpoint_proceeds (path : string) (reshape : frame -> outcome (country_records num))
      (report : bool) (msg : exn -> string) :
  proceeds path Fresh
    (try_except
       (df <- read_csv path ;;
        result <- lift (reshape df) ;;
        ret (jsonify (json_of_result result)))
       (fun e =>
          if report then print (msg e) ;;; ret (error_500 e) else ret (error_500 e)))
    (fun r b => answer_at false b r).
Proof.
  intros w base Hf. unfold try_except, bind. rewrite read_csv_run.
  unfold lift, ret, print, emit, after_event, bind, figures_at in *. simpl in *.
  assert (Herr : forall e, is_error_json 500 (@error_500 num e)).
  { intros e. apply error_json_answer. }
  assert (Hok : forall res, is_country_list (jsonify (@json_of_result num res))).
  { intros res. unfold is_country_list. simpl. eauto. }
  assert (Hwalk1 : walk path Fresh [EvReadCsv path] = Some Loaded).
  { simpl. now rewrite String.eqb_refl. }
  assert (Hwalk2 : forall m, walk path Fresh [EvReadCsv path; EvPrint m] = Some Reported).
  { intros m. simpl. now rewrite String.eqb_refl. }
  destruct (parse_file (files w path) path) as [df|e]; simpl.
  - destruct (reshape df) as [res|e]; simpl.
    + split; auto. exists [EvReadCsv path], Loaded.
      split; [reflexivity|]. split; [exact Hwalk1|]. split; [exact Hf|].
      left. apply Hok.
    + destruct report; simpl; (split; [reflexivity|]).
      * exists [EvReadCsv path; EvPrint (msg e)], Reported.
        split; [now rewrite <- app_assoc|]. split; [apply Hwalk2|].
        split; [exact Hf|]. apply Herr.
      * exists [EvReadCsv path], Loaded.
        split; [reflexivity|]. split; [exact Hwalk1|]. split; [exact Hf|].
        right. apply Herr.
  - destruct report; simpl; (split; [reflexivity|]).
    + exists [EvReadCsv path; EvPrint (msg e)], Reported.
      split; [now rewrite <- app_assoc|]. split; [apply Hwalk2|].
      split; [exact Hf|]. apply Herr.
    + exists [EvReadCsv path], Loaded.
      split; [reflexivity|]. split; [exact Hwalk1|]. split; [exact Hf|].
      right. apply Herr.
Qed.

End Loading.

#[global] Hint Resolve fig_calls_stays malaria_plot_rows_stays measles_plot_rows_stays
  : stages.

Ltac answer_tac :=
  first
    [ split; [reflexivity|apply error_json_answer]
    | left; apply error_json_answer
    | right; apply error_json_answer
    | left; reflexivity ].

(** One step along a view. *)
Ltac stage_step :=
  match goal with
  | |- proceeds _ Fresh (bind ChartsApi.load_data _) _ =>
      apply after_load_data; [intros ?|]
  | |- proceeds _ Fresh (bind MalariaCharts.load_malaria_data _) _ =>
      apply after_load_malaria_data; [intros ?|]
  | |- proceeds _ Fresh (bind MeaslesCharts.load_measles_data _) _ =>
      apply after_load_measles_data; [intros ?|]
  | |- proceeds _ _ (bind (lift _) _) _ =>
      apply proceeds_after; [apply stays_lift; auto|intros ?]
  | |- proceeds _ Loaded (bind plt_subplots _) _ =>
      eapply proceeds_via; [apply subplots_proceeds|intros ?]
  | |- proceeds _ Drawing (bind (fig_call _) _) _ =>
      apply proceeds_after; [apply on_current_stays|intros ?]
  | |- proceeds _ Drawing (bind (plt_call _) _) _ =>
      apply proceeds_after; [apply on_current_stays|intros ?]
  | |- proceeds _ Drawing (bind _ _) _ =>
      apply proceeds_after; [solve [auto with stages]|intros ?]
  | |- proceeds _ Drawing ChartsApi.send_png _ =>
      apply send_answers; apply hiv_send_proceeds
  | |- proceeds _ Drawing MalariaCharts.send_png _ =>
      apply send_answers; apply malaria_send_proceeds
  | |- proceeds _ Drawing MeaslesCharts.send_png _ =>
      apply send_answers; apply measles_send_proceeds
  | |- proceeds _ _ (ret _) _ => apply proceeds_ret; simpl; answer_tac
  | |- proceeds _ Reported (if df_empty empty_frame then _ else _) _ =>
      change (df_empty (@empty_frame _)) with true; cbv iota
  | |- proceeds _ _ (if ?b then _ else _) _ => destruct b
  | |- proceeds _ _ (match ?x with _ => _ end) _ => destruct x
  end.

Ltac stage_tac := cbv zeta; repeat (cbv beta; stage_step).

Section ViewStages.
Context {num : Type} `{Numeric num} `{Libs num}.

(** Every view moves its request along the stages, from its own CSV
    file. *)
Lemma view_proceeds (ep : endpoint) (req : request) :
  proceeds (csv_of ep) Fresh (view ep req) (fun r b => answer_at (is_chart ep) b r).
Proof.
  destruct ep; simpl;
    try (apply (data_endpoint_proceeds _ _ true (fun e => ("Error: " ++ exn_msg e)%string)));
    try (apply (data_endpoint_proceeds _ _ false (fun _ => EmptyString)));
    autounfold with views; stage_tac.
Qed.

End ViewStages.

(* ===================================================================== *)
(** * The course of a request and the shape of its answer *)
(* ===================================================================== *)


Lemma walk_shapes (path : string) (evs : list event) (b : stage) :
  walk path Fresh evs = Some b ->
  match b with
  | Fresh => evs = []
  | Loaded => evs = [EvReadCsv path]
  | Reported => exists msg, evs = [EvReadCsv path; EvPrint msg]
  | Drawing => evs = [EvReadCsv path; EvNewFigure]
  | Rendered => evs = [EvReadCsv path; EvNewFigure; EvSavefigBuffer]
  | Closed => evs = [EvReadCsv path; EvNewFigure; EvSavefigBuffer; EvCloseFigure]
  end.
Proof.
  destruct evs as [|e1 evs]; simpl.
  { intros E. now injection E as <-. }
  destruct e1 as [p| | | | |]; try discriminate.
  destruct (String.eqb p path) eqn:Ep; [|discriminate].
  apply String.eqb_eq in Ep. subst p.
  destruct evs as [|e2 evs]; simpl.
  { intros E. now injection E as <-. }
  destruct e2 as [| |msg| | |]; try discriminate.
  - destruct evs as [|e3 evs]; simpl; [|discriminate].
    intros E. injection E as <-. eauto.
  - destruct evs as [|e3 evs]; simpl.
    { intros E. now injection E as <-. }
    destruct e3; try discriminate.
    destruct evs as [|e4 evs]; simpl.
    { intros E. now injection E as <-. }
    destruct e4; try discriminate.
    destruct evs as [|e5 evs]; simpl; [|discriminate].
    intros E. now injection E as <-.
Qed.

Section Courses.
Context {num : Type} `{Numeric num} `{Libs num}.

(** What a request leaves behind, and what it answers. *)
Lemma serve_proceeds (ep : endpoint) (req : request) (w : world num) :
  files (snd (serve ep req w)) = files w
  /\ exists evs b,
      trace (snd (serve ep req w)) = trace w ++ evs
      /\ walk (csv_of ep) Fresh evs = Some b
      /\ figures_at b (figures w) (snd (serve ep req w))
      /\ ((answer_at (is_chart ep) b (fst (serve ep req w))
           /\ fst (view ep req w) = Ok (fst (serve ep req w)))
          \/ ((b = Loaded \/ b = Drawing)
              /\ fst (serve ep req w) = error_page
              /\ exists e, fst (view ep req w) = Raise e)).
Proof.
  destruct (view_proceeds ep req w (figures w) eq_refl)
    as (Hfl & evs & b & Ht & Hw & Hfig & Hout).
  unfold serve, dispatch. destruct (view ep req w) as [[r|e] w']; simpl in *.
  - split; auto. exists evs, b. repeat split; auto.
  - split; auto. exists evs, b. repeat split; auto. right. eauto.
Qed.

Lemma error_json_status (code : Z) (r : response num) :
  is_error_json code r -> status r = code.
Proof. intros [Hs _]. exact Hs. Qed.

Lemma answer_at_status (chart : bool) (b : stage) (r : response num) :
  answer_at chart b r ->
  match b with
  | Fresh => status r = 400
  | Loaded => if chart then status r = 404 \/ status r = 500
              else status r = 200 \/ status r = 500
  | Reported => status r = 404 \/ status r = 500
  | Closed => status r = 200
  | _ => False
  end.
Proof.
  destruct b, chart; simpl; auto.
  - intros [_ Hr]. now apply error_json_status.
  - intros [Hc _]. discriminate.
  - intros [Hr|Hr]; [left|right]; now apply error_json_status.
  - intros [[Hr _]|Hr]; [left; exact Hr|right; now apply error_json_status].
  - intros [->|Hr]; [left; reflexivity|right; now apply error_json_status].
  - intros Hr. right. now apply error_json_status.
  - intros [_ [Hr _]]. exact Hr.
  - intros [Hc _]. discriminate.
Qed.
End Courses.

(** X1: the course of a request.  Whatever the route, the request and
    the state of the server, serving a request adds to the trace one of
    five sequences of effects: nothing, and the answer is a 400; the
    read of the route's own CSV file; that read and one message on the
    console; the read and a new figure, and then the view raised, the
    client received Flask's 500 page and the figure stays open in
    pyplot's registry; or the read, a new figure, its rendering into
    memory and its closing, and the answer is a 200.  In every course
    but the fourth the registry of figures is left as it was found. *)
Theorem a_request_takes_one_of_five_courses
        {num : Type} `{Numeric num} `{Libs num}
        (ep : endpoint) (req : request) (w : world num) :
  let r := fst (serve ep req w) in
  let w' := snd (serve ep req w) in
  let read := EvReadCsv (csv_of ep) in
  (trace w' = trace w /\ figures w' = figures w /\ status r = 400)
  \/ (trace w' = trace w ++ [read] /\ figures w' = figures w)
  \/ (exists msg, trace w' = trace w ++ [read; EvPrint msg] /\ figures w' = figures w)
  \/ (trace w' = trace w ++ [read; EvNewFigure]
      /\ (exists f, figures w' = f :: figures w)
      /\ r = error_page
      /\ exists e, fst (view ep req w) = Raise e)
  \/ (trace w' = trace w ++ [read; EvNewFigure; EvSavefigBuffer; EvCloseFigure]
      /\ figures w' = figures w /\ status r = 200).
Proof.
  cbv zeta.
  destruct (serve_proceeds ep req w) as (_ & evs & b & Ht & Hw & Hfig & Hout).
  apply walk_shapes in Hw. unfold figures_at in Hfig. rewrite Ht.
  destruct Hout as [[Ha Hv]|[Hb [Hr He]]].
  - apply answer_at_status in Ha.
    destruct b; simpl in *; try contradiction.
    + subst evs. rewrite app_nil_r. left. auto.
    + subst evs. right. left. auto.
    + destruct Hw as [msg ->]. right. right. left. eauto.
    + subst evs. do 4 right. auto.
  - destruct Hb as [-> | ->]; simpl in *; subst evs.
    + right. left. auto.
    + do 3 right. left. auto.
Qed.

(** X2: the answers of the chart routes.  A chart route answers a PNG
    image with status 200, a JSON object with the one key 'error' and
    status 400, 404 or 500, the text 'Data not found' with status 404,
    or Flask's 500 page.  The status is 200 exactly when the answer is
    the image, and exactly when the request went all the way: read the
    CSV, opened a figure, rendered it into memory and closed it.  The
    status is 400 exactly when the request left the server as it found
    it. *)
Theorem chart_routes_answer_a_png_or_an_error
        {num : Type} `{Numeric num} `{Libs num}
        (ep : endpoint) (req : request) (w : world num) :
  is_chart ep = true ->
  let r := fst (serve ep req w) in
  let w' := snd (serve ep req w) in
  (is_png r \/ is_error_json 400 r \/ is_error_json 404 r \/ is_error_json 500 r
   \/ r = ChartsApi.not_found \/ r = error_page)
  /\ (status r = 200 <-> is_png r)
  /\ (status r = 200 <->
      trace w' = trace w ++ [EvReadCsv (csv_of ep); EvNewFigure;
                             EvSavefigBuffer; EvCloseFigure])
  /\ (status r = 400 <-> w' = w).
Proof.
  intros Hc. cbv zeta.
  destruct (serve_proceeds ep req w) as (Hfl & evs & b & Ht & Hw & Hfig & Hout).
  rewrite Hc in Hout. apply walk_shapes in Hw. unfold figures_at in Hfig.
  assert (Hlen : forall l : list event, trace w ++ l = trace w -> l = []).
  { intros l E. apply (f_equal (@List.length event)) in E.
    rewrite length_app in E. destruct l; simpl in E; [reflexivity|lia]. }
  assert (Hsame : forall l l' : list event, trace w ++ l = trace w ++ l' -> l = l').
  { intros l l'. apply app_inv_head. }
  assert (Hw0 : snd (serve ep req w) = w ->
                trace w ++ evs = trace w).
  { intros E. rewrite <- Ht, E. reflexivity. }
  destruct Hout as [[Ha Hv]|[Hb [Hr He]]].
  - pose proof (answer_at_status _ _ _ Ha) as Hs.
    destruct b; simpl in *; try contradiction.
    + (* 400 *)
      subst evs. rewrite app_nil_r in Ht. destruct Ha as [_ Ha].
      split; [auto|]. rewrite Hs.
      split; [split; [discriminate|intros [E _]; congruence]|].
      split; [split; [discriminate|]|].
      * rewrite Ht. intros E. symmetry in E. apply Hlen in E. discriminate.
      * split; auto. intros _.
        destruct (snd (serve ep req w)) as [f g t], w as [f0 g0 t0]. simpl in *.
        congruence.
    + (* 404 or 500 after the read *)
      subst evs. split; [destruct Ha; auto|].
      split; [split; [intros E; destruct Hs; congruence|intros [E _]; destruct Hs; congruence]|].
      split; [split; [intros E; destruct Hs; congruence|]|].
      * rewrite Ht. intros E. apply Hsame in E. discriminate.
      * split; [intros E; destruct Hs; congruence|].
        intros E. apply Hw0, Hlen in E. discriminate.
    + (* after a report *)
      destruct Hw as [msg ->]. split; [destruct Ha; auto 6|].
      split; [split; [intros E; destruct Hs; congruence|intros [E _]; destruct Hs; congruence]|].
      split; [split; [intros E; destruct Hs; congruence|]|].
      * rewrite Ht. intros E. apply Hsame in E. discriminate.
      * split; [intros E; destruct Hs; congruence|].
        intros E. apply Hw0, Hlen in E. discriminate.
    + (* the image *)
      subst evs. destruct Ha as [_ Ha]. split; [auto|].
      split; [tauto|]. split; [tauto|]. rewrite Hs.
      split; [discriminate|]. intros E. apply Hw0, Hlen in E. discriminate.
  - rewrite Hr. split; [auto 7|]. simpl.
    split; [split; [discriminate|intros [E _]; discriminate]|].
    split; [split; [discriminate|]|].
    + rewrite Ht. intros E. apply Hsame in E.
      destruct Hb as [-> | ->]; simpl in Hw; subst evs; discriminate.
    + split; [discriminate|]. intros E. apply Hw0, Hlen in E.
      destruct Hb as [-> | ->]; simpl in Hw; subst evs; discriminate.
Qed.

Lemma chart_routes_answer_witness :
  let r := fst (serve MeaslesGlobalCases (Request []) Samples.sample_disk) in
  let w' := snd (serve MeaslesGlobalCases (Request []) Samples.sample_disk) in
  (is_png r \/ is_error_json 400 r \/ is_error_json 404 r \/ is_error_json 500 r
   \/ r = ChartsApi.not_found \/ r = error_page)
  /\ (status r = 200 <-> is_png r)
  /\ (status r = 200 <->
      trace w' = trace Samples.sample_disk
                 ++ [EvReadCsv (csv_of MeaslesGlobalCases); EvNewFigure;
                     EvSavefigBuffer; EvCloseFigure])
  /\ (status r = 400 <-> w' = Samples.sample_disk).
Proof.
  refine (@chart_routes_answer_a_png_or_an_error Z _ _ MeaslesGlobalCases (Request [])
            Samples.sample_disk _).
  reflexivity.
Defined.

(* ===================================================================== *)
(** * Numbers in texts *)
(* ===================================================================== *)

(** * Numbers written and read back *)

Lemma int_of_uint_acc (d : Decimal.uint) (p : positive) :
  PyStr.int_of_digits_acc (Z.pos p) (NilEmpty.string_of_uint d)
  = Z.pos (Pos.of_uint_acc d p).
Proof.
  revert p. induction d; intros p;
    cbn [NilEmpty.string_of_uint PyStr.int_of_digits_acc Pos.of_uint_acc];
    try reflexivity;
    match goal with
    | |- PyStr.int_of_digits_acc (_ + PyStr.digit_val ?c) _ = _ =>
        let v := eval vm_compute in (PyStr.digit_val c) in
        change (PyStr.digit_val c) with v
    end;
    rewrite <- IHd; f_equal; lia.
Qed.

Lemma int_of_uint (d : Decimal.uint) :
  PyStr.int_of_digits (NilEmpty.string_of_uint d) = Z.of_N (Pos.of_uint d).
Proof.
  unfold PyStr.int_of_digits.
  induction d;
    cbn [NilEmpty.string_of_uint PyStr.int_of_digits_acc Pos.of_uint];
    try reflexivity;
    match goal with
    | |- PyStr.int_of_digits_acc (_ + PyStr.digit_val ?c) _ = _ =>
        let v := eval vm_compute in (PyStr.digit_val c) in
        change (PyStr.digit_val c) with v
    end;
    try exact IHd;
    simpl Z.of_N; rewrite <- int_of_uint_acc; reflexivity.
Qed.

Lemma all_digits_of_uint (d : Decimal.uint) :
  PyStr.all_digits (NilEmpty.string_of_uint d) = true.
Proof. induction d; simpl; auto. Qed.

Lemma remove_commas_digits (s : string) :
  PyStr.all_digits s = true -> PyStr.remove_commas s = s.
Proof.
  induction s as [|a r IH]; simpl; auto.
  intros Hd. apply andb_prop in Hd as [Ha Hr]. rewrite (IH Hr).
  destruct (Ascii.eqb a ",") eqn:E; auto.
  apply Ascii.eqb_eq in E. subst a. discriminate.
Qed.

Lemma take_digits_digits (s : string) :
  PyStr.all_digits s = true -> PyStr.take_digits s = s.
Proof.
  induction s as [|a r IH]; simpl; auto.
  intros Hd. apply andb_prop in Hd as [Ha Hr]. now rewrite Ha, (IH Hr).
Qed.

Lemma search_digits_digits (s : string) :
  PyStr.all_digits s = true -> s <> EmptyString -> PyStr.search_digits s = Some s.
Proof.
  destruct s as [|a r]; [congruence|]. intros Hd _.
  pose proof (take_digits_digits _ Hd) as Ht. simpl in *.
  apply andb_prop in Hd as [Ha Hr]. rewrite Ha in *. now rewrite Ht.
Qed.

Lemma to_uint_not_nil (p : positive) : NilEmpty.string_of_uint (Pos.to_uint p) <> EmptyString.
Proof.
  pose proof (Unsigned.of_to p) as Hp.
  destruct (Pos.to_uint p); simpl; try discriminate.
Qed.

(** The digits of a positive number, read back. *)
Lemma digits_of_pos (p : positive) :
  let s := NilEmpty.string_of_uint (Pos.to_uint p) in
  PyStr.all_digits s = true /\ s <> EmptyString
  /\ NilZero.string_of_uint (Pos.to_uint p) = s
  /\ PyStr.int_of_digits s = Z.pos p.
Proof.
  cbv zeta. split; [apply all_digits_of_uint|]. split; [apply to_uint_not_nil|]. split.
  - pose proof (to_uint_not_nil p). destruct (Pos.to_uint p); simpl in *; congruence.
  - rewrite int_of_uint, Unsigned.of_to. reflexivity.
Qed.

Lemma extract_number_of_int (z : Z) : Malaria.extract_number (Num z) = Z.abs z.
Proof.
  unfold Malaria.extract_number. simpl. unfold PyStr.str_of_int.
  destruct z as [|p|p]; simpl.
  - reflexivity.
  - destruct (digits_of_pos p) as (Hd & Hne & -> & Hv).
    now rewrite (remove_commas_digits _ Hd), (search_digits_digits _ Hd Hne).
  - destruct (digits_of_pos p) as (Hd & Hne & -> & Hv).
    rewrite (remove_commas_digits _ Hd), (search_digits_digits _ Hd Hne). exact Hv.
Qed.

(** * The order of the year columns *)

Lemma int_of_digits_acc_pow (s : string) (acc : Z) :
  PyStr.int_of_digits_acc acc s
  = acc * 10 ^ Z.of_nat (String.length s) + PyStr.int_of_digits s.
Proof.
  unfold PyStr.int_of_digits. revert acc.
  induction s as [|a r IH]; intros acc;
    cbn [PyStr.int_of_digits_acc String.length].
  - simpl. lia.
  - rewrite (IH (10 * acc + PyStr.digit_val a)), (IH (10 * 0 + PyStr.digit_val a)).
    rewrite Nat2Z.inj_succ, Z.pow_succ_r by lia. ring.
Qed.

Lemma int_of_digits_bound (s : string) :
  PyStr.all_digits s = true ->
  0 <= PyStr.int_of_digits s < 10 ^ Z.of_nat (String.length s).
Proof.
  induction s as [|a r IH]; intros Hd.
  - vm_compute. split; congruence.
  - cbn [PyStr.all_digits] in Hd. apply andb_prop in Hd as [Ha Hr].
    specialize (IH Hr). unfold PyStr.int_of_digits in *.
    cbn [PyStr.int_of_digits_acc String.length].
    rewrite int_of_digits_acc_pow. unfold PyStr.int_of_digits.
    rewrite Nat2Z.inj_succ, Z.pow_succ_r by lia.
    pose proof (digit_val_range _ Ha).
    assert (0 < 10 ^ Z.of_nat (String.length r)) by (apply Z.pow_pos_nonneg; lia).
    nia.
Qed.

(** On runs of digits of the same width the order of texts is the order
    of the numbers they write. *)
Lemma leb_digits (a b : string) :
  PyStr.all_digits a = true -> PyStr.all_digits b = true ->
  String.length a = String.length b ->
  PyStr.leb a b = (PyStr.int_of_digits a <=? PyStr.int_of_digits b).
Proof.
  unfold PyStr.leb, String.leb.
  revert b. induction a as [|x a IH]; intros [|y b] Ha Hb Hl; try discriminate.
  - reflexivity.
  - cbn [PyStr.all_digits] in Ha, Hb.
    apply andb_prop in Ha as [Hx Ha]. apply andb_prop in Hb as [Hy Hb].
    injection Hl as Hl. specialize (IH b Ha Hb Hl).
    cbn [String.compare]. unfold PyStr.int_of_digits.
    cbn [PyStr.int_of_digits_acc].
    rewrite (int_of_digits_acc_pow a), (int_of_digits_acc_pow b), Hl.
    pose proof (int_of_digits_bound _ Ha) as Ba.
    pose proof (int_of_digits_bound _ Hb) as Bb. rewrite Hl in Ba.
    pose proof (digit_val_range _ Hx) as Rx.
    pose proof (digit_val_range _ Hy) as Ry.
    assert (Hc : (x ?= y)%char = (PyStr.digit_val x ?= PyStr.digit_val y)).
    { unfold Ascii.compare, PyStr.digit_val. rewrite <- N2Z.inj_compare.
      destruct (Z.compare_spec (Z.of_N (N_of_ascii x)) (Z.of_N (N_of_ascii y)));
        symmetry; [apply Z.compare_eq_iff|apply Z.compare_lt_iff|apply Z.compare_gt_iff];
        lia. }
    rewrite Hc.
    set (p := 10 ^ Z.of_nat (String.length b)) in *.
    destruct (Z.compare_spec (PyStr.digit_val x) (PyStr.digit_val y)) as [E|E|E].
    + rewrite IH, E. destruct (Z.leb_spec (PyStr.int_of_digits a) (PyStr.int_of_digits b));
        symmetry; [apply Z.leb_le|apply Z.leb_gt]; nia.
    + symmetry. apply Z.leb_le. nia.
    + symmetry. apply Z.leb_gt. nia.
Qed.

Section KeyedSort.
Variables (A K : Type) (key : A -> K) (lek : K -> K -> bool) (le : A -> A -> bool).

Let lep (p q : K * A) : bool := lek (fst p) (fst q).

(** Sorting by a key is sorting by an order that agrees with the
    key. *)
Lemma stable_sort_keyed (l : list A) :
  (forall a b, In a l -> In b l -> lek (key a) (key b) = le a b) ->
  stable_sort lep (map (fun y => (key y, y)) l)
  = map (fun y => (key y, y)) (stable_sort le l).
Proof.
  induction l as [|x r IH]; intros Hl; simpl; auto.
  rewrite IH by (intros; apply Hl; simpl; auto).
  clear IH.
  assert (Hx : forall b, In b (stable_sort le r) -> lek (key x) (key b) = le x b).
  { intros b Hb. apply Hl; simpl; auto. right. now apply stable_sort_In in Hb. }
  revert Hx. generalize (stable_sort le r). intros s.
  induction s as [|y t IH]; intros Hx; simpl; auto.
  unfold lep at 1. simpl. rewrite (Hx y) by (simpl; auto).
  destruct (le x y); simpl; auto.
  f_equal. apply IH. intros b Hb. apply Hx. simpl; auto.
Qed.
End KeyedSort.

Section YearColumns.
Context {num : Type} `{Numeric num} `{Libs num}.

Lemma omap_year_key (years : list string) (keyed : list (Z * string)) :
  omap year_key years = Ok keyed ->
  map snd keyed = years
  /\ Forall (fun ky => PyStr.py_int (PyStr.strip (snd ky)) = Some (fst ky)) keyed.
Proof.
  revert keyed. induction years as [|y r IH]; simpl; intros keyed.
  - intros E. injection E as <-. split; constructor.
  - unfold year_key at 1.
    destruct (PyStr.py_int (PyStr.strip y)) as [k|] eqn:Ek; [|discriminate].
    destruct (omap year_key r) as [ks|e]; [|discriminate].
    intros E. injection E as <-. destruct (IH ks eq_refl) as [Hs Hf].
    split; simpl; [now rewrite Hs|]. constructor; auto.
Qed.

Lemma omap_year_key_raise (years : list string) (y : string) :
  In y years -> PyStr.py_int (PyStr.strip y) = None ->
  omap year_key years = Raise (Exn ValueError "invalid literal for int() with base 10").
Proof.
  induction years as [|x r IH]; simpl; [tauto|].
  intros [->|Hin] Hy.
  - unfold year_key at 1. now rewrite Hy.
  - unfold year_key at 1. destruct (PyStr.py_int (PyStr.strip x)); auto.
    now rewrite (IH Hin Hy).
Qed.
End YearColumns.

Lemma remove_commas_app (a b : string) :
  PyStr.remove_commas (a ++ b) = (PyStr.remove_commas a ++ PyStr.remove_commas b)%string.
Proof.
  induction a as [|x a IH]; simpl; auto.
  destruct (Ascii.eqb x ","); simpl; now rewrite IH.
Qed.

Lemma search_digits_remove_commas (s : string) :
  PyStr.search_digits s = None -> PyStr.search_digits (PyStr.remove_commas s) = None.
Proof.
  induction s as [|x s IH]; simpl; auto.
  destruct (PyStr.is_digit x) eqn:Ex; [discriminate|].
  intros Hs. destruct (Ascii.eqb x ","); simpl; auto. rewrite Ex. auto.
Qed.

Lemma take_digits_app (d post : string) :
  PyStr.all_digits d = true -> PyStr.take_digits post = EmptyString ->
  PyStr.take_digits (d ++ post) = d.
Proof.
  induction d as [|x d IH]; simpl; auto.
  intros Hd Hp. apply andb_prop in Hd as [Hx Hd]. now rewrite Hx, IH.
Qed.

Lemma search_digits_app (pre d post : string) :
  PyStr.search_digits pre = None ->
  PyStr.all_digits d = true -> d <> EmptyString ->
  PyStr.take_digits post = EmptyString ->
  PyStr.search_digits (pre ++ d ++ post) = Some d.
Proof.
  intros Hpre Hd Hne Hpost. induction pre as [|x pre IH]; simpl in *.
  - destruct d as [|y d]; [congruence|]. simpl in *.
    apply andb_prop in Hd as [Hy Hd]. rewrite Hy.
    now rewrite (take_digits_app d post Hd Hpost).
  - destruct (PyStr.is_digit x); [discriminate|]. now apply IH.
Qed.

(** X3: integers written and read back.  On a cell that holds an
    integer, [extract_number] returns its absolute value: the digits of
    [str(n)] are read back and a minus sign is dropped.  The chain of
    [load_malaria_data] does the same and refuses only what does not
    fit int64. *)
Theorem integer_cells_are_read_back (z : Z) :
  Malaria.extract_number (Num z) = Z.abs z
  /\ MalariaCharts.clean_cell (Num z)
     = if Z.abs z <=? int64_max then Ok (Z.abs z)
       else Raise (Exn OverflowError "Python int too large to convert to C long").
Proof.
  split; [apply extract_number_of_int|].
  rewrite clean_cell_spec. now rewrite extract_number_of_int.
Qed.

(** X4: the first number of a text.  For a text made of a part without
    digit, a run of digits that may hold commas, and a rest that does
    not go on with a digit or a comma followed by a digit,
    [extract_number] returns the number the run writes once its commas
    are removed; a comma anywhere in a text changes nothing. *)
Theorem extract_number_reads_the_first_number
        {num : Type} `{Numeric num} (pre body post : string) :
  PyStr.search_digits pre = None ->
  PyStr.all_digits (PyStr.remove_commas body) = true ->
  PyStr.remove_commas body <> EmptyString ->
  PyStr.take_digits (PyStr.remove_commas post) = EmptyString ->
  Malaria.extract_number (@Str num (pre ++ body ++ post))
  = PyStr.int_of_digits (PyStr.remove_commas body)
  /\ forall a b : string,
       Malaria.extract_number (@Str num (a ++ "," ++ b))
       = Malaria.extract_number (@Str num (a ++ b)).
Proof.
  intros Hpre Hd Hne Hpost. split.
  - unfold Malaria.extract_number. simpl.
    rewrite !remove_commas_app.
    rewrite (search_digits_app _ _ _ (search_digits_remove_commas _ Hpre) Hd Hne Hpost).
    reflexivity.
  - intros a b. unfold Malaria.extract_number. simpl.
    now rewrite !remove_commas_app.
Qed.

Lemma extract_number_first_number_witness :
  Malaria.extract_number (@Str Z ("about " ++ "12,345" ++ " [9000-15000]"))
  = PyStr.int_of_digits (PyStr.remove_commas "12,345")
  /\ forall a b : string,
       Malaria.extract_number (@Str Z (a ++ "," ++ b))
       = Malaria.extract_number (@Str Z (a ++ b)).
Proof.
  refine (@extract_number_reads_the_first_number Z _ "about " "12,345" " [9000-15000]"
            _ _ _ _).
  - reflexivity.
  - reflexivity.
  - discriminate.
  - reflexivity.
Defined.

Lemma lstrip_no_digit (t : string) :
  PyStr.search_digits t = None -> PyStr.search_digits (PyStr.lstrip t) = None.
Proof.
  induction t as [|a t IH]; simpl; auto.
  destruct (PyStr.is_digit a) eqn:Ea; [discriminate|]. intros Ht.
  destruct (PyStr.is_space a); auto. simpl. now rewrite Ea.
Qed.

Lemma rstrip_no_digit (t : string) :
  PyStr.search_digits t = None -> PyStr.search_digits (PyStr.rstrip t) = None.
Proof.
  induction t as [|a t IH]; simpl; auto.
  destruct (PyStr.is_digit a) eqn:Ea; [discriminate|]. intros Ht.
  specialize (IH Ht). destruct (PyStr.rstrip t) as [|b u].
  - destruct (PyStr.is_space a); simpl; auto. now rewrite Ea.
  - cbn [PyStr.search_digits]. now rewrite Ea.
Qed.

Lemma strip_no_digit (s : string) :
  PyStr.search_digits s = None -> PyStr.search_digits (PyStr.strip s) = None.
Proof. intros Hs. apply rstrip_no_digit, lstrip_no_digit, Hs. Qed.

(** [int(s)] refuses a text without digit. *)
Lemma py_int_no_digit (s : string) :
  PyStr.search_digits s = None -> PyStr.py_int s = None.
Proof.
  intros Hs. unfold PyStr.py_int.
  assert (Hall : forall t, PyStr.search_digits t = None -> t <> EmptyString ->
                           PyStr.all_digits t = false).
  { intros [|a t]; [congruence|]. simpl.
    destruct (PyStr.is_digit a); [discriminate|reflexivity]. }
  pose proof (strip_no_digit _ Hs) as Hstrip.
  destruct (PyStr.strip s) as [|a r] eqn:E; auto.
  pose proof Hstrip as Hstrip'. simpl in Hstrip'.
  destruct (PyStr.is_digit a) eqn:Ea; [discriminate|].
  destruct (Ascii.eqb a "-").
  { destruct r; auto. rewrite (Hall _ Hstrip'); auto. discriminate. }
  destruct (Ascii.eqb a "+").
  { destruct r; auto. rewrite (Hall _ Hstrip'); auto. discriminate. }
  rewrite (Hall _ Hstrip); auto. discriminate.
Qed.

(* ===================================================================== *)
(** * The order of the year columns *)
(* ===================================================================== *)


Section YearOrder.
Context {num : Type} `{Numeric num} `{Libs num}.

Local Abbreviation frame := (DataFrame num).

Lemma sorted_year_columns_keyed (df : frame) :
  MalariaCharts._get_sorted_year_columns df =
  match omap year_key (year_columns df) with
  | Raise e => Raise e
  | Ok keyed => Ok (map snd (stable_sort (fun a b => Z.leb (fst a) (fst b)) keyed))
  end.
Proof. reflexivity. Qed.

Lemma omap_year_key_digits (years : list string) :
  Forall (fun y => PyStr.all_digits y = true /\ y <> EmptyString) years ->
  omap year_key years = Ok (map (fun y => (PyStr.int_of_digits y, y)) years).
Proof.
  induction 1 as [|y r [Hd Hne] _ IH]; simpl; auto.
  unfold year_key at 1. unfold PyStr.strip.
  rewrite (lstrip_digits _ Hd), (rstrip_digits _ Hd), (py_int_digits _ Hd Hne).
  now rewrite IH.
Qed.

End YearOrder.

(** X5: the year columns in order.  When [_get_sorted_year_columns]
    returns, it returns the columns other than 'country' and
    'total_deaths', each once for each time it stands in the header,
    every one of them read as an integer by [int(y.strip())], in
    ascending order of these integers. *)
Theorem year_columns_are_sorted_by_number
        {num : Type} `{Numeric num} `{Libs num} (df : DataFrame num) (years : list string) :
  MalariaCharts._get_sorted_year_columns df = Ok years ->
  Permutation years (year_columns df)
  /\ exists keys,
      Forall2 (fun y k => PyStr.py_int (PyStr.strip y) = Some k) years keys
      /\ StronglySorted Z.le keys.
Proof.
  rewrite sorted_year_columns_keyed.
  destruct (omap year_key (year_columns df)) as [keyed|e] eqn:Ho; [|discriminate].
  intros Hy. injection Hy as <-.
  destruct (omap_year_key _ _ Ho) as [Hs Hk].
  set (le := fun a b : Z * string => fst a <=? fst b) in *.
  split.
  - rewrite <- Hs. apply Permutation_map. symmetry. apply stable_sort_perm.
  - exists (map fst (stable_sort le keyed)). split.
    + assert (Hall : Forall (fun ky => PyStr.py_int (PyStr.strip (snd ky)) = Some (fst ky))
                            (stable_sort le keyed)).
      { rewrite Forall_forall in *. intros ky Hin. apply Hk.
        now apply stable_sort_In in Hin. }
      induction Hall as [|ky l Hky _ IH]; simpl; constructor; auto.
    + assert (Hsorted : StronglySorted (fun a b => le a b = true) (stable_sort le keyed)).
      { apply (stable_sort_sorted _ le (fun _ => True)).
        - intros x y _ _. unfold le.
          destruct (Z.leb_spec (fst x) (fst y)); [now left|right].
          apply Z.leb_le. lia.
        - intros x y z _ _ _. unfold le. rewrite !Z.leb_le. lia.
        - apply Forall_forall. auto. }
      induction Hsorted as [|ky l _ IH Hhd]; simpl; constructor; auto.
      rewrite Forall_forall in *. intros k Hin.
      apply in_map_iff in Hin as (ky' & <- & Hin).
      apply Z.leb_le. exact (Hhd _ Hin).
Qed.

Lemma year_columns_sorted_witness :
  Permutation ["2018"; "2019"] (year_columns Samples.malaria_loaded)
  /\ exists keys,
      Forall2 (fun y k => PyStr.py_int (PyStr.strip y) = Some k) ["2018"; "2019"] keys
      /\ StronglySorted Z.le keys.
Proof.
  refine (@year_columns_are_sorted_by_number Z _ _ Samples.malaria_loaded
            ["2018"; "2019"] _).
  reflexivity.
Defined.

(** X6: a header that is no number.  When the malaria table loads, is
    not empty and one of its columns other than 'country' and
    'total_deaths' has a header without any digit, [int()] raises a
    ValueError in [_get_sorted_year_columns], and the routes global_deaths and
    top_countries of malaria_charts.py answer Flask's 500 page, having
    read the CSV and opened no figure. *)
Theorem malaria_charts_need_numeric_headers
        {num : Type} `{Numeric num} `{Libs num}
        (w : world num) (df : DataFrame num) (y : string) (req : request) :
  loaded_frame "malaria_data.csv" MalariaCharts.clean_frame w = Ok df ->
  df_empty df = false ->
  In y (year_columns df) ->
  PyStr.search_digits y = None ->
  (exists msg, MalariaCharts._get_sorted_year_columns df = Raise (Exn ValueError msg))
  /\ serve MalariaGlobalDeaths req w
     = (error_page, after_event (EvReadCsv "malaria_data.csv") w)
  /\ serve MalariaTopCountries req w
     = (error_page, after_event (EvReadCsv "malaria_data.csv") w).
Proof.
  intros Hload Hne Hin Hy.
  assert (Hraise : MalariaCharts._get_sorted_year_columns df
                   = Raise (Exn ValueError "invalid literal for int() with base 10")).
  { rewrite sorted_year_columns_keyed.
    rewrite (omap_year_key_raise _ y Hin); auto.
    apply py_int_no_digit. now apply strip_no_digit. }
  split; [eexists; exact Hraise|]. split.
  - unfold serve, dispatch. simpl. unfold MalariaCharts.global_deaths, bind.
    rewrite load_malaria_data_run, Hload, Hne. unfold lift. now rewrite Hraise.
  - unfold serve, dispatch. simpl. unfold MalariaCharts.top_countries, bind.
    rewrite load_malaria_data_run, Hload, Hne. unfold lift, MalariaCharts.top_rows.
    now rewrite Hraise.
Qed.

Lemma malaria_charts_headers_witness :
  (exists msg,
      MalariaCharts._get_sorted_year_columns noted_loaded = Raise (Exn ValueError msg))
  /\ serve MalariaGlobalDeaths (Request []) noted_disk
     = (error_page, after_event (EvReadCsv "malaria_data.csv") noted_disk)
  /\ serve MalariaTopCountries (Request []) noted_disk
     = (error_page, after_event (EvReadCsv "malaria_data.csv") noted_disk).
Proof.
  refine (@malaria_charts_need_numeric_headers Z _ _ noted_disk noted_loaded "Source"
            (Request []) _ _ _ _).
  - reflexivity.
  - reflexivity.
  - simpl. auto.
  - reflexivity.
Defined.

(** X7: two orders of the years.  malaria_charts.py sorts the year
    columns by their number, measles_charts.py sorts them as texts.
    On a frame whose columns other than 'country' are all written with
    digits only and have the same width, the two sorts return the same
    sequence. *)
Theorem year_orders_agree_on_equal_width
        {num : Type} `{Numeric num} `{Libs num} (df : DataFrame num) (width : nat) :
  (forall c, In c (columns df) -> c <> "country" -> is_year_header width c) ->
  MalariaCharts._get_sorted_year_columns df
  = Ok (MeaslesCharts.sorted_years ["country"; "total_cases"] df).
Proof.
  intros Hcols. rewrite sorted_year_columns_keyed.
  assert (Hsame : year_columns df
                  = filter (fun c => negb (existsb (String.eqb c) ["country"; "total_cases"]))
                           (columns df)).
  { unfold year_columns. apply filter_ext_in. intros c Hc. simpl.
    destruct (String.eqb c "country") eqn:Ec; simpl; auto.
    apply String.eqb_neq in Ec. destruct (Hcols c Hc Ec) as (Hd & _ & _).
    destruct (String.eqb c "total_deaths") eqn:E1.
    { apply String.eqb_eq in E1. subst c. discriminate. }
    destruct (String.eqb c "total_cases") eqn:E2.
    { apply String.eqb_eq in E2. subst c. discriminate. }
    reflexivity. }
  assert (Hyears : forall c, In c (year_columns df) -> is_year_header width c).
  { intros c Hc. apply filter_In in Hc as [Hc Hf]. apply Hcols; auto.
    intros ->. discriminate. }
  rewrite omap_year_key_digits.
  2: { apply Forall_forall. intros c Hc. destruct (Hyears c Hc) as (Hd & _ & Hne). auto. }
  rewrite (stable_sort_keyed _ _ PyStr.int_of_digits Z.leb PyStr.leb).
  - unfold MeaslesCharts.sorted_years. rewrite <- Hsame.
    rewrite map_map. simpl. now rewrite map_id.
  - intros a b Ha Hb. destruct (Hyears a Ha) as (Hda & Hla & _).
    destruct (Hyears b Hb) as (Hdb & Hlb & _).
    symmetry. apply leb_digits; auto. congruence.
Qed.

Lemma year_orders_agree_witness :
  MalariaCharts._get_sorted_year_columns Samples.measles_loaded
  = Ok (MeaslesCharts.sorted_years ["country"; "total_cases"] Samples.measles_loaded).
Proof.
  refine (@year_orders_agree_on_equal_width Z _ _ Samples.measles_loaded 4 _).
  intros c [<-|[<-|[<-|[]]]] Hne; [congruence| |];
    (split; [reflexivity|split; [reflexivity|discriminate]]).
Defined.

(* ===================================================================== *)
(** * What each chart route computes *)
(* ===================================================================== *)

Section Runs.
Context {num : Type} `{Numeric num} `{Libs num}.

Local Abbreviation frame := (DataFrame num).

Lemma subplots_run (path : string) (w : world num) :
  plt_subplots (after_event (EvReadCsv path) w) = (Ok tt, drawing path [] w).
Proof.
  unfold plt_subplots, bind, emit, after_event, drawing. simpl.
  now rewrite <- app_assoc.
Qed.

Lemma on_current_run (path : string) (d : draw num) (f : figure num) (w : world num) :
  on_current d (drawing path f w) = (Ok tt, drawing path (f ++ [d]) w).
Proof. reflexivity. Qed.

Lemma fig_call_run (path : string) (d : draw num) (f : figure num) (w : world num) :
  fig_call d (drawing path f w) = (Ok tt, drawing path (f ++ [d]) w).
Proof. reflexivity. Qed.

Lemma plt_call_run (path : string) (d : draw num) (f : figure num) (w : world num) :
  plt_call d (drawing path f w) = (Ok tt, drawing path (f ++ [d]) w).
Proof. reflexivity. Qed.

Lemma fig_calls_run (path : string) (ds : list (draw num)) (f : figure num) (w : world num) :
  ChartsApi.fig_calls ds (drawing path f w) = (Ok tt, drawing path (f ++ ds) w).
Proof.
  revert f. induction ds as [|d r IH]; intros f; simpl.
  - now rewrite app_nil_r.
  - unfold bind, fig_call. rewrite on_current_run, IH, <- app_assoc. reflexivity.
Qed.

Lemma ax_plot_run (path : string) (ax : nat) (xs ys : list (cell num)) (label : string)
      (f : figure num) (w : world num) :
  ax_plot ax xs ys label (drawing path f w) =
  if Nat.eqb (List.length xs) (List.length ys)
  then (Ok tt, drawing path (f ++ [Plot ax xs ys label]) w)
  else (Raise (Exn ValueError "x and y must have same first dimension"), drawing path f w).
Proof. unfold ax_plot. destruct (Nat.eqb _ _); reflexivity. Qed.

Lemma ax_barh_run (path : string) (ys ws : list (cell num))
      (f : figure num) (w : world num) :
  ax_barh ys ws (drawing path f w) =
  if Nat.eqb (List.length ys) (List.length ws)
  then (Ok tt, drawing path (f ++ [Barh ys ws]) w)
  else (Raise (Exn ValueError "shape mismatch: objects cannot be broadcast to a single shape"),
        drawing path f w).
Proof. unfold ax_barh. destruct (Nat.eqb _ _); reflexivity. Qed.

Lemma hiv_send_run (path : string) (f : figure num) (w : world num) :
  ChartsApi.send_png (drawing path f w) = (Ok (png_of f), served path w).
Proof.
  unfold ChartsApi.send_png, ChartsApi.save_plot_to_bytesio,
    bind, fig_savefig, plt_close, emit, ret, drawing, served. simpl.
  now rewrite <- !app_assoc.
Qed.

Lemma malaria_send_run (path : string) (f : figure num) (w : world num) :
  MalariaCharts.send_png (drawing path f w) = (Ok (png_of f), served path w).
Proof.
  unfold MalariaCharts.send_png, MalariaCharts.save_plot_to_bytesio,
    bind, fig_savefig, plt_close, emit, ret, drawing, served. simpl.
  now rewrite <- !app_assoc.
Qed.

Lemma measles_send_run (path : string) (f : figure num) (w : world num) :
  MeaslesCharts.send_png (drawing path f w) = (Ok (png_of f), served path w).
Proof.
  unfold MeaslesCharts.send_png, MeaslesCharts.save_plot_to_bytesio,
    bind, fig_savefig, plt_close, emit, ret, drawing, served. simpl.
  now rewrite <- !app_assoc.
Qed.

(** ** charts_api.py *)

Lemma series_chart_run
      (agg : string -> string -> frame -> outcome (list (cell num * cell num)))
      (col title ylabel : string) (fmt : list (draw num)) (w : world num) :
  ChartsApi.series_chart agg col title ylabel fmt w =
  match loaded_frame "aids.csv" ChartsApi.clean_frame w with
  | Raise e => hiv_load_failed e w
  | Ok df =>
      match agg "Year" col df with
      | Raise e => (Raise e, drawing "aids.csv" [] w)
      | Ok s =>
          (Ok (png_of (Plot 0 (map fst s) (map snd s) EmptyString
                         :: [SetTitle title; SetXLabel "Year"; SetYLabel ylabel; Grid]
                         ++ fmt ++ [AutofmtXDate])),
           served "aids.csv" w)
      end
  end.
Proof.
  unfold ChartsApi.series_chart. unfold bind at 1. rewrite load_data_run.
  destruct (loaded_frame "aids.csv" ChartsApi.clean_frame w) as [df|e]; [|reflexivity].
  unfold bind at 1. rewrite subplots_run.
  unfold bind at 1, lift. destruct (agg "Year" col df) as [s|e]; [|reflexivity].
  unfold bind at 1. rewrite ax_plot_run, !length_map, Nat.eqb_refl.
  unfold bind at 1. rewrite fig_calls_run.
  apply hiv_send_run.
Qed.

Lemma two_series_chart_run
      (agg : string -> string -> frame -> outcome (list (cell num * cell num)))
      (col1 label1 col2 label2 title ylabel : string) (fmt : list (draw num))
      (w : world num) :
  ChartsApi.two_series_chart agg col1 label1 col2 label2 title ylabel fmt w =
  match loaded_frame "aids.csv" ChartsApi.clean_frame w with
  | Raise e => hiv_load_failed e w
  | Ok df =>
      match agg "Year" col1 df with
      | Raise e => (Raise e, drawing "aids.csv" [] w)
      | Ok s1 =>
          match agg "Year" col2 df with
          | Raise e => (Raise e, drawing "aids.csv" [] w)
          | Ok s2 =>
              (Ok (png_of (Plot 0 (map fst s1) (map snd s1) label1
                             :: Plot 0 (map fst s2) (map snd s2) label2
                             :: [SetTitle title; SetXLabel "Year"; SetYLabel ylabel;
                                 Legend; Grid]
                             ++ fmt ++ [AutofmtXDate])),
               served "aids.csv" w)
          end
      end
  end.
Proof.
  unfold ChartsApi.two_series_chart. unfold bind at 1. rewrite load_data_run.
  destruct (loaded_frame "aids.csv" ChartsApi.clean_frame w) as [df|e]; [|reflexivity].
  unfold bind at 1. rewrite subplots_run.
  unfold bind at 1, lift. destruct (agg "Year" col1 df) as [s1|e]; [|reflexivity].
  unfold bind at 1. destruct (agg "Year" col2 df) as [s2|e]; [|reflexivity].
  unfold bind at 1. rewrite ax_plot_run, !length_map, Nat.eqb_refl.
  unfold bind at 1. rewrite ax_plot_run, !length_map, Nat.eqb_refl.
  unfold bind at 1. rewrite fig_calls_run.
  apply hiv_send_run.
Qed.

Lemma top_chart_run (col xlabel title : string) (fmt : draw num) (w : world num) :
  ChartsApi.top_chart col xlabel title fmt w =
  match loaded_frame "aids.csv" ChartsApi.clean_frame w with
  | Raise e => hiv_load_failed e w
  | Ok df =>
      match ChartsApi.latest_rows df with
      | Raise e => (Raise e, after_event (EvReadCsv "aids.csv") w)
      | Ok latest =>
          match ChartsApi.top_10_of col (snd latest) with
          | Raise e => (Raise e, after_event (EvReadCsv "aids.csv") w)
          | Ok top_10 =>
              match get_column top_10 "Country" with
              | Raise e => (Raise e, drawing "aids.csv" [] w)
              | Ok countries =>
                  match get_column top_10 col with
                  | Raise e => (Raise e, drawing "aids.csv" [] w)
                  | Ok values =>
                      (Ok (png_of
                             [Barh countries values; SetXLabel xlabel;
                              SetTitle (title ++ " (" ++ py_str (fst latest) ++ ")")%string;
                              fmt; TightLayout]),
                       served "aids.csv" w)
                  end
              end
          end
      end
  end.
Proof.
  unfold ChartsApi.top_chart. unfold bind at 1. rewrite load_data_run.
  destruct (loaded_frame "aids.csv" ChartsApi.clean_frame w) as [df|e]; [|reflexivity].
  unfold bind at 1, lift. destruct (ChartsApi.latest_rows df) as [latest|e]; [|reflexivity].
  unfold bind at 1.
  destruct (ChartsApi.top_10_of col (snd latest)) as [top_10|e]; [|reflexivity].
  unfold bind at 1. rewrite subplots_run.
  unfold bind at 1.
  destruct (get_column top_10 "Country") as [countries|e] eqn:Hc; [|reflexivity].
  unfold bind at 1. destruct (get_column top_10 col) as [values|e] eqn:Hv; [|reflexivity].
  unfold bind at 1. rewrite ax_barh_run.
  rewrite (get_column_length _ _ _ Hc), (get_column_length _ _ _ Hv), Nat.eqb_refl.
  unfold bind at 1. rewrite fig_calls_run.
  apply hiv_send_run.
Qed.

End Runs.

Section MalariaRuns.
Context {num : Type} `{Numeric num} `{Libs num}.

Local Abbreviation frame := (DataFrame num).

Lemma sum_axis0_length (names : list string) (df : frame) (totals : list (cell num)) :
  sum_axis0 names df = Ok totals -> List.length totals = List.length names.
Proof.
  unfold sum_axis0. destruct (select_columns df names); [|discriminate].
  intros Ho. rewrite (omap_length _ _ _ Ho). apply length_seq.
Qed.

Lemma malaria_global_deaths_run (w : world num) :
  MalariaCharts.global_deaths w =
  match loaded_frame "malaria_data.csv" MalariaCharts.clean_frame w with
  | Raise e => malaria_load_failed e w
  | Ok df =>
      if df_empty df
      then (Ok MalariaCharts.load_failed, after_event (EvReadCsv "malaria_data.csv") w)
      else
        match MalariaCharts._get_sorted_year_columns df with
        | Raise e => (Raise e, after_event (EvReadCsv "malaria_data.csv") w)
        | Ok years_sorted =>
            match sum_axis0 years_sorted df with
            | Raise e => (Raise e, after_event (EvReadCsv "malaria_data.csv") w)
            | Ok totals =>
                (Ok (png_of [Plot 0 (map Str years_sorted) totals EmptyString;
                             SetTitle "Global Malaria Deaths Over Time";
                             SetXLabel "Year"; SetYLabel "Number of Deaths";
                             Grid; AutofmtXDate]),
                 served "malaria_data.csv" w)
            end
        end
  end.
Proof.
  unfold MalariaCharts.global_deaths. unfold bind at 1. rewrite load_malaria_data_run.
  destruct (loaded_frame _ _ w) as [df|e]; [|reflexivity].
  destruct (df_empty df); [reflexivity|].
  unfold bind at 1, lift.
  destruct (MalariaCharts._get_sorted_year_columns df) as [years|e]; [|reflexivity].
  unfold bind at 1. destruct (sum_axis0 years df) as [totals|e] eqn:Hs; [|reflexivity].
  unfold bind at 1. rewrite subplots_run.
  unfold bind at 1. rewrite ax_plot_run, length_map, (sum_axis0_length _ _ _ Hs), Nat.eqb_refl.
  repeat (unfold bind at 1; rewrite fig_call_run).
  apply malaria_send_run.
Qed.

Lemma measles_global_cases_run (w : world num) :
  MeaslesCharts.global_cases w =
  match loaded_frame "data.csv" MeaslesCharts.clean_frame w with
  | Raise e => measles_load_failed e w
  | Ok df =>
      if df_empty df
      then (Ok MeaslesCharts.load_failed, after_event (EvReadCsv "data.csv") w)
      else
        let years := MeaslesCharts.sorted_years ["country"] df in
        match sum_axis0 years df with
        | Raise e => (Raise e, after_event (EvReadCsv "data.csv") w)
        | Ok totals =>
            (Ok (png_of [Plot 0 (map Str years) totals EmptyString;
                         SetTitle "Global Measles Cases Over Time";
                         SetXLabel "Year"; SetYLabel "Number of Cases";
                         Grid; AutofmtXDate]),
             served "data.csv" w)
        end
  end.
Proof.
  unfold MeaslesCharts.global_cases. unfold bind at 1. rewrite load_measles_data_run.
  destruct (loaded_frame _ _ w) as [df|e]; [|reflexivity].
  destruct (df_empty df); [reflexivity|]. cbv zeta.
  unfold bind at 1, lift.
  destruct (sum_axis0 _ df) as [totals|e] eqn:Hs; [|reflexivity].
  unfold bind at 1. rewrite subplots_run.
  unfold bind at 1. rewrite ax_plot_run, length_map, (sum_axis0_length _ _ _ Hs), Nat.eqb_refl.
  repeat (unfold bind at 1; rewrite fig_call_run).
  apply measles_send_run.
Qed.

Lemma malaria_top_countries_run (w : world num) :
  MalariaCharts.top_countries w =
  match loaded_frame "malaria_data.csv" MalariaCharts.clean_frame w with
  | Raise e => malaria_load_failed e w
  | Ok df =>
      if df_empty df
      then (Ok MalariaCharts.load_failed, after_event (EvReadCsv "malaria_data.csv") w)
      else
        match MalariaCharts.top_rows df with
        | Raise e => (Raise e, after_event (EvReadCsv "malaria_data.csv") w)
        | Ok top =>
            match get_column top "country" with
            | Raise e => (Raise e, drawing "malaria_data.csv" [] w)
            | Ok countries =>
                match get_column top "total_deaths" with
                | Raise e => (Raise e, drawing "malaria_data.csv" [] w)
                | Ok totals =>
                    (Ok (png_of
                           [Barh countries totals;
                            SetTitle "Top 10 Countries by Total Malaria Deaths (All Years)";
                            SetXLabel "Total Deaths"; SetYLabel "Country";
                            InvertYAxis; TightLayout]),
                     served "malaria_data.csv" w)
                end
            end
        end
  end.
Proof.
  unfold MalariaCharts.top_countries. unfold bind at 1. rewrite load_malaria_data_run.
  destruct (loaded_frame _ _ w) as [df|e]; [|reflexivity].
  destruct (df_empty df); [reflexivity|].
  unfold bind at 1, lift.
  destruct (MalariaCharts.top_rows df) as [top|e]; [|reflexivity].
  unfold bind at 1. rewrite subplots_run.
  unfold bind at 1. destruct (get_column top "country") as [c|e] eqn:Hc; [|reflexivity].
  unfold bind at 1. destruct (get_column top "total_deaths") as [t|e] eqn:Ht; [|reflexivity].
  unfold bind at 1. rewrite ax_barh_run.
  rewrite (get_column_length _ _ _ Hc), (get_column_length _ _ _ Ht), Nat.eqb_refl.
  repeat (unfold bind at 1; first [rewrite fig_call_run|rewrite plt_call_run]).
  apply malaria_send_run.
Qed.

Lemma measles_top_countries_run (w : world num) :
  MeaslesCharts.top_countries w =
  match loaded_frame "data.csv" MeaslesCharts.clean_frame w with
  | Raise e => measles_load_failed e w
  | Ok df =>
      if df_empty df
      then (Ok MeaslesCharts.load_failed, after_event (EvReadCsv "data.csv") w)
      else
        match MeaslesCharts.top_rows df with
        | Raise e => (Raise e, after_event (EvReadCsv "data.csv") w)
        | Ok top =>
            match get_column top "country" with
            | Raise e => (Raise e, drawing "data.csv" [] w)
            | Ok countries =>
                match get_column top "total_cases" with
                | Raise e => (Raise e, drawing "data.csv" [] w)
                | Ok totals =>
                    (Ok (png_of
                           [Barh countries totals;
                            SetTitle "Top 10 Countries by Total Measles Cases (All Years)";
                            SetXLabel "Total Cases"; SetYLabel "Country";
                            InvertYAxis; TightLayout]),
                     served "data.csv" w)
                end
            end
        end
  end.
Proof.
  unfold MeaslesCharts.top_countries. unfold bind at 1. rewrite load_measles_data_run.
  destruct (loaded_frame _ _ w) as [df|e]; [|reflexivity].
  destruct (df_empty df); [reflexivity|].
  unfold bind at 1, lift.
  destruct (MeaslesCharts.top_rows df) as [top|e]; [|reflexivity].
  unfold bind at 1. rewrite subplots_run.
  unfold bind at 1. destruct (get_column top "country") as [c|e] eqn:Hc; [|reflexivity].
  unfold bind at 1. destruct (get_column top "total_cases") as [t|e] eqn:Ht; [|reflexivity].
  unfold bind at 1. rewrite ax_barh_run.
  rewrite (get_column_length _ _ _ Hc), (get_column_length _ _ _ Ht), Nat.eqb_refl.
  repeat (unfold bind at 1; first [rewrite fig_call_run|rewrite plt_call_run]).
  apply measles_send_run.
Qed.

End MalariaRuns.

Section ProfileRuns.
Context {num : Type} `{Numeric num} `{Libs num}.

Local Abbreviation frame := (DataFrame num).
Local Abbreviation row := (list (cell num)).

Lemma malaria_plot_rows_step (path : string) (cols years : list string) (r : row)
      (rest : list row) (f : figure num) (w : world num) :
  MalariaCharts.plot_rows cols years (r :: rest) (drawing path f w) =
  match row_plot cols years r with
  | Ok plot => MalariaCharts.plot_rows cols years rest (drawing path (f ++ [plot]) w)
  | Raise e => (Raise e, drawing path f w)
  end.
Proof.
  simpl. unfold row_plot, bind, lift.
  destruct (row_values cols ["country"] r) as [country|e]; [|reflexivity].
  destruct (row_values cols years r) as [values|e]; [|reflexivity].
  rewrite ax_plot_run. destruct (Nat.eqb _ _); reflexivity.
Qed.

Lemma malaria_plot_rows_run (path : string) (cols years : list string) (rs : list row)
      (f : figure num) (w : world num) :
  match omap (row_plot cols years) rs with
  | Ok plots =>
      MalariaCharts.plot_rows cols years rs (drawing path f w)
      = (Ok tt, drawing path (f ++ plots) w)
  | Raise e => fst (MalariaCharts.plot_rows cols years rs (drawing path f w)) = Raise e
  end.
Proof.
  revert f. induction rs as [|r rest IH]; intros f.
  - simpl. now rewrite app_nil_r.
  - rewrite malaria_plot_rows_step. cbn [omap].
    destruct (row_plot cols years r) as [plot|e]; [|reflexivity].
    specialize (IH (f ++ [plot])).
    destruct (omap (row_plot cols years) rest) as [plots|e].
    + rewrite IH, <- app_assoc. reflexivity.
    + exact IH.
Qed.

Lemma measles_plot_rows_step (path : string) (cols years : list string) (r : row)
      (rest : list row) (f : figure num) (w : world num) :
  MeaslesCharts.plot_rows cols years (r :: rest) (drawing path f w) =
  match row_plot cols years r with
  | Ok plot => MeaslesCharts.plot_rows cols years rest (drawing path (f ++ [plot]) w)
  | Raise e => (Raise e, drawing path f w)
  end.
Proof.
  simpl. unfold row_plot, bind, lift.
  destruct (row_values cols ["country"] r) as [country|e]; [|reflexivity].
  destruct (row_values cols years r) as [values|e]; [|reflexivity].
  rewrite ax_plot_run. destruct (Nat.eqb _ _); reflexivity.
Qed.

Lemma measles_plot_rows_run (path : string) (cols years : list string) (rs : list row)
      (f : figure num) (w : world num) :
  match omap (row_plot cols years) rs with
  | Ok plots =>
      MeaslesCharts.plot_rows cols years rs (drawing path f w)
      = (Ok tt, drawing path (f ++ plots) w)
  | Raise e => fst (MeaslesCharts.plot_rows cols years rs (drawing path f w)) = Raise e
  end.
Proof.
  revert f. induction rs as [|r rest IH]; intros f.
  - simpl. now rewrite app_nil_r.
  - rewrite measles_plot_rows_step. cbn [omap].
    destruct (row_plot cols years r) as [plot|e]; [|reflexivity].
    specialize (IH (f ++ [plot])).
    destruct (omap (row_plot cols years) rest) as [plots|e].
    + rewrite IH, <- app_assoc. reflexivity.
    + exact IH.
Qed.

(** The outcome of [compare_countries] in malaria_charts.py. *)
Lemma malaria_compare_run (req : request) (w : world num) :
  fst (MalariaCharts.compare_countries req w) =
  let missing :=
    with_status (jsonify (error_json
      ("At least one country name is required in the " ++ PyStr.dquote ++ "countries"
         ++ PyStr.dquote ++ " parameter (comma-separated).")%string)) 400 in
  match args_get req "countries" with
  | None => Ok missing
  | Some countries_param =>
      if PyStr.is_empty countries_param then Ok missing
      else
        match MalariaCharts.country_names_of countries_param with
        | [] => Ok (with_status (jsonify (error_json "No valid country names provided.")) 400)
        | country_names =>
            match loaded_frame "malaria_data.csv" MalariaCharts.clean_frame w with
            | Raise _ => Ok MalariaCharts.load_failed
            | Ok df =>
                if df_empty df then Ok MalariaCharts.load_failed
                else
                  match MalariaCharts.isin_rows country_names df with
                  | Raise e => Raise e
                  | Ok selected_df =>
                      if df_empty selected_df then
                        Ok (with_status
                              (jsonify (error_json
                                 ("None of the specified countries ("
                                    ++ PyStr.join country_names
                                    ++ ") were found or have data.")%string)) 404)
                      else
                        match MalariaCharts._get_sorted_year_columns df with
                        | Raise e => Raise e
                        | Ok years_sorted =>
                            match omap (row_plot (columns selected_df) years_sorted)
                                       (rows selected_df) with
                            | Raise e => Raise e
                            | Ok plots =>
                                Ok (png_of
                                      (plots ++
                                       [SetTitle "Malaria Deaths Over Time for Selected Countries";
                                        SetXLabel "Year"; SetYLabel "Number of Deaths";
                                        Grid; Legend; AutofmtXDate; TightLayout]))
                            end
                        end
                  end
            end
        end
  end.
Proof.
  unfold MalariaCharts.compare_countries. cbv zeta.
  destruct (args_get req "countries") as [p|]; [|reflexivity].
  destruct (PyStr.is_empty p); [reflexivity|].
  destruct (MalariaCharts.country_names_of p) as [|n ns]; [reflexivity|].
  unfold bind at 1. rewrite load_malaria_data_run.
  destruct (loaded_frame _ _ w) as [df|e]; [|reflexivity].
  destruct (df_empty df); [reflexivity|].
  unfold bind at 1, lift.
  destruct (MalariaCharts.isin_rows (n :: ns) df) as [sel|e]; [|reflexivity].
  destruct (df_empty sel); [reflexivity|].
  unfold bind at 1.
  destruct (MalariaCharts._get_sorted_year_columns df) as [years|e]; [|reflexivity].
  unfold bind at 1. rewrite subplots_run.
  unfold bind at 1.
  pose proof (malaria_plot_rows_run "malaria_data.csv" (columns sel) years (rows sel) [] w)
    as Hp.
  destruct (omap (row_plot (columns sel) years) (rows sel)) as [plots|e].
  - rewrite Hp.
    repeat (unfold bind at 1; first [rewrite fig_call_run|rewrite plt_call_run]).
    rewrite malaria_send_run. simpl. now rewrite <- !app_assoc.
  - destruct (MalariaCharts.plot_rows _ _ _ _) as [[u|e'] w']; simpl in *;
      [discriminate|congruence].
Qed.

(** The outcome of [compare_countries] in measles_charts.py. *)
Lemma measles_compare_run (req : request) (w : world num) :
  fst (MeaslesCharts.compare_countries req w) =
  let missing :=
    with_status (jsonify (error_json
      ("At least one country name is required in the " ++ PyStr.dquote ++ "countries"
         ++ PyStr.dquote ++ " parameter (comma-separated).")%string)) 400 in
  match args_get req "countries" with
  | None => Ok missing
  | Some countries_param =>
      if PyStr.is_empty countries_param then Ok missing
      else
        match MeaslesCharts.country_names_of countries_param with
        | [] => Ok (with_status (jsonify (error_json "No valid country names provided.")) 400)
        | country_names =>
            match loaded_frame "data.csv" MeaslesCharts.clean_frame w with
            | Raise _ => Ok MeaslesCharts.load_failed
            | Ok df =>
                if df_empty df then Ok MeaslesCharts.load_failed
                else
                  match MeaslesCharts.isin_rows country_names df with
                  | Raise e => Raise e
                  | Ok selected_df =>
                      if df_empty selected_df then
                        Ok (with_status
                              (jsonify (error_json
                                 ("None of the specified countries ("
                                    ++ PyStr.join country_names
                                    ++ ") were found.")%string)) 404)
                      else
                        let years :=
                          MeaslesCharts.sorted_years ["country"; "total_cases"] df in
                        match omap (row_plot (columns selected_df) years)
                                   (rows selected_df) with
                        | Raise e => Raise e
                        | Ok plots =>
                            Ok (png_of
                                  (plots ++
                                   [SetTitle "Measles Cases Over Time for Selected Countries";
                                    SetXLabel "Year"; SetYLabel "Number of Cases";
                                    Grid; Legend; AutofmtXDate; TightLayout]))
                        end
                  end
            end
        end
  end.
Proof.
  unfold MeaslesCharts.compare_countries. cbv zeta.
  destruct (args_get req "countries") as [p|]; [|reflexivity].
  destruct (PyStr.is_empty p); [reflexivity|].
  destruct (MeaslesCharts.country_names_of p) as [|n ns]; [reflexivity|].
  unfold bind at 1. rewrite load_measles_data_run.
  destruct (loaded_frame _ _ w) as [df|e]; [|reflexivity].
  destruct (df_empty df); [reflexivity|].
  unfold bind at 1, lift.
  destruct (MeaslesCharts.isin_rows (n :: ns) df) as [sel|e]; [|reflexivity].
  destruct (df_empty sel); [reflexivity|].
  unfold bind at 1. rewrite subplots_run.
  unfold bind at 1.
  pose proof (measles_plot_rows_run "data.csv" (columns sel)
                (MeaslesCharts.sorted_years ["country"; "total_cases"] df) (rows sel) [] w)
    as Hp.
  destruct (omap (row_plot (columns sel) _) (rows sel)) as [plots|e].
  - rewrite Hp.
    repeat (unfold bind at 1; first [rewrite fig_call_run|rewrite plt_call_run]).
    rewrite measles_send_run. simpl. now rewrite <- !app_assoc.
  - destruct (MeaslesCharts.plot_rows _ _ _ _) as [[u|e'] w']; simpl in *;
      [discriminate|congruence].
Qed.

End ProfileRuns.

Section CountryProfileRuns.
Context {num : Type} `{Numeric num} `{Libs num}.

Local Abbreviation frame := (DataFrame num).
Local Abbreviation row := (list (cell num)).

(** The outcome of [country_profile] in charts_api.py. *)
Lemma hiv_profile_run (country_name : string) (w : world num) :
  fst (ChartsApi.country_profile country_name w) =
  match loaded_frame "aids.csv" ChartsApi.clean_frame w with
  | Raise _ => Ok ChartsApi.not_found
  | Ok df =>
      match ChartsApi.lookup_country country_name df with
      | Raise e => Raise e
      | Ok country_data =>
          if df_empty country_data then
            Ok (with_status
                  (jsonify (error_json
                     ("Data for country '" ++ country_name ++ "' not found.")%string)) 404)
          else
            match get_column country_data "Year" with
            | Raise e => Raise e
            | Ok years =>
                match get_column country_data "Data.AIDS-Related Deaths.All Ages" with
                | Raise e => Raise e
                | Ok deaths =>
                    match get_column country_data "Data.New HIV Infections.All Ages" with
                    | Raise e => Raise e
                    | Ok infections =>
                        match get_column country_data
                                         "Data.People Living with HIV.Total" with
                        | Raise e => Raise e
                        | Ok plhiv =>
                            Ok (png_of
                                  [Plot 0 years deaths "AIDS-Related Deaths";
                                   SetXLabel "Year";
                                   SetYLabel "Number of Deaths / New Infections";
                                   TickParams 0; TickPlain 0; Twinx;
                                   Plot 1 years infections "New HIV Infections";
                                   TickParams 1; TickPlain 1; Twinx; SpineOutward;
                                   Plot 2 years plhiv "People Living with HIV";
                                   TickParams 2; TickPlain 2;
                                   Suptitle ("Key AIDS Indicators for " ++ country_name
                                               ++ " Over Time")%string;
                                   Grid; AutofmtXDate; Legend; TightLayout])
                        end
                    end
                end
            end
      end
  end.
Proof.
  unfold ChartsApi.country_profile. unfold bind at 1. rewrite load_data_run.
  destruct (loaded_frame _ _ w) as [df|e]; [|reflexivity].
  unfold bind at 1, lift.
  destruct (ChartsApi.lookup_country country_name df) as [cd|e]; [|reflexivity].
  destruct (df_empty cd); [reflexivity|].
  unfold bind at 1. rewrite subplots_run.
  destruct (get_column cd "Year") as [years|e] eqn:Hy; [|reflexivity].
  unfold bind at 1.
  destruct (get_column cd "Data.AIDS-Related Deaths.All Ages") as [deaths|e] eqn:Hd;
    [|reflexivity].
  unfold bind at 1, bind at 1. rewrite ax_plot_run.
  rewrite (get_column_length _ _ _ Hy), (get_column_length _ _ _ Hd), Nat.eqb_refl.
  unfold bind at 1. rewrite fig_calls_run.
  unfold bind at 1.
  destruct (get_column cd "Data.New HIV Infections.All Ages") as [inf|e] eqn:Hi;
    [|reflexivity].
  unfold bind at 1, bind at 1. rewrite ax_plot_run.
  rewrite (get_column_length _ _ _ Hy), (get_column_length _ _ _ Hi), Nat.eqb_refl.
  unfold bind at 1. rewrite fig_calls_run.
  unfold bind at 1.
  destruct (get_column cd "Data.People Living with HIV.Total") as [pl|e] eqn:Hp;
    [|reflexivity].
  unfold bind at 1, bind at 1. rewrite ax_plot_run.
  rewrite (get_column_length _ _ _ Hy), (get_column_length _ _ _ Hp), Nat.eqb_refl.
  unfold bind at 1. rewrite fig_calls_run.
  rewrite hiv_send_run. reflexivity.
Qed.

(** The outcome of [country_profile] in malaria_charts.py. *)
Lemma malaria_profile_run (req : request) (w : world num) :
  fst (MalariaCharts.country_profile req w) =
  let required :=
    with_status (jsonify (error_json "Country parameter is required")) 400 in
  match args_get req "country" with
  | None => Ok required
  | Some name =>
      if PyStr.is_empty name then Ok required
      else
        match loaded_frame "malaria_data.csv" MalariaCharts.clean_frame w with
        | Raise _ => Ok MalariaCharts.load_failed
        | Ok df =>
            if df_empty df then Ok MalariaCharts.load_failed
            else
              match MalariaCharts.find_rows name df with
              | Raise e => Raise e
              | Ok found =>
                  if df_empty found then
                    Ok (with_status
                          (jsonify (error_json
                             ("Country " ++ PyStr.dquote ++ name ++ PyStr.dquote
                                ++ " not found")%string)) 404)
                  else
                    let first := hd [] (rows found) in
                    match MalariaCharts._get_sorted_year_columns df with
                    | Raise e => Raise e
                    | Ok years_sorted =>
                        match row_values (columns found) years_sorted first with
                        | Raise e => Raise e
                        | Ok deaths =>
                            if Nat.eqb (List.length (map (@Str num) years_sorted))
                                       (List.length deaths)
                            then
                              match row_values (columns found) ["country"] first with
                              | Raise e => Raise e
                              | Ok country =>
                                  Ok (png_of
                                        [Plot 0 (map Str years_sorted) deaths EmptyString;
                                         SetTitle ("Malaria Deaths in "
                                                     ++ py_str (hd NaN country)
                                                     ++ " Over Time")%string;
                                         SetXLabel "Year"; SetYLabel "Number of Deaths";
                                         Grid; AutofmtXDate])
                              end
                            else Raise (Exn ValueError
                                            "x and y must have same first dimension")
                        end
                    end
              end
        end
  end.
Proof.
  unfold MalariaCharts.country_profile. cbv zeta.
  destruct (args_get req "country") as [name|]; [|reflexivity].
  destruct (PyStr.is_empty name); [reflexivity|].
  unfold bind at 1. rewrite load_malaria_data_run.
  destruct (loaded_frame _ _ w) as [df|e]; [|reflexivity].
  destruct (df_empty df); [reflexivity|].
  unfold bind at 1, lift.
  destruct (MalariaCharts.find_rows name df) as [found|e]; [|reflexivity].
  destruct (df_empty found); [reflexivity|].
  unfold bind at 1.
  destruct (MalariaCharts._get_sorted_year_columns df) as [years|e]; [|reflexivity].
  unfold bind at 1.
  destruct (row_values (columns found) years (hd [] (rows found))) as [deaths|e];
    [|reflexivity].
  unfold bind at 1. rewrite subplots_run.
  unfold bind at 1. rewrite ax_plot_run.
  destruct (Nat.eqb _ _); [|reflexivity].
  unfold bind at 1.
  destruct (row_values (columns found) ["country"] (hd [] (rows found))) as [country|e];
    [|reflexivity].
  repeat (unfold bind at 1; rewrite fig_call_run).
  rewrite malaria_send_run. reflexivity.
Qed.

(** The outcome of [country_profile] in measles_charts.py. *)
Lemma measles_profile_run (req : request) (w : world num) :
  fst (MeaslesCharts.country_profile req w) =
  let required :=
    with_status (jsonify (error_json "Country parameter is required")) 400 in
  match args_get req "country" with
  | None => Ok required
  | Some country =>
      if PyStr.is_empty country then Ok required
      else
        match loaded_frame "data.csv" MeaslesCharts.clean_frame w with
        | Raise _ => Ok MeaslesCharts.load_failed
        | Ok df =>
            if df_empty df then Ok MeaslesCharts.load_failed
            else
              match MeaslesCharts.contains_rows country df with
              | Raise e => Raise e
              | Ok matched =>
                  if df_empty matched then
                    Ok (with_status
                          (jsonify (error_json
                             ("Country " ++ PyStr.dquote ++ country ++ PyStr.dquote
                                ++ " not found")%string)) 404)
                  else
                    match MeaslesCharts.exact_rows country df with
                    | Raise e => Raise e
                    | Ok exact_match_row =>
                        let selected :=
                          if negb (df_empty exact_match_row) then exact_match_row
                          else matched in
                        let years :=
                          MeaslesCharts.sorted_years ["country"; "total_cases"] df in
                        match select_columns selected years with
                        | Raise e => Raise e
                        | Ok sub =>
                            let cases := List.concat (rows sub) in
                            if Nat.eqb (List.length (map (@Str num) years))
                                       (List.length cases)
                            then
                              match get_column selected "country" with
                              | Raise e => Raise e
                              | Ok names =>
                                  Ok (png_of
                                        [Plot 0 (map Str years) cases EmptyString;
                                         SetTitle ("Measles Cases in "
                                                     ++ py_str (hd NaN names)
                                                     ++ " Over Time")%string;
                                         SetXLabel "Year"; SetYLabel "Number of Cases";
                                         Grid; AutofmtXDate])
                              end
                            else Raise (Exn ValueError
                                            "x and y must have same first dimension")
                        end
                    end
              end
        end
  end.
Proof.
  unfold MeaslesCharts.country_profile. cbv zeta.
  destruct (args_get req "country") as [name|]; [|reflexivity].
  destruct (PyStr.is_empty name); [reflexivity|].
  unfold bind at 1. rewrite load_measles_data_run.
  destruct (loaded_frame _ _ w) as [df|e]; [|reflexivity].
  destruct (df_empty df); [reflexivity|].
  unfold bind at 1, lift.
  destruct (MeaslesCharts.contains_rows name df) as [matched|e]; [|reflexivity].
  destruct (df_empty matched); [reflexivity|].
  unfold bind at 1.
  destruct (MeaslesCharts.exact_rows name df) as [exact|e]; [|reflexivity].
  unfold bind at 1.
  destruct (select_columns _ _) as [sub|e]; [|reflexivity].
  unfold bind at 1. rewrite subplots_run.
  unfold bind at 1. rewrite ax_plot_run.
  destruct (Nat.eqb _ _); [|reflexivity].
  unfold bind at 1.
  destruct (get_column _ "country") as [names|e]; [|reflexivity].
  repeat (unfold bind at 1; rewrite fig_call_run).
  rewrite measles_send_run. reflexivity.
Qed.

End CountryProfileRuns.

(* ===================================================================== *)
(** * The yearly series of charts_api.py *)
(* ===================================================================== *)


Lemma string_leb_trans (a b c : string) :
  String.leb a b = true -> String.leb b c = true -> String.leb a c = true.
Proof.
  unfold String.leb.
  revert b c. induction a as [|x a IH]; intros [|y b] [|z c]; simpl; auto;
    try discriminate.
  unfold Ascii.compare.
  destruct (N.compare_spec (N_of_ascii x) (N_of_ascii y)) as [E1|E1|E1];
    destruct (N.compare_spec (N_of_ascii y) (N_of_ascii z)) as [E2|E2|E2];
    destruct (N.compare_spec (N_of_ascii x) (N_of_ascii z)) as [E3|E3|E3];
    try lia; auto; try discriminate.
  apply IH.
Qed.

Section SeriesFacts.
Context {num : Type} {N : Numeric num} {O : NumericOrder num}.

Local Abbreviation frame := (DataFrame num).
Local Abbreviation row := (list (cell num)).

Lemma cell_leb_total (a b : cell num) :
  cell_leb a b = true \/ cell_leb b a = true.
Proof.
  destruct a, b; simpl; auto.
  - apply num_leb_total.
  - apply String.leb_total.
Qed.

Lemma cell_leb_trans (a b c : cell num) :
  cell_leb a b = true -> cell_leb b c = true -> cell_leb a c = true.
Proof.
  destruct a, b, c; simpl; auto; try discriminate.
  - apply num_leb_trans.
  - apply string_leb_trans.
Qed.

(** The keys of [groupby] come in ascending order. *)
Lemma groupby_sorted (name : string) (df : frame) (groups : list (cell num * frame)) :
  groupby name df = Ok groups ->
  StronglySorted (fun a b => cell_leb a b = true) (map fst groups).
Proof.
  unfold groupby. destruct (index_of name (columns df)) as [i|]; [|discriminate].
  intros Hg. injection Hg as <-. rewrite map_map. simpl. rewrite map_id.
  apply (stable_sort_sorted _ cell_leb (fun _ => True)).
  - intros x y _ _. apply cell_leb_total.
  - intros x y z _ _ _. apply cell_leb_trans.
  - apply Forall_forall. auto.
Qed.

Lemma omap_Forall2 {A B} (f : A -> outcome B) (l : list A) (l' : list B) :
  omap f l = Ok l' -> Forall2 (fun a b => f a = Ok b) l l'.
Proof.
  revert l'. induction l as [|a l IH]; simpl; intros l'.
  - intros E. injection E as <-. constructor.
  - destruct (f a) eqn:Ea; [|discriminate]. destruct (omap f l); [|discriminate].
    intros E. injection E as <-. constructor; auto.
Qed.

(** [df.groupby(key)[name].agg()]: one pair per group, the key of the
    group with the aggregate of the cells of the group under
    [name]. *)
Lemma groupby_agg_spec (agg : list (cell num) -> outcome (cell num))
      (key name : string) (df : frame) (s : list (cell num * cell num)) :
  groupby_agg agg key name df = Ok s ->
  exists groups,
    groupby key df = Ok groups
    /\ map fst s = map fst groups
    /\ Forall2 (fun g v => agg (map (cell_of (columns df) name) (snd g)) = Ok v)
               (group_rows groups) (map snd s).
Proof.
  unfold groupby_agg. destruct (groupby key df) as [groups|e] eqn:Hg; [|discriminate].
  destruct (get_column df name) as [c|e] eqn:Hc; [|discriminate].
  intros Ho. exists groups. split; [reflexivity|].
  destruct (groupby_grouped _ _ _ Hg) as [_ Hcols].
  apply omap_Forall2 in Ho. clear Hg.
  induction Ho as [|kg kv groups s Hkv _ IH]; simpl.
  - split; constructor.
  - inversion Hcols as [|? ? Hk Hrest]; subst.
    destruct (IH Hrest) as [Hfst Hsnd].
    destruct (get_column (snd kg) name) as [cg|e] eqn:Hcg; [|discriminate].
    destruct (agg cg) as [v|e] eqn:Ha; [|discriminate].
    injection Hkv as <-. simpl. split; [now rewrite Hfst|].
    constructor; auto.
    rewrite (get_column_cell_of _ _ _ Hcg), Hk in Ha. exact Ha.
Qed.

End SeriesFacts.

Section SeriesViews.
Context {num : Type} {N : Numeric num} {O : NumericOrder num} {L : Libs num}.

Lemma groupby_aggregate_spec (a : aggregate) (name : string) (df : DataFrame num)
      (s : list (cell num * cell num)) :
  groupby_aggregate a "Year" name df = Ok s ->
  exists groups,
    groupby "Year" df = Ok groups
    /\ map fst s = map fst groups
    /\ Forall2 (fun g v => aggregate_of a (map (cell_of (columns df) name) (snd g)) = Ok v)
               (group_rows groups) (map snd s).
Proof. destruct a; apply groupby_agg_spec. Qed.

(** The routes that plot yearly series are made by [series_chart] and
    [two_series_chart]. *)
Lemma series_view (ep : endpoint) (req : request) :
  match series_of ep with
  | [(a, col, label)] =>
      label = EmptyString
      /\ exists title ylabel fmt,
          view ep req = ChartsApi.series_chart (groupby_aggregate a) col title ylabel fmt
  | [(a, col1, label1); (a2, col2, label2)] =>
      a2 = a
      /\ exists title ylabel fmt,
          view ep req = ChartsApi.two_series_chart (groupby_aggregate a)
                          col1 label1 col2 label2 title ylabel fmt
  | [] => True
  | _ => False
  end.
Proof.
  destruct ep; simpl; auto;
    (split; [reflexivity|do 3 eexists; reflexivity]).
Qed.

End SeriesViews.

(** X8: the yearly series of charts_api.py.  When a route that plots
    yearly series answers 200, its answer is the rendering of a figure
    holding one line for each of its series.  The abscissas of every
    line are the years of the loaded table: each value of the 'Year'
    column once, in ascending order.  The ordinate above a year is the
    sum, or for the prevalence and incidence routes the mean, of the
    cells of the series' column in the rows of that year. *)
Theorem yearly_series_plot_one_point_per_year
        {num : Type} {N : Numeric num} {O : NumericOrder num} {L : Libs num}
        (ep : endpoint) (req : request) (w : world num) :
  series_of ep <> [] ->
  status (fst (serve ep req w)) = 200 ->
  exists df groups fig,
    loaded_frame "aids.csv" ChartsApi.clean_frame w = Ok df
    /\ groupby "Year" df = Ok groups
    /\ grouped (cell_of (columns df) "Year") (rows df) (group_rows groups)
    /\ StronglySorted (fun a b => cell_leb a b = true) (map fst groups)
    /\ fst (serve ep req w) = png_of fig
    /\ forall a col label, In (a, col, label) (series_of ep) ->
         exists values,
           In (Plot 0 (map fst groups) values label) fig
           /\ Forall2 (fun g v =>
                         aggregate_of a (map (cell_of (columns df) col) (snd g)) = Ok v)
                      (group_rows groups) values.
Proof.
  intros Hne. pose proof (series_view ep req) as Hv.
  destruct (series_of ep) as [|[[a col] label] [|[[a2 col2] label2] [|]]];
    [congruence| | |contradiction].
  - destruct Hv as (-> & title & ylabel & fmt & Hv).
    unfold serve, dispatch. rewrite Hv.
    rewrite series_chart_run.
    destruct (loaded_frame "aids.csv" ChartsApi.clean_frame w) as [df|e];
      [|simpl; discriminate].
    destruct (groupby_aggregate a "Year" col df) as [s|e] eqn:Hs; [|simpl; discriminate].
    intros _. simpl.
    destruct (groupby_aggregate_spec _ _ _ _ Hs) as (groups & Hg & Hk & Hvals).
    exists df, groups. eexists. split; [reflexivity|]. split; [exact Hg|].
    split; [apply (groupby_grouped _ _ _ Hg)|].
    split; [eapply groupby_sorted; eauto|]. split; [reflexivity|].
    intros a' col' label' [E|[]]. injection E as <- <- <-.
    exists (map snd s). split; [left; now rewrite Hk|exact Hvals].
  - destruct Hv as (-> & title & ylabel & fmt & Hv).
    unfold serve, dispatch. rewrite Hv.
    rewrite two_series_chart_run.
    destruct (loaded_frame "aids.csv" ChartsApi.clean_frame w) as [df|e];
      [|simpl; discriminate].
    destruct (groupby_aggregate a "Year" col df) as [s1|e] eqn:Hs1; [|simpl; discriminate].
    destruct (groupby_aggregate a "Year" col2 df) as [s2|e] eqn:Hs2; [|simpl; discriminate].
    intros _. simpl.
    destruct (groupby_aggregate_spec _ _ _ _ Hs1) as (groups & Hg & Hk & Hvals).
    destruct (groupby_aggregate_spec _ _ _ _ Hs2) as (groups2 & Hg2 & Hk2 & Hvals2).
    rewrite Hg in Hg2. injection Hg2 as <-.
    exists df, groups. eexists. split; [reflexivity|]. split; [exact Hg|].
    split; [apply (groupby_grouped _ _ _ Hg)|].
    split; [eapply groupby_sorted; eauto|]. split; [reflexivity|].
    intros a' col' label' [E|[E|[]]]; injection E as <- <- <-.
    + exists (map snd s1). split; [left; now rewrite Hk|exact Hvals].
    + exists (map snd s2). split; [right; left; now rewrite Hk2|exact Hvals2].
Qed.

Lemma yearly_series_witness :
  exists df groups fig,
    loaded_frame "aids.csv" ChartsApi.clean_frame Samples.sample_disk = Ok df
    /\ groupby "Year" df = Ok groups
    /\ grouped (cell_of (columns df) "Year") (rows df) (group_rows groups)
    /\ StronglySorted (fun a b => cell_leb a b = true) (map fst groups)
    /\ fst (serve InfectionsGlobal (Request []) Samples.sample_disk) = png_of fig
    /\ forall a col label, In (a, col, label) (series_of InfectionsGlobal) ->
         exists values,
           In (Plot 0 (map fst groups) values label) fig
           /\ Forall2 (fun g v =>
                         aggregate_of a (map (cell_of (columns df) col) (snd g)) = Ok v)
                      (group_rows groups) values.
Proof.
  refine (@yearly_series_plot_one_point_per_year Z _ _ _ InfectionsGlobal (Request [])
            Samples.sample_disk _ _).
  - discriminate.
  - reflexivity.
Defined.

(* ===================================================================== *)
(** * Sums over columns and rows *)
(* ===================================================================== *)


Section AxisSums.
Context {num : Type} `{Numeric num}.

Local Abbreviation frame := (DataFrame num).
Local Abbreviation row := (list (cell num)).

Lemma omap_index (cols names : list string) (idx : list nat) :
  omap (fun n => match index_of n cols with
                 | Some i => Ok i
                 | None => Raise (key_error n)
                 end) names = Ok idx ->
  Forall2 (fun n i => index_of n cols = Some i) names idx.
Proof.
  intros Ho. apply omap_Forall2 in Ho.
  induction Ho as [|n i names idx Hn _ IH]; constructor; auto.
  destruct (index_of n cols); [|discriminate]. now injection Hn as <-.
Qed.

(** [df[names]]: the named columns, each row cut to them. *)
Lemma select_columns_spec (df sub : frame) (names : list string) :
  select_columns df names = Ok sub ->
  columns sub = names
  /\ rows sub = map (fun r => map (fun n => cell_of (columns df) n r) names) (rows df)
  /\ Forall (fun n => In n (columns df)) names.
Proof.
  unfold select_columns.
  destruct (omap _ names) as [idx|e] eqn:Ho; [|discriminate].
  intros Hs. injection Hs as <-. simpl. apply omap_index in Ho.
  split; [reflexivity|]. split.
  - apply map_ext. intros r.
    induction Ho as [|n i names idx Hn _ IH]; simpl; auto.
    rewrite IH. unfold cell_of. now rewrite Hn.
  - induction Ho as [|n i names idx Hn _ IH]; constructor; auto.
    eapply index_of_Some_In; eauto.
Qed.

Lemma nth_map_cells (names : list string) (cols : list string) (r : row) (j : nat) :
  (j < List.length names)%nat ->
  row_get j (map (fun n => cell_of cols n r) names)
  = cell_of cols (nth j names EmptyString) r.
Proof.
  intros Hj. unfold row_get.
  rewrite (nth_indep _ NaN (cell_of cols EmptyString r)) by (now rewrite length_map).
  apply (map_nth (fun n => cell_of cols n r)).
Qed.

(** [df[names].sum()]: for each name the sum of its column. *)
Lemma sum_axis0_spec (names : list string) (df : frame) (totals : list (cell num)) :
  sum_axis0 names df = Ok totals ->
  Forall2 (fun n t => sum_agg (map (cell_of (columns df) n) (rows df)) = Ok t)
          names totals.
Proof.
  unfold sum_axis0. destruct (select_columns df names) as [sub|e] eqn:Hs; [|discriminate].
  destruct (select_columns_spec _ _ _ Hs) as (_ & Hrows & _).
  intros Ho. apply omap_Forall2 in Ho. rewrite Hrows in Ho. clear Hs Hrows.
  assert (Hgen : forall (l : list nat) (ts : list (cell num)),
             Forall2 (fun i b =>
                        sum_agg (map (row_get i)
                                     (map (fun r => map (fun n => cell_of (columns df) n r)
                                                        names) (rows df))) = Ok b) l ts ->
             Forall (fun i => (i < List.length names)%nat) l ->
             Forall2 (fun i t =>
                        sum_agg (map (cell_of (columns df) (nth i names EmptyString))
                                     (rows df)) = Ok t) l ts).
  { intros l ts Hf Hl. induction Hf as [|i t l ts Hi _ IH]; constructor.
    - inversion Hl; subst. rewrite map_map in Hi.
      erewrite map_ext in Hi; [exact Hi|].
      intros r. simpl. now apply nth_map_cells.
    - inversion Hl; subst. auto. }
  specialize (Hgen _ _ Ho).
  assert (Hlt : Forall (fun i => (i < List.length names)%nat) (seq 0 (List.length names))).
  { apply Forall_forall. intros i Hi. apply in_seq in Hi. lia. }
  specialize (Hgen Hlt). clear Ho Hlt.
  assert (Hseq : forall (l : list string) (ts : list (cell num)) (P : string -> cell num -> Prop),
             Forall2 (fun i t => P (nth i l EmptyString) t) (seq 0 (List.length l)) ts ->
             Forall2 P l ts).
  { intros l. induction l as [|n l IH]; intros ts P Hf; simpl in Hf.
    - inversion Hf; subst. constructor.
    - inversion Hf as [|? t ? ts' Hn Hrest]; subst. constructor; [exact Hn|].
      apply IH. rewrite <- seq_shift in Hrest.
      clear - Hrest. remember (seq 0 (List.length l)) as s eqn:E. clear E.
      revert ts' Hrest. induction s as [|i s IH]; intros ts' Hrest; simpl in Hrest.
      + inversion Hrest; subst. constructor.
      + inversion Hrest; subst. constructor; auto. }
  apply Hseq. exact Hgen.
Qed.

End AxisSums.

(** X9: the global charts.  When global_deaths of malaria_charts.py or
    global_cases of measles_charts.py answers 200, the line of its
    figure has one point per year column, in the order of
    [_get_sorted_year_columns], respectively of [years.sort()], and the
    ordinate of a year is the sum of its column over all the rows of the
    loaded table. *)
Theorem global_charts_plot_the_column_sums
        {num : Type} `{Numeric num} `{Libs num} (req : request) (w : world num) :
  (status (fst (serve MalariaGlobalDeaths req w)) = 200 ->
   exists df years totals decorations,
     loaded_frame "malaria_data.csv" MalariaCharts.clean_frame w = Ok df
     /\ MalariaCharts._get_sorted_year_columns df = Ok years
     /\ fst (serve MalariaGlobalDeaths req w)
        = png_of (Plot 0 (map Str years) totals EmptyString :: decorations)
     /\ Forall2 (fun y t => sum_agg (map (cell_of (columns df) y) (rows df)) = Ok t)
                years totals)
  /\ (status (fst (serve MeaslesGlobalCases req w)) = 200 ->
      exists df totals decorations,
        loaded_frame "data.csv" MeaslesCharts.clean_frame w = Ok df
        /\ fst (serve MeaslesGlobalCases req w)
           = png_of (Plot 0 (map Str (MeaslesCharts.sorted_years ["country"] df))
                          totals EmptyString :: decorations)
        /\ Forall2 (fun y t => sum_agg (map (cell_of (columns df) y) (rows df)) = Ok t)
                   (MeaslesCharts.sorted_years ["country"] df) totals).
Proof.
  split.
  - unfold serve, dispatch. simpl. rewrite malaria_global_deaths_run.
    unfold malaria_load_failed.
    destruct (loaded_frame _ _ w) as [df|e]; [|simpl; discriminate].
    destruct (df_empty df); [simpl; discriminate|].
    destruct (MalariaCharts._get_sorted_year_columns df) as [years|e] eqn:Hy;
      [|simpl; discriminate].
    destruct (sum_axis0 years df) as [totals|e] eqn:Hs; [|simpl; discriminate].
    intros _. simpl. exists df, years, totals. eexists.
    split; [reflexivity|]. split; [exact Hy|]. split; [reflexivity|].
    now apply sum_axis0_spec.
  - unfold serve, dispatch. simpl. rewrite measles_global_cases_run.
    unfold measles_load_failed.
    destruct (loaded_frame _ _ w) as [df|e]; [|simpl; discriminate].
    destruct (df_empty df); [simpl; discriminate|]. cbv zeta.
    destruct (sum_axis0 _ df) as [totals|e] eqn:Hs; [|simpl; discriminate].
    intros _. simpl. exists df, totals. eexists.
    split; [reflexivity|]. split; [reflexivity|].
    now apply sum_axis0_spec.
Qed.

Lemma global_charts_witness :
  exists df totals decorations,
    loaded_frame "data.csv" MeaslesCharts.clean_frame Samples.sample_disk = Ok df
    /\ fst (serve MeaslesGlobalCases (Request []) Samples.sample_disk)
       = png_of (Plot 0 (map Str (MeaslesCharts.sorted_years ["country"] df))
                      totals EmptyString :: decorations)
    /\ Forall2 (fun y t => sum_agg (map (cell_of (columns df) y) (rows df)) = Ok t)
               (MeaslesCharts.sorted_years ["country"] df) totals.
Proof.
  refine (proj2 (@global_charts_plot_the_column_sums Z _ _ (Request [])
                   Samples.sample_disk) _).
  reflexivity.
Defined.

(* ===================================================================== *)
(** * The bars of the top-countries charts *)
(* ===================================================================== *)


Section RowTotals.
Context {num : Type} {N : Numeric num} {O : NumericOrder num}.

Local Abbreviation frame := (DataFrame num).
Local Abbreviation row := (list (cell num)).

Lemma index_of_app_old (name other : string) (cols : list string) (j : nat) :
  index_of other cols = Some j -> index_of other (cols ++ [name]) = Some j.
Proof.
  revert j. induction cols as [|c r IH]; simpl; intros j; [discriminate|].
  destruct (String.eqb c other); auto.
  destruct (index_of other r) as [k|]; [|discriminate].
  intros E. injection E as <-. now rewrite (IH k eq_refl).
Qed.

(** A row of the frame after [df[name] = vals]: a row of [df] with its
    cell of [vals] under [name], the cells under the other columns as
    they were. *)
Lemma set_column_row (df : frame) (name : string) (vals : list (cell num)) (r' : row) :
  In r' (rows (set_column df name vals)) ->
  exists r v,
    In (r, v) (combine (rows df) vals)
    /\ cell_of (columns (set_column df name vals)) name r' = v
    /\ forall other, other <> name -> In other (columns df) ->
         cell_of (columns (set_column df name vals)) other r'
         = cell_of (columns df) other r.
Proof.
  unfold set_column. destruct (index_of name (columns df)) as [i|] eqn:Hi; simpl.
  - intros Hin. apply in_map_iff in Hin as ([r v] & <- & Hin). simpl.
    exists r, v. split; [exact Hin|]. unfold cell_of. rewrite Hi. split.
    + apply row_get_replace_same.
    + intros other Hne Ho. destruct (index_of_In _ _ Ho) as [j Hj]. rewrite Hj.
      apply row_get_replace_other. intros ->. apply Hne. symmetry.
      eapply index_of_inj; eauto.
  - intros Hin. apply in_map_iff in Hin as ([r v] & <- & Hin). simpl.
    exists r, v. split; [exact Hin|]. unfold cell_of. split.
    + rewrite (index_of_app_new _ _ Hi). unfold row_get.
      rewrite app_nth2; rewrite length_pad; [|lia]. now rewrite Nat.sub_diag.
    + intros other Hne Ho. destruct (index_of_In _ _ Ho) as [j Hj].
      rewrite (index_of_app_old _ _ _ _ Hj), Hj.
      pose proof (index_of_lt _ _ _ Hj) as Hlt. unfold row_get.
      rewrite app_nth1 by (now rewrite length_pad).
      apply (row_get_pad _ _ _ Hlt).
Qed.

(** [df[names].sum(axis=1)]: for each row the sum of its cells under
    [names]. *)
Lemma sum_axis1_rows (names : list string) (df : frame) (totals : list (cell num)) :
  sum_axis1 names df = Ok totals ->
  Forall2 (fun r t => sum_agg (map (fun n => cell_of (columns df) n r) names) = Ok t)
          (rows df) totals.
Proof.
  unfold sum_axis1. destruct (select_columns df names) as [sub|e] eqn:Hs; [|discriminate].
  destruct (select_columns_spec _ _ _ Hs) as (_ & Hrows & _).
  intros Ho. apply omap_Forall2 in Ho. rewrite Hrows in Ho. clear Hs Hrows.
  remember (rows df) as rs eqn:E. clear E.
  revert totals Ho. induction rs as [|r rs IH]; intros totals Ho; simpl in Ho.
  - inversion Ho; subst. constructor.
  - inversion Ho; subst. constructor; auto.
Qed.

Lemma Forall2_combine_In {A B} (P : A -> B -> Prop) (l : list A) (l' : list B) (a : A) (b : B) :
  Forall2 P l l' -> In (a, b) (combine l l') -> P a b.
Proof.
  induction 1 as [|x y l l' Hxy _ IH]; simpl; [tauto|].
  intros [E|Hin]; [now injection E as <- <-|auto].
Qed.

Lemma In_firstn {A} (n : nat) (l : list A) (x : A) : In x (firstn n l) -> In x l.
Proof.
  intros Hx. rewrite <- (firstn_skipn n l). apply in_or_app. now left.
Qed.

Lemma firstn_sorted {A} (R : A -> A -> Prop) (n : nat) (l : list A) :
  StronglySorted R l -> StronglySorted R (firstn n l).
Proof.
  intros Hs. revert n. induction Hs as [|a l Hs IH Ha]; intros [|n]; simpl;
    try constructor; auto.
  rewrite Forall_forall in *. intros x Hx. apply Ha. eapply In_firstn; eauto.
Qed.

Lemma map_sorted {A B} (f : A -> B) (R : B -> B -> Prop) (l : list A) :
  StronglySorted (fun a b => R (f a) (f b)) l -> StronglySorted R (map f l).
Proof.
  induction 1 as [|a l Hs IH Ha]; simpl; constructor; auto.
  rewrite Forall_forall in *. intros y Hy. apply in_map_iff in Hy as (x & <- & Hx). auto.
Qed.

(** The rows of [nlargest]: some of the rows of the frame, the cells
    of the column in descending order. *)
Lemma nlargest_sorted (n : nat) (name : string) (df top : frame) (keys : list (cell num)) :
  get_column df name = Ok keys -> Forall is_num keys ->
  nlargest n name df = Ok top ->
  columns top = columns df
  /\ incl (rows top) (rows df)
  /\ StronglySorted (fun a b => desc_first a b = true)
                    (map (cell_of (columns df) name) (rows top)).
Proof.
  intros Hk Hnum. unfold nlargest. unfold get_column in Hk. unfold cell_of.
  destruct (index_of name (columns df)) as [i|]; [|discriminate].
  injection Hk as Hk. rewrite Hk, (existsb_is_str_num _ Hnum).
  intros Ht. injection Ht as <-. simpl. split; [reflexivity|]. split.
  - intros r Hr. apply In_firstn in Hr. now apply stable_sort_In in Hr.
  - apply map_sorted. apply firstn_sorted.
    apply (stable_sort_sorted _ _ (fun r => is_num (row_get i r))).
    + intros x y. apply desc_first_num_total.
    + intros x y z. apply desc_first_num_trans.
    + rewrite Forall_forall in *. intros r Hr. apply Hnum. rewrite <- Hk.
      now apply in_map.
Qed.

(** The bars of the top-countries charts of malaria_charts.py and
    measles_charts.py. *)
Lemma totals_top_bars (df top : frame) (names : list string) (total : string)
      (totals countries values : list (cell num)) :
  total <> "country" -> In "country" (columns df) ->
  sum_axis1 names df = Ok totals ->
  nlargest 10 total (set_column df total totals) = Ok top ->
  get_column top "country" = Ok countries ->
  get_column top total = Ok values ->
  StronglySorted (fun a b => desc_first a b = true) values
  /\ Forall2 (fun c v =>
                exists r, In r (rows df)
                          /\ c = cell_of (columns df) "country" r
                          /\ sum_agg (map (fun n => cell_of (columns df) n r) names) = Ok v)
             countries values.
Proof.
  intros Hne Hcountry Hs Hn Hc Hv.
  destruct (sum_axis1_spec _ _ _ Hs) as (Hlen & Hnum).
  pose proof (get_column_set_column df total totals Hlen) as Hg.
  destruct (nlargest_sorted _ _ _ _ _ Hg Hnum Hn) as (Hcols & Hincl & Hsorted).
  apply get_column_cell_of in Hc, Hv. rewrite Hcols in Hc, Hv. subst countries values.
  split; [exact Hsorted|].
  pose proof (sum_axis1_rows _ _ _ Hs) as Hrows.
  clear Hsorted. induction (rows top) as [|r' l IH]; simpl; constructor.
  - destruct (set_column_row df total totals r') as (r & v & Hin & Htot & Hother).
    { apply Hincl. now left. }
    exists r. split; [eapply in_combine_l; eauto|]. split.
    + apply Hother; auto.
    + rewrite Htot. exact (Forall2_combine_In _ _ _ _ _ Hrows Hin).
  - apply IH. intros x Hx. apply Hincl. now right.
Qed.

End RowTotals.

Section TopBars.
Context {num : Type} {N : Numeric num} {O : NumericOrder num}.

Lemma set_column_country (df : DataFrame num) (total : string) (totals : list (cell num)) :
  total <> "country" ->
  In "country" (columns (set_column df total totals)) -> In "country" (columns df).
Proof.
  intros Hne. unfold set_column.
  destruct (index_of total (columns df)); simpl; auto.
  intros Hin. apply in_app_or in Hin as [Hin|[E|[]]]; auto. congruence.
Qed.
End TopBars.

(** X10: the bars of the top-countries charts of malaria_charts.py and
    measles_charts.py.  When such a route answers 200, every bar is a
    country of the loaded table with, as its width, the sum of the cells
    of that country's row under the year columns; the bars are passed in
    descending order of width and the axis is inverted, so that the
    widest bar is drawn at the top. *)
Theorem top_countries_bars_are_row_totals
        {num : Type} {N : Numeric num} {O : NumericOrder num} {L : Libs num}
        (req : request) (w : world num) :
  (status (fst (serve MalariaTopCountries req w)) = 200 ->
   exists df years countries values,
     loaded_frame "malaria_data.csv" MalariaCharts.clean_frame w = Ok df
     /\ MalariaCharts._get_sorted_year_columns df = Ok years
     /\ fst (serve MalariaTopCountries req w)
        = png_of [Barh countries values;
                  SetTitle "Top 10 Countries by Total Malaria Deaths (All Years)";
                  SetXLabel "Total Deaths"; SetYLabel "Country";
                  InvertYAxis; TightLayout]
     /\ StronglySorted (fun a b => desc_first a b = true) values
     /\ Forall2 (fun c v =>
                   exists r, In r (rows df)
                             /\ c = cell_of (columns df) "country" r
                             /\ sum_agg (map (fun y => cell_of (columns df) y r) years) = Ok v)
                countries values)
  /\ (status (fst (serve MeaslesTopCountries req w)) = 200 ->
      exists df countries values,
        loaded_frame "data.csv" MeaslesCharts.clean_frame w = Ok df
        /\ fst (serve MeaslesTopCountries req w)
           = png_of [Barh countries values;
                     SetTitle "Top 10 Countries by Total Measles Cases (All Years)";
                     SetXLabel "Total Cases"; SetYLabel "Country";
                     InvertYAxis; TightLayout]
        /\ StronglySorted (fun a b => desc_first a b = true) values
        /\ Forall2 (fun c v =>
                      exists r, In r (rows df)
                                /\ c = cell_of (columns df) "country" r
                                /\ sum_agg (map (fun y => cell_of (columns df) y r)
                                                (filter (fun c => negb (String.eqb c "country"))
                                                        (columns df))) = Ok v)
                   countries values).
Proof.
  split.
  - unfold serve, dispatch. simpl. rewrite malaria_top_countries_run.
    unfold malaria_load_failed.
    destruct (loaded_frame _ _ w) as [df|e]; [|simpl; discriminate].
    destruct (df_empty df); [simpl; discriminate|].
    destruct (MalariaCharts.top_rows df) as [top|e] eqn:Ht; [|simpl; discriminate].
    destruct (get_column top "country") as [c|e] eqn:Hc; [|simpl; discriminate].
    destruct (get_column top "total_deaths") as [v|e] eqn:Hv; [|simpl; discriminate].
    intros _. simpl. unfold MalariaCharts.top_rows in Ht.
    destruct (MalariaCharts._get_sorted_year_columns df) as [years|e] eqn:Hy; [|discriminate].
    destruct (sum_axis1 years df) as [totals|e] eqn:Hs; [|discriminate].
    exists df, years, c, v.
    split; [reflexivity|]. split; [exact Hy|]. split; [reflexivity|].
    eapply (totals_top_bars df top years "total_deaths" totals); eauto; [discriminate|].
    apply (set_column_country df "total_deaths" totals); [discriminate|].
    destruct (sum_axis1_spec _ _ _ Hs) as (Hlen & Hnum).
    destruct (nlargest_sorted _ _ _ _ _ (get_column_set_column df _ totals Hlen) Hnum Ht)
      as (Hcols & _). rewrite <- Hcols. eapply get_column_In; eauto.
  - unfold serve, dispatch. simpl. rewrite measles_top_countries_run.
    unfold measles_load_failed.
    destruct (loaded_frame _ _ w) as [df|e]; [|simpl; discriminate].
    destruct (df_empty df); [simpl; discriminate|].
    destruct (MeaslesCharts.top_rows df) as [top|e] eqn:Ht; [|simpl; discriminate].
    destruct (get_column top "country") as [c|e] eqn:Hc; [|simpl; discriminate].
    destruct (get_column top "total_cases") as [v|e] eqn:Hv; [|simpl; discriminate].
    intros _. simpl. unfold MeaslesCharts.top_rows in Ht.
    destruct (sum_axis1 _ df) as [totals|e] eqn:Hs; [|discriminate].
    exists df, c, v.
    split; [reflexivity|]. split; [reflexivity|].
    eapply (totals_top_bars df top _ "total_cases" totals); eauto; [discriminate|].
    apply (set_column_country df "total_cases" totals); [discriminate|].
    destruct (sum_axis1_spec _ _ _ Hs) as (Hlen & Hnum).
    destruct (nlargest_sorted _ _ _ _ _ (get_column_set_column df _ totals Hlen) Hnum Ht)
      as (Hcols & _). rewrite <- Hcols. eapply get_column_In; eauto.
Qed.

Lemma top_countries_bars_witness :
  exists df years countries values,
    loaded_frame "malaria_data.csv" MalariaCharts.clean_frame Samples.sample_disk = Ok df
    /\ MalariaCharts._get_sorted_year_columns df = Ok years
    /\ fst (serve MalariaTopCountries (Request []) Samples.sample_disk)
       = png_of [Barh countries values;
                 SetTitle "Top 10 Countries by Total Malaria Deaths (All Years)";
                 SetXLabel "Total Deaths"; SetYLabel "Country";
                 InvertYAxis; TightLayout]
    /\ StronglySorted (fun a b => desc_first a b = true) values
    /\ Forall2 (fun c v =>
                  exists r, In r (rows df)
                            /\ c = cell_of (columns df) "country" r
                            /\ sum_agg (map (fun y => cell_of (columns df) y r) years) = Ok v)
               countries values.
Proof.
  refine (proj1 (@top_countries_bars_are_row_totals Z _ _ _ (Request [])
                   Samples.sample_disk) _).
  reflexivity.
Defined.

(* ===================================================================== *)
(** * The bars of the latest year (charts_api.py) *)
(* ===================================================================== *)


Section LatestYear.
Context {num : Type} {N : Numeric num} {O : NumericOrder num}.

Local Abbreviation frame := (DataFrame num).
Local Abbreviation row := (list (cell num)).

Lemma asc_first_num_total (a b : cell num) :
  is_num a -> is_num b -> asc_first a b = true \/ asc_first b a = true.
Proof. intros [x ->] [y ->]. simpl. apply num_leb_total. Qed.

Lemma asc_first_num_trans (a b c : cell num) :
  is_num a -> is_num b -> is_num c ->
  asc_first a b = true -> asc_first b c = true -> asc_first a c = true.
Proof. intros [x ->] [y ->] [z ->]. simpl. apply num_leb_trans. Qed.

(** [sort_values] on a column of numbers: the same rows, the cells of
    the column in ascending order. *)
Lemma sort_values_sorted (name : string) (df sorted : frame) (keys : list (cell num)) :
  get_column df name = Ok keys -> Forall is_num keys ->
  sort_values name df = Ok sorted ->
  columns sorted = columns df
  /\ Permutation (rows df) (rows sorted)
  /\ StronglySorted (fun a b => asc_first a b = true)
                    (map (cell_of (columns df) name) (rows sorted)).
Proof.
  intros Hk Hnum. unfold sort_values. unfold get_column in Hk. unfold cell_of.
  destruct (index_of name (columns df)) as [i|]; [|discriminate].
  injection Hk as Hk. intros Hs. injection Hs as <-. simpl.
  split; [reflexivity|]. split; [apply stable_sort_perm|].
  apply map_sorted.
  apply (stable_sort_sorted _ _ (fun r => is_num (row_get i r))).
  - intros x y. apply asc_first_num_total.
  - intros x y z. apply asc_first_num_trans.
  - rewrite Forall_forall in *. intros r Hr. apply Hnum. rewrite <- Hk.
    now apply in_map.
Qed.

End LatestYear.

Section LatestBars.
Context {num : Type} {N : Numeric num} {O : NumericOrder num} {L : Libs num}.

Local Abbreviation frame := (DataFrame num).

Lemma get_column_incl (df df' : frame) (name : string) (c : list (cell num))
      (P : cell num -> Prop) :
  get_column df name = Ok c -> Forall P c ->
  columns df' = columns df -> incl (rows df') (rows df) ->
  exists c', get_column df' name = Ok c' /\ Forall P c'.
Proof.
  unfold get_column. intros Hc HP Hcols Hincl. rewrite Hcols.
  destruct (index_of name (columns df)) as [i|]; [|discriminate].
  injection Hc as <-. eexists; split; [reflexivity|].
  rewrite Forall_forall in *. intros x Hx.
  apply in_map_iff in Hx as (r & <- & Hr). apply HP. apply in_map. now apply Hincl.
Qed.

(** The rows [top_10_of] keeps, in the order it returns them. *)
Lemma top_10_of_sorted (df0 df df_latest top : frame) (latest_year : cell num)
      (col : string) :
  ChartsApi.clean_frame df0 = Ok df ->
  PyStr.startswith "Data." col = true ->
  ChartsApi.latest_rows df = Ok (latest_year, df_latest) ->
  ChartsApi.top_10_of col df_latest = Ok top ->
  columns top = columns df
  /\ incl (rows top) (rows df_latest)
  /\ StronglySorted (fun a b => asc_first a b = true)
                    (map (cell_of (columns df) col) (rows top)).
Proof.
  intros Hclean Hp Hlatest Htop.
  destruct (latest_rows_spec _ _ _ Hlatest) as (Hcols & Hrows & _).
  unfold ChartsApi.top_10_of in Htop.
  destruct (nlargest 10 col df_latest) as [t|e] eqn:Hn; [|discriminate].
  pose proof (nlargest_columns _ _ _ _ Hn) as Hin. rewrite Hcols in Hin.
  destruct (hiv_clean_numeric _ _ Hclean col Hin Hp) as (c & Hc & Hnum).
  destruct (get_column_incl df df_latest col c is_num Hc Hnum Hcols) as (c1 & Hc1 & Hnum1).
  { rewrite Hrows. intros r Hr. now apply filter_In in Hr as [Hr _]. }
  destruct (nlargest_sorted _ _ _ _ _ Hc1 Hnum1 Hn) as (Hcols_t & Hincl_t & _).
  destruct (get_column_incl df_latest t col c1 is_num Hc1 Hnum1 Hcols_t Hincl_t)
    as (c2 & Hc2 & Hnum2).
  destruct (sort_values_sorted _ _ _ _ Hc2 Hnum2 Htop) as (Hcols_s & Hperm & Hsorted).
  split; [congruence|]. split.
  - intros r Hr. apply Hincl_t. eapply Permutation_in; [symmetry; exact Hperm|exact Hr].
  - rewrite Hcols_t, Hcols in Hsorted. exact Hsorted.
Qed.

End LatestBars.

(** X11: the bars of the top-countries charts of charts_api.py.  When
    such a route answers 200, the year in the title is the maximum of
    the 'Year' column (when that column holds numbers), every bar is
    the country and the metric of one row of that year, and the bars
    are passed in ascending order of the metric: drawn from the bottom
    up, the largest comes at the top. *)
Theorem latest_year_bars_ascend
        {num : Type} {N : Numeric num} {O : NumericOrder num} {L : Libs num}
        (ep : endpoint) (col : string) (req : request) (w : world num) :
  top_column ep = Some col ->
  status (fst (serve ep req w)) = 200 ->
  exists df years latest_year countries values xlabel title fmt,
    loaded_frame "aids.csv" ChartsApi.clean_frame w = Ok df
    /\ get_column df "Year" = Ok years
    /\ col_max years = Ok latest_year
    /\ (Forall is_num years -> years <> [] ->
        In latest_year years
        /\ exists x, latest_year = Num x
                     /\ forall y, In (Num y) years -> num_leb y x = true)
    /\ fst (serve ep req w)
       = png_of [Barh countries values; SetXLabel xlabel;
                 SetTitle (title ++ " (" ++ py_str latest_year ++ ")")%string;
                 fmt; TightLayout]
    /\ StronglySorted (fun a b => asc_first a b = true) values
    /\ Forall2 (fun c v =>
                  exists r, In r (rows df)
                            /\ cell_eqb (cell_of (columns df) "Year" r) latest_year = true
                            /\ c = cell_of (columns df) "Country" r
                            /\ v = cell_of (columns df) col r)
               countries values.
Proof.
  intros Hcol.
  destruct (top_column_view ep col req Hcol) as (xlabel & title & fmt & Hview & Hp).
  unfold serve, dispatch. rewrite Hview, top_chart_run. unfold hiv_load_failed.
  destruct (loaded_frame "aids.csv" ChartsApi.clean_frame w) as [df|e] eqn:Hdf;
    [|simpl; discriminate].
  destruct (ChartsApi.latest_rows df) as [[latest_year df_latest]|e] eqn:Hl;
    [|simpl; discriminate].
  destruct (ChartsApi.top_10_of col _) as [top|e] eqn:Ht; [|simpl; discriminate].
  destruct (get_column top "Country") as [c|e] eqn:Hc; [|simpl; discriminate].
  destruct (get_column top col) as [v|e] eqn:Hv; [|simpl; discriminate].
  intros _. simpl in *.
  destruct (loaded_frame_clean _ _ _ _ Hdf) as (df0 & _ & Hclean).
  destruct (top_10_of_sorted _ _ _ _ _ _ Hclean Hp Hl Ht) as (Hcols & Hincl & Hsorted).
  destruct (latest_rows_spec _ _ _ Hl) as (_ & Hrows & _).
  pose proof Hl as Hl'. unfold ChartsApi.latest_rows in Hl'.
  destruct (get_column df "Year") as [years|e] eqn:Hy; [|discriminate].
  destruct (col_max years) as [m|e] eqn:Hm; [|discriminate].
  injection Hl' as <- _.
  apply get_column_cell_of in Hc, Hv. rewrite Hcols in Hc, Hv. subst c v.
  exists df, years, m. do 5 eexists.
  split; [reflexivity|]. split; [exact Hy|]. split; [exact Hm|].
  split; [intros Hnum Hne; now apply col_max_num|].
  split; [reflexivity|]. split; [exact Hsorted|].
  clear Hsorted. induction (rows top) as [|r l IH]; simpl; constructor.
  - assert (Hr : In r (rows df_latest)) by (apply Hincl; now left).
    rewrite Hrows in Hr. apply filter_In in Hr as [Hr Hyr]. eauto.
  - apply IH. intros x Hx. apply Hincl. now right.
Qed.

Lemma latest_year_bars_witness :
  exists df years latest_year countries values xlabel title fmt,
    loaded_frame "aids.csv" ChartsApi.clean_frame Samples.sample_disk = Ok df
    /\ get_column df "Year" = Ok years
    /\ col_max years = Ok latest_year
    /\ (Forall is_num years -> years <> [] ->
        In latest_year years
        /\ exists x, latest_year = Num x
                     /\ forall y, In (Num y) years -> num_leb y x = true)
    /\ fst (serve TopInfections (Request []) Samples.sample_disk)
       = png_of [Barh countries values; SetXLabel xlabel;
                 SetTitle (title ++ " (" ++ py_str latest_year ++ ")")%string;
                 fmt; TightLayout]
    /\ StronglySorted (fun a b => asc_first a b = true) values
    /\ Forall2 (fun c v =>
                  exists r, In r (rows df)
                            /\ cell_eqb (cell_of (columns df) "Year" r) latest_year = true
                            /\ c = cell_of (columns df) "Country" r
                            /\ v = cell_of (columns df)
                                           "Data.New HIV Infections.All Ages" r)
               countries values.
Proof.
  refine (@latest_year_bars_ascend Z _ _ _ TopInfections
            "Data.New HIV Infections.All Ages" (Request []) Samples.sample_disk _ _);
    reflexivity.
Defined.

Section CompareFacts.
Context {num : Type} `{Numeric num} `{Libs num}.

Local Abbreviation frame := (DataFrame num).
Local Abbreviation row := (list (cell num)).

(** [row[names].values]: the cells of the row under the names. *)
Lemma row_values_spec (cols names : list string) (r : row) (vs : list (cell num)) :
  row_values cols names r = Ok vs ->
  vs = map (fun n => cell_of cols n r) names /\ Forall (fun n => In n cols) names.
Proof.
  unfold row_values.
  destruct (select_columns (Frame cols [r]) names) as [sub|e] eqn:Hs; [|discriminate].
  destruct (select_columns_spec _ _ _ Hs) as (_ & Hrows & Hin). simpl in *.
  intros E. injection E as <-. rewrite Hrows. simpl. now rewrite app_nil_r.
Qed.

Lemma row_values_total (cols names : list string) (r : row) :
  Forall (fun n => In n cols) names ->
  row_values cols names r = Ok (map (fun n => cell_of cols n r) names).
Proof.
  intros Hin. unfold row_values, select_columns. simpl.
  assert (Ho : exists idx,
             omap (fun n => match index_of n cols with
                            | Some i => Ok i
                            | None => Raise (key_error n)
                            end) names = Ok idx
             /\ map (fun i => row_get i r) idx = map (fun n => cell_of cols n r) names).
  { induction Hin as [|n names Hn _ (idx & Hidx & Hmap)]; simpl.
    - exists []. auto.
    - destruct (index_of_In _ _ Hn) as [i Hi]. rewrite Hi, Hidx.
      exists (i :: idx). split; auto. simpl. rewrite Hmap. unfold cell_of.
      now rewrite Hi. }
  destruct Ho as (idx & -> & Hmap). simpl. now rewrite app_nil_r, Hmap.
Qed.


(** A row is drawn exactly when the frame has its columns. *)
Lemma row_plot_total (cols years : list string) (r : row) :
  In "country" cols -> Forall (fun y => In y cols) years ->
  row_plot cols years r = Ok (line_of cols years r).
Proof.
  intros Hc Hy. unfold row_plot.
  rewrite (row_values_total cols ["country"] r) by (constructor; auto).
  rewrite (row_values_total cols years r Hy).
  now rewrite !length_map, Nat.eqb_refl.
Qed.


Lemma omap_row_plot_total (cols years : list string) (rs : list row) :
  In "country" cols -> Forall (fun y => In y cols) years ->
  omap (row_plot cols years) rs = Ok (map (line_of cols years) rs).
Proof.
  intros Hc Hy. induction rs as [|r rs IH]; simpl; auto.
  now rewrite (row_plot_total _ _ r Hc Hy), IH.
Qed.



End CompareFacts.

Section ServeFacts.
Context {num : Type} `{Numeric num} `{Libs num}.

Lemma serve_fst (ep : endpoint) (req : request) (w : world num) :
  fst (serve ep req w) =
  match fst (view ep req w) with
  | Ok r => r
  | Raise _ => error_page
  end.
Proof.
  unfold serve, dispatch. destruct (view ep req w) as [[r|e] w']; reflexivity.
Qed.
End ServeFacts.



Section NamesAsSets.
Context {num : Type} `{Numeric num} `{Libs num}.

Local Abbreviation frame := (DataFrame num).

Lemma existsb_same (s : string) (names names' : list string) :
  (forall n, In n names <-> In n names') ->
  existsb (String.eqb s) names = existsb (String.eqb s) names'.
Proof.
  intros Hsame. apply eq_true_iff_eq. rewrite !existsb_exists. split.
  - intros (x & Hx & E). exists x. split; auto. now apply Hsame.
  - intros (x & Hx & E). exists x. split; auto. now apply Hsame.
Qed.

Lemma malaria_isin_rows_same (names names' : list string) (df : frame) :
  (forall n, In n names <-> In n names') ->
  MalariaCharts.isin_rows names df = MalariaCharts.isin_rows names' df.
Proof.
  intros Hsame. unfold MalariaCharts.isin_rows.
  destruct (get_column df "country") as [col|e]; auto.
  destruct (str_accessor col) as [c|e]; auto.
  do 2 f_equal. apply map_ext. intros x.
  destruct (str_lower x); auto. now apply existsb_same.
Qed.

Lemma measles_isin_rows_same (names names' : list string) (df : frame) :
  (forall n, In n names <-> In n names') ->
  MeaslesCharts.isin_rows names df = MeaslesCharts.isin_rows names' df.
Proof.
  intros Hsame. unfold MeaslesCharts.isin_rows.
  destruct (get_column df "country") as [col|e]; auto.
  do 2 f_equal. apply map_ext. intros x.
  destruct x; auto. now apply existsb_same.
Qed.

Lemma same_names_nil (names names' : list string) :
  (forall n : string, In n names <-> In n names') -> names = [] -> names' = [].
Proof.
  intros Hsame ->. destruct names' as [|n l]; auto.
  destruct (proj2 (Hsame n)). now left.
Qed.

End NamesAsSets.

(** X13: the names of compare_countries as a set.  Two requests to
    compare_countries whose 'countries' parameters give the same names,
    in any order and any number of times, are answered with the same
    status; when that status is neither 400 nor 404 - the two answers
    that quote the parameter - the whole response is the same: the
    lines follow the order of the table, not of the request. *)
Theorem compare_countries_takes_the_names_as_a_set
        {num : Type} `{Numeric num} `{Libs num}
        (req req' : request) (param param' : string) (w : world num) :
  args_get req "countries" = Some param ->
  args_get req' "countries" = Some param' ->
  ((forall n, In n (MalariaCharts.country_names_of param)
              <-> In n (MalariaCharts.country_names_of param')) ->
   status (fst (serve MalariaCompareCountries req w))
   = status (fst (serve MalariaCompareCountries req' w))
   /\ (status (fst (serve MalariaCompareCountries req w)) <> 400 ->
       status (fst (serve MalariaCompareCountries req w)) <> 404 ->
       fst (serve MalariaCompareCountries req w)
       = fst (serve MalariaCompareCountries req' w)))
  /\ ((forall n, In n (MeaslesCharts.country_names_of param)
                 <-> In n (MeaslesCharts.country_names_of param')) ->
      status (fst (serve MeaslesCompareCountries req w))
      = status (fst (serve MeaslesCompareCountries req' w))
      /\ (status (fst (serve MeaslesCompareCountries req w)) <> 400 ->
          status (fst (serve MeaslesCompareCountries req w)) <> 404 ->
          fst (serve MeaslesCompareCountries req w)
          = fst (serve MeaslesCompareCountries req' w))).
Proof.
  intros Hp Hp'. split; intros Hsame.
  - rewrite !serve_fst. simpl view. rewrite !malaria_compare_run. cbv zeta.
    rewrite Hp, Hp'.
    destruct (MalariaCharts.country_names_of param) as [|n ns] eqn:Hn.
    + rewrite (same_names_nil _ _ Hsame eq_refl).
      destruct (PyStr.is_empty param), (PyStr.is_empty param'); simpl;
        (split; [reflexivity|congruence]).
    + destruct (MalariaCharts.country_names_of param') as [|n' ns'] eqn:Hn'.
      { symmetry in Hn'. pose proof (proj1 (Hsame n) (or_introl eq_refl)) as [].  }
      destruct (PyStr.is_empty param) eqn:Ee.
      { apply is_empty_spec in Ee. subst param. discriminate. }
      destruct (PyStr.is_empty param') eqn:Ee'.
      { apply is_empty_spec in Ee'. subst param'. discriminate. }
      destruct (loaded_frame _ _ w) as [df|e]; [|split; reflexivity].
      destruct (df_empty df); [split; reflexivity|].
      rewrite (malaria_isin_rows_same _ _ df Hsame).
      destruct (MalariaCharts.isin_rows (n' :: ns') df) as [sel|e]; [|split; reflexivity].
      destruct (df_empty sel); [simpl; split; [reflexivity|congruence]|].
      split; reflexivity.
  - rewrite !serve_fst. simpl view. rewrite !measles_compare_run. cbv zeta.
    rewrite Hp, Hp'.
    destruct (MeaslesCharts.country_names_of param) as [|n ns] eqn:Hn.
    + rewrite (same_names_nil _ _ Hsame eq_refl).
      destruct (PyStr.is_empty param), (PyStr.is_empty param'); simpl;
        (split; [reflexivity|congruence]).
    + destruct (MeaslesCharts.country_names_of param') as [|n' ns'] eqn:Hn'.
      { symmetry in Hn'. pose proof (proj1 (Hsame n) (or_introl eq_refl)) as [].  }
      destruct (PyStr.is_empty param) eqn:Ee.
      { apply is_empty_spec in Ee. subst param. discriminate. }
      destruct (PyStr.is_empty param') eqn:Ee'.
      { apply is_empty_spec in Ee'. subst param'. discriminate. }
      destruct (loaded_frame _ _ w) as [df|e]; [|split; reflexivity].
      destruct (df_empty df); [split; reflexivity|].
      rewrite (measles_isin_rows_same _ _ df Hsame).
      destruct (MeaslesCharts.isin_rows (n' :: ns') df) as [sel|e]; [|split; reflexivity].
      destruct (df_empty sel); [simpl; split; [reflexivity|congruence]|].
      split; reflexivity.
Qed.

Lemma compare_countries_set_witness :
  let req := Request [("countries", "Ghana, Congo")] in
  let req' := Request [("countries", "Congo,Ghana,,Congo ")] in
  status (fst (serve MeaslesCompareCountries req Samples.sample_disk))
  = status (fst (serve MeaslesCompareCountries req' Samples.sample_disk))
  /\ (status (fst (serve MeaslesCompareCountries req Samples.sample_disk)) <> 400 ->
      status (fst (serve MeaslesCompareCountries req Samples.sample_disk)) <> 404 ->
      fst (serve MeaslesCompareCountries req Samples.sample_disk)
      = fst (serve MeaslesCompareCountries req' Samples.sample_disk)).
Proof.
  refine (proj2 (@compare_countries_takes_the_names_as_a_set Z _ _
                   (Request [("countries", "Ghana, Congo")])
                   (Request [("countries", "Congo,Ghana,,Congo ")])
                   "Ghana, Congo" "Congo,Ghana,,Congo " Samples.sample_disk _ _) _).
  - reflexivity.
  - reflexivity.
  - intros n. vm_compute. tauto.
Defined.

Section CompareStatuses.
Context {num : Type} `{Numeric num} `{Libs num}.

Local Abbreviation frame := (DataFrame num).







End CompareStatuses.


Section ProfileFacts.
Context {num : Type} `{Numeric num} `{Libs num}.

Local Abbreviation frame := (DataFrame num).
Local Abbreviation row := (list (cell num)).

Lemma find_filter {A} (f : A -> bool) (l : list A) (d : A) :
  match filter f l with
  | [] => find f l = None
  | x :: _ => find f l = Some x
  end.
Proof.
  induction l as [|a l IH]; simpl; auto.
  destruct (f a); simpl; auto.
Qed.

Lemma df_empty_false (df : frame) :
  df_empty df = false -> exists r rest, rows df = r :: rest.
Proof.
  unfold df_empty. destruct (columns df); [discriminate|].
  destruct (rows df) as [|r rest]; [discriminate|]. eauto.
Qed.

(** The rows kept by a test on one column. *)
Lemma mask_by_column_rows (df : frame) (name : string) (col : list (cell num))
      (g : cell num -> bool) :
  get_column df name = Ok col ->
  rows (mask_rows df (map g col))
  = filter (fun r => g (cell_of (columns df) name r)) (rows df).
Proof.
  intros Hc. rewrite (get_column_cell_of _ _ _ Hc), map_map.
  apply (mask_rows_filter df (fun r => g (cell_of (columns df) name r))).
Qed.

(** The row [country_profile] of malaria_charts.py charts: the first
    row equal to the name up to case, else the first row the pattern
    is found in. *)
Lemma malaria_find_rows_spec (name : string) (df found : frame) :
  MalariaCharts.find_rows name df = Ok found ->
  df_empty found = false ->
  columns found = columns df
  /\ (find (equal_ci (columns df) "country" name) (rows df)
      = Some (hd [] (rows found))
      \/ (find (equal_ci (columns df) "country" name) (rows df) = None
          /\ exists f, re_search_ci name = Ok f
                       /\ find (matching (columns df) f) (rows df)
                          = Some (hd [] (rows found)))).
Proof.
  unfold MalariaCharts.find_rows, MalariaCharts.exact_rows, MalariaCharts.contains_rows.
  destruct (get_column df "country") as [col|e] eqn:Hc; [|discriminate].
  destruct (str_accessor col) as [c'|e] eqn:Ha; [|discriminate].
  pose proof (str_accessor_ok _ _ Ha) as Hcc. subst c'.
  assert (Hexact :
            rows (mask_rows df
                    (map (fun x => cell_eqb (str_lower x) (Str (PyStr.lower name))) col))
            = filter (equal_ci (columns df) "country" name) (rows df)).
  { exact (mask_by_column_rows df "country" col
             (fun x => cell_eqb (str_lower x) (Str (PyStr.lower name))) Hc). }
  pose proof (find_filter (equal_ci (columns df) "country" name) (rows df) []) as Hfind.
  destruct (df_empty (mask_rows df _)) eqn:He.
  - destruct (str_contains name col) as [mask|e] eqn:Hs; [|discriminate].
    apply str_contains_spec in Hs as (_ & f & Hf & ->).
    intros E Hne. injection E as <-. split; [reflexivity|]. right.
    apply df_empty_rows in He.
    2: { simpl. intros E. apply get_column_In in Hc. rewrite E in Hc. destruct Hc. }
    rewrite Hexact in He. rewrite He in Hfind. split; [exact Hfind|].
    exists f. split; [exact Hf|].
    assert (Hcont :
              rows (mask_rows df
                      (map (fun c => match c with Str s => f s | _ => false end) col))
              = filter (matching (columns df) f) (rows df)).
    { exact (mask_by_column_rows df "country" col
               (fun c => match c with Str s => f s | _ => false end) Hc). }
    pose proof (find_filter (matching (columns df) f) (rows df) []) as Hfind2.
    destruct (df_empty_false _ Hne) as (r & rest & Hr). rewrite Hr. simpl.
    rewrite Hcont in Hr. rewrite Hr in Hfind2. exact Hfind2.
  - intros E Hne. injection E as <-. split; [reflexivity|]. left.
    destruct (df_empty_false _ Hne) as (r & rest & Hr). rewrite Hr. simpl.
    rewrite Hexact in Hr. rewrite Hr in Hfind. exact Hfind.
Qed.

(** The rows [country_profile] of charts_api.py charts. *)
Lemma hiv_lookup_spec (name : string) (df cd : frame) :
  ChartsApi.lookup_country name df = Ok cd ->
  columns cd = columns df
  /\ rows cd = filter (equal_ci (columns df) "Country" name) (rows df).
Proof.
  unfold ChartsApi.lookup_country.
  destruct (get_column df "Country") as [col|e] eqn:Hc; [|discriminate].
  destruct (str_accessor col) as [c'|e] eqn:Ha; [|discriminate].
  pose proof (str_accessor_ok _ _ Ha) as Hcc. subst c'.
  intros E. injection E as <-. split; [reflexivity|].
  apply (mask_by_column_rows df "Country" col
           (fun x => cell_eqb (str_lower x) (Str (PyStr.lower name))) Hc).
Qed.

End ProfileFacts.

(** X15: the row of a malaria profile.  When country_profile of
    malaria_charts.py answers 200, its figure holds one line: the cells
    under the sorted year columns of the first row of the table, in the
    order of the file, whose country is the parameter up to case; when
    no row is, of the first row whose country the parameter is found in
    as a pattern.  The title names the country as the table writes
    it. *)
Theorem malaria_profile_charts_the_first_match
        {num : Type} `{Numeric num} `{Libs num} (req : request) (w : world num) :
  status (fst (serve MalariaCountryProfile req w)) = 200 ->
  exists name df years r,
    args_get req "country" = Some name
    /\ loaded_frame "malaria_data.csv" MalariaCharts.clean_frame w = Ok df
    /\ MalariaCharts._get_sorted_year_columns df = Ok years
    /\ (find (equal_ci (columns df) "country" name) (rows df) = Some r
        \/ (find (equal_ci (columns df) "country" name) (rows df) = None
            /\ exists f, re_search_ci name = Ok f
                         /\ find (matching (columns df) f) (rows df) = Some r))
    /\ fst (serve MalariaCountryProfile req w)
       = png_of [Plot 0 (map Str years) (map (fun y => cell_of (columns df) y r) years)
                      EmptyString;
                 SetTitle ("Malaria Deaths in " ++ py_str (cell_of (columns df) "country" r)
                             ++ " Over Time")%string;
                 SetXLabel "Year"; SetYLabel "Number of Deaths"; Grid; AutofmtXDate].
Proof.
  rewrite serve_fst. simpl view. rewrite malaria_profile_run. cbv zeta.
  destruct (args_get req "country") as [name|]; [|simpl; discriminate].
  destruct (PyStr.is_empty name); [simpl; discriminate|].
  destruct (loaded_frame _ _ w) as [df|e]; [|simpl; discriminate].
  destruct (df_empty df); [simpl; discriminate|].
  destruct (MalariaCharts.find_rows name df) as [found|e] eqn:Hfound;
    [|simpl; discriminate].
  destruct (df_empty found) eqn:Hne; [simpl; discriminate|].
  destruct (MalariaCharts._get_sorted_year_columns df) as [years|e] eqn:Hy;
    [|simpl; discriminate].
  destruct (row_values (columns found) years (hd [] (rows found))) as [deaths|e] eqn:Hd;
    [|simpl; discriminate].
  destruct (Nat.eqb _ _); [|simpl; discriminate].
  destruct (row_values (columns found) ["country"] (hd [] (rows found)))
    as [country|e] eqn:Hc; [|simpl; discriminate].
  intros _.
  destruct (malaria_find_rows_spec _ _ _ Hfound Hne) as (Hcols & Hrow).
  rewrite Hcols in *.
  apply row_values_spec in Hd as [-> _]. apply row_values_spec in Hc as [-> _].
  exists name, df, years, (hd [] (rows found)).
  split; [reflexivity|]. split; [reflexivity|]. split; [exact Hy|].
  split; [exact Hrow|]. reflexivity.
Qed.

Lemma malaria_profile_first_match_witness :
  exists name df years r,
    args_get (Request [("country", "niger")]) "country" = Some name
    /\ loaded_frame "malaria_data.csv" MalariaCharts.clean_frame Samples.sample_disk = Ok df
    /\ MalariaCharts._get_sorted_year_columns df = Ok years
    /\ (find (equal_ci (columns df) "country" name) (rows df) = Some r
        \/ (find (equal_ci (columns df) "country" name) (rows df) = None
            /\ exists f, re_search_ci name = Ok f
                         /\ find (matching (columns df) f) (rows df) = Some r))
    /\ fst (serve MalariaCountryProfile (Request [("country", "niger")]) Samples.sample_disk)
       = png_of [Plot 0 (map Str years) (map (fun y => cell_of (columns df) y r) years)
                      EmptyString;
                 SetTitle ("Malaria Deaths in " ++ py_str (cell_of (columns df) "country" r)
                             ++ " Over Time")%string;
                 SetXLabel "Year"; SetYLabel "Number of Deaths"; Grid; AutofmtXDate].
Proof.
  refine (@malaria_profile_charts_the_first_match Z _ _
            (Request [("country", "niger")]) Samples.sample_disk _).
  reflexivity.
Defined.

(** X16: the lines of an HIV profile.  When country_profile of
    charts_api.py answers 200, its figure holds three lines over the
    rows of the table whose 'Country' is the name of the URL up to case,
    in the order of the file: the deaths, the new infections and the
    people living with HIV of these rows against their 'Year'.  The
    title writes the name as the URL does. *)
Theorem hiv_profile_charts_the_rows_of_the_country
        {num : Type} `{Numeric num} `{Libs num}
        (name : string) (req : request) (w : world num) :
  status (fst (serve (CountryProfile name) req w)) = 200 ->
  exists df,
    loaded_frame "aids.csv" ChartsApi.clean_frame w = Ok df
    /\ let rs := filter (equal_ci (columns df) "Country" name) (rows df) in
       let column := fun c : string => map (cell_of (columns df) c) rs in
       rs <> []
       /\ fst (serve (CountryProfile name) req w)
          = png_of [Plot 0 (column "Year") (column "Data.AIDS-Related Deaths.All Ages")
                         "AIDS-Related Deaths";
                    SetXLabel "Year";
                    SetYLabel "Number of Deaths / New Infections";
                    TickParams 0; TickPlain 0; Twinx;
                    Plot 1 (column "Year") (column "Data.New HIV Infections.All Ages")
                         "New HIV Infections";
                    TickParams 1; TickPlain 1; Twinx; SpineOutward;
                    Plot 2 (column "Year") (column "Data.People Living with HIV.Total")
                         "People Living with HIV";
                    TickParams 2; TickPlain 2;
                    Suptitle ("Key AIDS Indicators for " ++ name ++ " Over Time")%string;
                    Grid; AutofmtXDate; Legend; TightLayout].
Proof.
  rewrite serve_fst. simpl view. rewrite hiv_profile_run.
  destruct (loaded_frame _ _ w) as [df|e]; [|simpl; discriminate].
  destruct (ChartsApi.lookup_country name df) as [cd|e] eqn:Hcd; [|simpl; discriminate].
  destruct (df_empty cd) eqn:Hne; [simpl; discriminate|].
  destruct (get_column cd "Year") as [years|e] eqn:Hy; [|simpl; discriminate].
  destruct (get_column cd "Data.AIDS-Related Deaths.All Ages") as [deaths|e] eqn:Hd;
    [|simpl; discriminate].
  destruct (get_column cd "Data.New HIV Infections.All Ages") as [inf|e] eqn:Hi;
    [|simpl; discriminate].
  destruct (get_column cd "Data.People Living with HIV.Total") as [pl|e] eqn:Hp;
    [|simpl; discriminate].
  intros _. exists df. split; [reflexivity|]. cbv zeta.
  destruct (hiv_lookup_spec _ _ _ Hcd) as (Hcols & Hrows).
  apply get_column_cell_of in Hy, Hd, Hi, Hp. rewrite Hcols, Hrows in *.
  destruct (df_empty_false _ Hne) as (r & rest & Hr). rewrite Hrows in Hr.
  split; [rewrite Hr; discriminate|]. subst. reflexivity.
Qed.

Lemma hiv_profile_rows_witness :
  exists df,
    loaded_frame "aids.csv" ChartsApi.clean_frame Samples.sample_disk = Ok df
    /\ let rs := filter (equal_ci (columns df) "Country" "kenya") (rows df) in
       let column := fun c : string => map (cell_of (columns df) c) rs in
       rs <> []
       /\ fst (serve (CountryProfile "kenya") (Request []) Samples.sample_disk)
          = png_of [Plot 0 (column "Year") (column "Data.AIDS-Related Deaths.All Ages")
                         "AIDS-Related Deaths";
                    SetXLabel "Year";
                    SetYLabel "Number of Deaths / New Infections";
                    TickParams 0; TickPlain 0; Twinx;
                    Plot 1 (column "Year") (column "Data.New HIV Infections.All Ages")
                         "New HIV Infections";
                    TickParams 1; TickPlain 1; Twinx; SpineOutward;
                    Plot 2 (column "Year") (column "Data.People Living with HIV.Total")
                         "People Living with HIV";
                    TickParams 2; TickPlain 2;
                    Suptitle ("Key AIDS Indicators for " ++ "kenya" ++ " Over Time")%string;
                    Grid; AutofmtXDate; Legend; TightLayout].
Proof.
  refine (@hiv_profile_charts_the_rows_of_the_country Z _ _ "kenya" (Request [])
            Samples.sample_disk _).
  reflexivity.
Defined.
